(** * LLM-APR fuzzing corpus: the command interpreters and record readers

    A shallow embedding of the programs under [src/data] (bug1.c to
    bug10.c) and the properties that the specification states about them,
    followed by further properties of the commands and readers that are
    read off the code.

    Conventions of the embedding (LP64, as the corpus is built for AFL on
    64-bit Linux):
    - [size_t] and [unsigned] values are [Z] in [0, 2^64) resp. [0, 2^32),
      with the wrap-around of every unsigned operation written out;
    - [long] and [int] values are [Z] in their signed ranges; conversions
      between integer types reduce modulo the width (two's complement);
    - behaviour that C leaves undefined (division by zero, an access
      outside a block, signed overflow, use of a freed block) ends the run
      with [Crash] and the fault that was hit;
    - a heap block is the list of its cells, so its capacity is the length
      of the list; whether an allocation request succeeds is decided by an
      oracle that the development is parametric in. *)

From Stdlib Require Import ZArith Lia String Ascii Bool DecimalString.
From Stdlib Require DecimalPos.
From stdpp Require Import base list.

Local Open Scope Z_scope.

(** ** Machine integers *)

Module CInt.

Definition SIZE_MAX : Z := 2 ^ 64 - 1.
Definition LONG_MAX : Z := 2 ^ 63 - 1.
Definition LONG_MIN : Z := - 2 ^ 63.
Definition INT_MAX : Z := 2 ^ 31 - 1.
Definition INT_MIN : Z := - 2 ^ 31.

(** [(size_t) z] *)
Definition to_size_t (z : Z) : Z := z mod 2 ^ 64.

(** [(long) z] *)
Definition to_long (z : Z) : Z := (z + 2 ^ 63) mod 2 ^ 64 - 2 ^ 63.

(** [(int) z] *)
Definition to_int (z : Z) : Z := (z + 2 ^ 31) mod 2 ^ 32 - 2 ^ 31.

Definition in_long (z : Z) : bool := (LONG_MIN <=? z) && (z <=? LONG_MAX).
Definition in_int (z : Z) : bool := (INT_MIN <=? z) && (z <=? INT_MAX).

(** [sizeof(int)] *)
Definition sizeof_int : Z := 4.

End CInt.

(** ** Outcomes of a run *)

Inductive fault : Set :=
  | DivideByZero      (* integer division with divisor 0 *)
  | OutOfBounds       (* read or write outside a block *)
  | NullPointer       (* access through NULL *)
  | SignedOverflow    (* signed arithmetic left its type *)
  | UseAfterFree      (* access to, or release of, a released block *)
  | Uninitialised     (* arithmetic on, or formatting of, a cell never written *)
  | Uncaught.         (* C++ exception that nothing catches *)

Inductive outcome (A : Type) : Type :=
  | Done (a : A)
  | Crash (f : fault).

Arguments Done {A} a.
Arguments Crash {A} f.

Definition outcome_bind {A B : Type} (k : A -> outcome B) (m : outcome A)
  : outcome B :=
  match m with
  | Done a => k a
  | Crash f => Crash f
  end.

#[global] Instance outcome_mret : MRet outcome := fun _ a => Done a.
#[global] Instance outcome_mbind : MBind outcome := fun _ _ k m => outcome_bind k m.

(** Checked signed arithmetic: the value, or [SignedOverflow]. *)
Definition long_arith (z : Z) : outcome Z :=
  if CInt.in_long z then Done z else Crash SignedOverflow.

Definition int_arith (z : Z) : outcome Z :=
  if CInt.in_int z then Done z else Crash SignedOverflow.

(** [a / b] in [long], in [int] and in [uint64_t]: the quotient rounds
    towards zero. *)
Definition long_div (a b : Z) : outcome Z :=
  if b =? 0 then Crash DivideByZero else long_arith (Z.quot a b).

Definition int_div (a b : Z) : outcome Z :=
  if b =? 0 then Crash DivideByZero else int_arith (Z.quot a b).

Definition u64_div (a b : Z) : outcome Z :=
  if b =? 0 then Crash DivideByZero else Done (a / b).

(** ** The C library functions the programs call *)

Module Libc.

Local Open Scope string_scope.
Local Open Scope Z_scope.

Definition isspace (c : ascii) : bool :=
  let n := Z.of_nat (nat_of_ascii c) in
  (n =? 32) || ((9 <=? n) && (n <=? 13)).

Definition isdigit (c : ascii) : bool :=
  let n := Z.of_nat (nat_of_ascii c) in
  (48 <=? n) && (n <=? 57).

Definition digit_val (c : ascii) : Z := Z.of_nat (nat_of_ascii c) - 48.

Fixpoint skip_space (s : string) : string :=
  match s with
  | String c s' => if isspace c then skip_space s' else s
  | EmptyString => s
  end.

(** Value of the longest prefix of decimal digits; 0 when there is none. *)
Fixpoint digits (acc : Z) (s : string) : Z :=
  match s with
  | String c s' => if isdigit c then digits (acc * 10 + digit_val c) s' else acc
  | EmptyString => acc
  end.

(** [strtol(s, NULL, 10)]: optional white space, optional sign, decimal
    digits; the result saturates at [LONG_MIN] and [LONG_MAX]; with no
    digits to convert the result is 0. *)
Definition strtol (s : string) : Z :=
  match skip_space s with
  | String c s' =>
      if Ascii.eqb c "-" then Z.max CInt.LONG_MIN (- digits 0 s')
      else if Ascii.eqb c "+" then Z.min CInt.LONG_MAX (digits 0 s')
      else Z.min CInt.LONG_MAX (digits 0 (String c s'))
  | EmptyString => 0
  end.

(** [atoi(s)], which glibc defines as [(int) strtol(s, NULL, 10)]. *)
Definition atoi (s : string) : Z := CInt.to_int (strtol s).

(** The bytes of a buffer up to its first NUL: what the [str*] functions
    and [%s] see. *)
Fixpoint c_str (s : string) : string :=
  match s with
  | String c s' => if Ascii.eqb c zero then "" else String c (c_str s')
  | EmptyString => ""
  end.

(** [nl = strchr(line, '\n'); if (nl) *nl = '\0';] *)
Fixpoint chomp (s : string) : string :=
  match s with
  | String c s' => if Ascii.eqb c "010" then "" else String c (chomp s')
  | EmptyString => ""
  end.

(** The successive results of [strtok_r(line, d, &save)],
    [strtok_r(NULL, d, &save)], ...: the maximal non-empty runs of bytes
    other than the delimiter. [cur] is the run being read. *)
Fixpoint strtok_from (d : ascii) (cur : string) (s : string) : list string :=
  match s with
  | EmptyString => if String.eqb cur "" then [] else [cur]
  | String c s' =>
      if Ascii.eqb c d
      then (if String.eqb cur "" then strtok_from d "" s'
            else cur :: strtok_from d "" s')
      else strtok_from d (String.append cur (String c "")) s'
  end.

Definition strtok_all (d : ascii) (s : string) : list string :=
  strtok_from d "" s.

(** [printf("%d", z)] and [printf("%ld", z)] *)
Definition fmt_d (z : Z) : string := NilZero.string_of_int (Z.to_int z).

(** [fgets(line, size, stdin)]: up to [size - 1] bytes, stopping after a
    newline. Returns the line and the rest of the stream. *)
Fixpoint fgets_from (room : nat) (s : string) : string * string :=
  match room, s with
  | O, _ => ("", s)
  | _, EmptyString => ("", "")
  | S room', String c s' =>
      if Ascii.eqb c "010" then (String c "", s')
      else let '(l, r) := fgets_from room' s' in (String c l, r)
  end.

Definition fgets (size : nat) (s : string) : option (string * string) :=
  match s with
  | EmptyString => None
  | _ => Some (fgets_from (Nat.pred size) s)
  end.

(** [fread(buf, 1, n, stream)]: the bytes obtained and the rest. *)
Fixpoint fread (n : Z) (s : string) : string * string :=
  match s with
  | EmptyString => ("", "")
  | String c s' =>
      if n <=? 0 then ("", s)
      else let '(b, r) := fread (n - 1) s' in (String c b, r)
  end.

(** The results of the successive calls [fgets(line, size, stream)] until
    end of file. [room] is what the buffer can still take, [cur] the
    line being read. *)
Fixpoint fgets_from_all (size : nat) (room : nat) (cur : string) (s : string)
  : list string :=
  match s with
  | EmptyString => if String.eqb cur "" then [] else [cur]
  | String c s' =>
      let cur' := String.append cur (String c "") in
      if Ascii.eqb c "010" then cur' :: fgets_from_all size (Nat.pred size) "" s'
      else match room with
           | S (S room') => fgets_from_all size (S room') cur' s'
           | _ => cur' :: fgets_from_all size (Nat.pred size) "" s'
           end
  end.

Definition fgets_all (size : nat) (s : string) : list string :=
  fgets_from_all size (Nat.pred size) "" s.

(** The lines [std::getline(std::cin, line)] returns one after another:
    the newline is taken from the stream and dropped. *)
Fixpoint getline_from (cur : string) (s : string) : list string :=
  match s with
  | EmptyString => if String.eqb cur "" then [] else [cur]
  | String c s' =>
      if Ascii.eqb c "010" then cur :: getline_from "" s'
      else getline_from (String.append cur (String c "")) s'
  end.

Definition getline_all (s : string) : list string := getline_from "" s.

(** Does the buffer hold a NUL? *)
Fixpoint has_nul (s : string) : bool :=
  match s with
  | String c s' => Ascii.eqb c zero || has_nul s'
  | EmptyString => false
  end.



End Libc.

(** ** bug1.c: the line-command interpreter (CALC, ALLOC, ECHO) *)

Module Bug1.

Import Libc.
Local Open Scope string_scope.
Local Open Scope Z_scope.

Definition MAX_LINE : nat := 1024.
Definition MAX_TOKENS : nat := 16.

Definition newline : string := String "010" "".

Section WithHeap.

(** Does [malloc] of that many bytes return a block? *)
Variable malloc_ok : Z -> bool.

(** [tokens[i][0]]: the first byte of a token, the terminating NUL when
    the token is empty. *)
Definition first_byte (t : string) : ascii :=
  match t with
  | String c _ => c
  | EmptyString => zero
  end.

(** The [switch (op)] of the CALC branch, in [int] arithmetic. *)
Definition calc (a : Z) (op : ascii) (b : Z) : outcome Z :=
  if Ascii.eqb op "+" then int_arith (a + b)
  else if Ascii.eqb op "-" then int_arith (a - b)
  else if Ascii.eqb op "*" then int_arith (a * b)
  else if Ascii.eqb op "/" then int_div a b
  else Done a.

(** [process_command(tokens, count)] with the unread part of [stdin]:
    what it prints and what it leaves of the stream. *)
Definition process_command (tokens : list string) (stdin : string)
  : outcome (string * string) :=
  match tokens with
  | [] => Done ("", stdin)
  | cmd :: args =>
      if String.eqb cmd "CALC" then
        match args with
        | t1 :: t2 :: t3 :: _ =>
            let a := atoi t1 in
            let b := atoi t3 in
            let op := first_byte t2 in
            result ← calc a op b;
            Done ("Result: " ++ fmt_d result ++ newline, stdin)
        | _ => Crash NullPointer                      (* p[10], p == NULL *)
        end
      else if String.eqb cmd "ALLOC" then
        match args with
        | t1 :: _ =>
            let sz := atoi t1 in
            if malloc_ok (CInt.to_size_t sz) then
              let '(buf, rest) := fread (CInt.to_size_t sz) stdin in
              if negb (Z.of_nat (String.length buf) =? CInt.to_size_t sz)
              then Crash OutOfBounds                  (* buf[sz+10] *)
              else if has_nul buf
              then Done ("Data read: " ++ c_str buf ++ newline, rest)
              else Crash OutOfBounds                  (* %s past the block *)
            else Crash OutOfBounds                    (* stack_buf[20] *)
        | [] => Crash OutOfBounds                     (* arr[10] *)
        end
      else if String.eqb cmd "ECHO" then
        Done (String.concat "" (map (fun t => t ++ " ") args) ++ newline, stdin)
      else
        if malloc_ok 10 then Crash OutOfBounds        (* strcpy of 12 bytes *)
        else Crash NullPointer
  end.

(** The tokens [main] hands to [process_command] for one [fgets] result. *)
Definition tokenize (line : string) : list string :=
  take MAX_TOKENS (strtok_all " " (c_str (chomp line))).

(** One turn of the loop of [main] on an input line. *)
Definition process_line (line : string) (stdin : string)
  : outcome (string * string) :=
  process_command (tokenize line) stdin.

(** The loop of [main]; every turn takes at least one byte from the
    stream, so [fuel] beyond its length is never used up. *)
Fixpoint main_loop (fuel : nat) (stdin : string) (out : string)
  : outcome string :=
  match fuel with
  | O => Done out
  | S fuel' =>
      match fgets MAX_LINE stdin with
      | None => Done out
      | Some (line, rest) =>
          r ← process_line line rest;
          main_loop fuel' r.2 (out ++ r.1)
      end
  end.

Definition main (stdin : string) : outcome string :=
  main_loop (S (String.length stdin)) stdin "".

End WithHeap.

End Bug1.

(** ** Heap blocks of [int] cells and the slot record

    bug6.c ([struct Array]) and its C++ port bug5.cpp ([struct ArrayInfo])
    keep the same three fields per slot. *)

Module Mem.

(** A cell of a block: [None] until it is written for the first time. *)
Definition cell : Type := option Z.

Inductive pointer : Type :=
  | Null
  | Live (cells : list cell)
  | Freed.

Record Array : Type := mkArray {
  data : pointer;
  size : Z;
  allocated : bool
}.

(** [{NULL, 0, 0}] *)
Definition unallocated : Array := mkArray Null 0 false.

Definition set_data (a : Array) (p : pointer) : Array :=
  mkArray p (size a) (allocated a).

Definition set_size (a : Array) (n : Z) : Array :=
  mkArray (data a) n (allocated a).

(** Number of [int] cells in a block of [bytes] bytes. *)
Definition cells_in (bytes : Z) : nat := Z.to_nat (bytes / CInt.sizeof_int).

(** The block a successful [malloc(bytes)] returns. *)
Definition fresh (bytes : Z) : pointer := Live (replicate (cells_in bytes) None).

(** The block a successful [realloc(p, bytes)] returns. *)
Definition regrow (p : pointer) (bytes : Z) : outcome pointer :=
  match p with
  | Null => Done (fresh bytes)
  | Live cells => Done (Live (resize (cells_in bytes) None cells))
  | Freed => Crash UseAfterFree
  end.

(** [realloc(p, 0)] for a pointer [p] other than NULL: the C library the
    corpus is built with (glibc) releases the block and returns NULL,
    whatever the allocator could still grant; the caller takes that for a
    failed request and keeps [p]. *)
Definition realloc_releases (p : pointer) (bytes : Z) : bool :=
  (bytes =? 0) && match p with Null => false | _ => true end.

(** [free(p)] *)
Definition c_free (p : pointer) : outcome unit :=
  match p with
  | Freed => Crash UseAfterFree
  | _ => Done ()
  end.

(** [p[i]] as an rvalue *)
Definition load (p : pointer) (i : Z) : outcome cell :=
  match p with
  | Null => Crash NullPointer
  | Freed => Crash UseAfterFree
  | Live cells =>
      if (i <? 0) || (Z.of_nat (length cells) <=? i) then Crash OutOfBounds
      else match cells !! Z.to_nat i with
           | Some c => Done c
           | None => Crash OutOfBounds
           end
  end.

(** [p[i] = c] *)
Definition store (p : pointer) (i : Z) (c : cell) : outcome pointer :=
  match p with
  | Null => Crash NullPointer
  | Freed => Crash UseAfterFree
  | Live cells =>
      if (i <? 0) || (Z.of_nat (length cells) <=? i) then Crash OutOfBounds
      else Done (Live (<[Z.to_nat i := c]> cells))
  end.

(** The value of a cell that is used in arithmetic or printed. *)
Definition value (c : cell) : outcome Z :=
  match c with
  | Some v => Done v
  | None => Crash Uninitialised
  end.

(** [tbl[idx]] as an rvalue *)
Definition get (tbl : list Array) (idx : Z) : outcome Array :=
  if (idx <? 0) || (Z.of_nat (length tbl) <=? idx) then Crash OutOfBounds
  else match tbl !! Z.to_nat idx with
       | Some a => Done a
       | None => Crash OutOfBounds
       end.

(** [tbl[idx] = a] for an entry of the table *)
Definition put (tbl : list Array) (idx : Z) (a : Array) : list Array :=
  <[Z.to_nat idx := a]> tbl.

(** [tbl[idx].data[i] = c] *)
Definition write (idx : Z) (i : Z) (c : cell) (tbl : list Array)
  : outcome (list Array) :=
  a ← get tbl idx;
  p ← store (data a) i c;
  Done (put tbl idx (set_data a p)).

(** [tbl[idx].data[i]] *)
Definition read (idx : Z) (i : Z) (tbl : list Array) : outcome cell :=
  a ← get tbl idx;
  load (data a) i.

(** One turn of [for (i = ...; ...; i++) body] on the counter and the
    loop's state. *)
Definition turn {S : Type} (body : Z -> S -> outcome S) (x : Z * S)
  : outcome (Z * S) :=
  s' ← body x.1 x.2; Done (x.1 + 1, s').

(** [p] turns, stopping at the first fault. *)
Fixpoint turns {S : Type} (p : positive) (body : Z -> S -> outcome S)
  (x : Z * S) : outcome (Z * S) :=
  match p with
  | xH => turn body x
  | xO p' => y ← turns p' body x; turns p' body y
  | xI p' => y ← turn body x; z ← turns p' body y; turns p' body z
  end.

(** [for (i = lo; i < hi; i++) body] *)
Definition for_loop {S : Type} (lo hi : Z) (body : Z -> S -> outcome S) (s : S)
  : outcome S :=
  if hi <=? lo then Done s
  else x ← turns (Z.to_pos (hi - lo)) body (lo, s); Done x.2.

(** The same loop, turn by turn: [n] turns from counter [i]. *)
Fixpoint iter {S : Type} (n : nat) (i : Z) (body : Z -> S -> outcome S) (s : S)
  : outcome S :=
  match n with
  | O => Done s
  | Datatypes.S n' => s' ← body i s; iter n' (i + 1) body s'
  end.

(** [memcpy(dst + at, src, bytes)] between [int] blocks *)
Definition memcpy (dst : pointer) (at_ : Z) (src : pointer) (bytes : Z)
  : outcome pointer :=
  for_loop 0 (Z.of_nat (cells_in bytes))
    (fun i dst => c ← load src i; store dst (at_ + i) c) dst.

(** *** Notions used to state the properties of the slot tables *)

(** The guard every operation applies before it touches a slot,
    [idx < count && tbl[idx].allocated]. *)
Definition occupied (tbl : list Array) (idx : Z) : bool :=
  match get tbl idx with
  | Done a => allocated a
  | Crash _ => false
  end.

(** The accessor [get(index) -> Option<Slot>] of the specification, read
    off that guard. *)
Definition lookup_slot (tbl : list Array) (idx : Z) : option Array :=
  match get tbl idx with
  | Done a => if allocated a then Some a else None
  | Crash _ => None
  end.


(** The reasons for which [splice_array] turns its arguments down: a slot
    without an array, a negative offset or count, or a range that ends
    beyond the source. *)
Definition splice_rejected (tbl : list Array) (dest src offset count : Z) : Prop :=
  occupied tbl dest = false
  \/ occupied tbl src = false
  \/ offset < 0
  \/ count < 0
  \/ (exists s, get tbl src = Done s
               /\ 0 <= size s < offset + count /\ offset + count <= CInt.LONG_MAX).

End Mem.

(** ** bug6.c: the record manager (CREATE, FILL, SPLICE, JOIN, FREE, STAT,
    PRINT) *)

Module Bug6.

Import Libc Mem.
Local Open Scope string_scope.
Local Open Scope Z_scope.

(** [sizeof(struct Array)] *)
Definition sizeof_Array : Z := 24.

(** The file-scope table ([arrays] with [array_count] entries, the length
    of the list), the number of allocation requests made so far, and what
    was printed. *)
Record state : Type := mkState {
  arrays : list Array;
  clock : nat;
  stdout : string
}.

Definition initial : state := mkState [] 0 "".

Definition array_count (st : state) : Z := Z.of_nat (length (arrays st)).

Definition set_arrays (st : state) (tbl : list Array) : state :=
  mkState tbl (clock st) (stdout st).

Definition tick (st : state) : state :=
  mkState (arrays st) (S (clock st)) (stdout st).

Definition print (st : state) (s : string) : state :=
  mkState (arrays st) (clock st) (stdout st ++ s).

(** [arrays[idx]] *)
Definition slot (st : state) (idx : Z) : outcome Array := get (arrays st) idx.

(** [arrays[idx] = a] for an entry of the table *)
Definition set_slot (st : state) (idx : Z) (a : Array) : state :=
  set_arrays st (put (arrays st) idx a).

Section WithHeap.

(** [heap_ok n bytes]: does the [n]-th allocation request of the run, for
    [bytes] bytes, return a block? *)
Variable heap_ok : nat -> Z -> bool.

(** When the initialising loop has nothing to do the count would be
    published beyond the block; that needs a table of 2^63 entries and is
    folded into the out-of-bounds case. *)
Definition ensure_capacity (idx : Z) (st : state) : outcome state :=
  if array_count st <=? idx then
    let new_count := CInt.to_size_t (idx + 1) in
    let new_count :=
      if new_count <? CInt.to_size_t (array_count st * 2)
      then CInt.to_size_t (CInt.to_size_t (array_count st * 2) + 1)
      else new_count in
    let new_count := if new_count <? 16 then 16 else new_count in
    let bytes := CInt.to_size_t (new_count * sizeof_Array) in
    let ok := heap_ok (clock st) bytes in
    let st := tick st in
    if negb ok then Done st
    else if new_count <=? bytes / sizeof_Array
    then Done (set_arrays st (resize (Z.to_nat new_count) unallocated (arrays st)))
    else Crash OutOfBounds
  else Done st.

Definition create_array (idx : Z) (size_arg : Z) (st : state) : outcome state :=
  st ← ensure_capacity idx st;
  if array_count st <=? idx then Done st
  else
    a ← slot st idx;
    st ← (if allocated a
          then _ ← c_free (data a); Done (set_slot st idx unallocated)
          else Done st);
    let size_arg := if size_arg <? 0 then 10 else size_arg in
    let count := CInt.to_size_t size_arg in
    let count := if CInt.SIZE_MAX / CInt.sizeof_int <? count then 100 else count in
    let bytes := CInt.to_size_t (count * CInt.sizeof_int) in
    let ok := heap_ok (clock st) bytes in
    let st := tick st in
    if negb ok then Done st
    else
      let st := set_slot st idx (mkArray (fresh bytes) count true) in
      tbl ← for_loop 0 count (fun i => write idx i (Some 0)) (arrays st);
      Done (set_arrays st tbl).

Definition fill_array (idx : Z) (value : Z) (st : state) : outcome state :=
  if array_count st <=? idx then Done st
  else
    a ← slot st idx;
    if negb (allocated a) then Done st
    else
      tbl ← for_loop 0 (size a)
              (fun i => write idx i (Some (CInt.to_int value))) (arrays st);
      Done (set_arrays st tbl).

Definition splice_array (dest src : Z) (offset count : Z) (st : state)
  : outcome state :=
  if (array_count st <=? dest) || (array_count st <=? src) then Done st
  else
    d ← slot st dest;
    s ← slot st src;
    if negb (allocated d) || negb (allocated s) then Done st
    else if (offset <? 0) || (count <? 0) then Done st
    else
      end_ ← long_arith (offset + count);
      if CInt.to_long (size s) <? end_ then Done st
      else
        let new_size := CInt.to_size_t (size d + count) in
        let new_size :=
          if new_size <? size d then CInt.to_size_t (size d + 10) else new_size in
        let bytes := CInt.to_size_t (new_size * CInt.sizeof_int) in
        let ok := heap_ok (clock st) bytes in
        let st := tick st in
        if realloc_releases (data d) bytes then
          (* realloc(p, 0): the block is gone, the slot keeps its pointer *)
          _ ← c_free (data d);
          Done (set_slot st dest (set_data d Freed))
        else if negb ok then Done st
        else
          new_data ← regrow (data d) bytes;
          let st := set_slot st dest (set_data d new_data) in
          tbl ← for_loop 0 count
                  (fun i tbl =>
                     c ← read src (offset + i) tbl;
                     write dest (CInt.to_size_t (size d + i)) c tbl) (arrays st);
          d ← get tbl dest;
          Done (set_arrays st (put tbl dest (set_size d new_size))).

Definition join_arrays (new_idx idx1 idx2 : Z) (st : state) : outcome state :=
  if (array_count st <=? idx1) || (array_count st <=? idx2) then Done st
  else
    a1 ← slot st idx1;
    a2 ← slot st idx2;
    if negb (allocated a1) || negb (allocated a2) then Done st
    else
      let new_size := CInt.to_size_t (size a1 + size a2) in
      let new_size :=
        if (new_size <? size a1) || (new_size <? size a2)
        then CInt.to_size_t (size a1 + size a2 / 2)
        else new_size in
      st ← ensure_capacity new_idx st;
      if array_count st <=? new_idx then Done st
      else
        n ← slot st new_idx;
        st ← (if allocated n
              then _ ← c_free (data n); Done (set_slot st new_idx (set_data n Freed))
              else Done st);
        let bytes := CInt.to_size_t (new_size * CInt.sizeof_int) in
        let ok := heap_ok (clock st) bytes in
        let st := tick st in
        if negb ok then Done st
        else
          a1 ← slot st idx1;
          p ← memcpy (fresh bytes) 0 (data a1)
                (CInt.to_size_t (size a1 * CInt.sizeof_int));
          a2 ← slot st idx2;
          p ← memcpy p (size a1) (data a2)
                (CInt.to_size_t (size a2 * CInt.sizeof_int));
          Done (set_slot st new_idx (mkArray p new_size true)).

Definition free_array (idx : Z) (st : state) : outcome state :=
  if array_count st <=? idx then Done st
  else
    a ← slot st idx;
    if allocated a
    then _ ← c_free (data a); Done (set_slot st idx unallocated)
    else Done st.

Definition compute_stat (idx : Z) (st : state) : outcome state :=
  if array_count st <=? idx then Done st
  else
    a ← slot st idx;
    if negb (allocated a) then Done st
    else if size a =? 0 then Done st
    else
      sum ← for_loop 0 (size a)
              (fun i sum => c ← load (data a) i; v ← value c; long_arith (sum + v)) 0;
      avg ← long_div sum (CInt.to_long (size a));
      Done (print st ("Average: " ++ fmt_d avg ++ String "010" "")).

Definition print_array (idx : Z) (start end_ : Z) (st : state) : outcome state :=
  if array_count st <=? idx then Done st
  else
    a ← slot st idx;
    if negb (allocated a) then Done st
    else if (start <? 0) || (end_ <? start) || (size a <=? CInt.to_size_t end_)
    then Done st
    else
      out ← for_loop start (end_ + 1)
              (fun i out => c ← read idx i (arrays st); v ← value c;
                            Done (out ++ fmt_d v ++ " ")) "";
      _ ← long_arith (end_ + 1);
      Done (print st (out ++ String "010" "")).

(** [#define ARG_L(i) ((i) < count ? strtol(tokens[i], NULL, 10) : 0)] *)
Definition ARG_L (tokens : list string) (i : nat) : Z :=
  match tokens !! i with
  | Some t => strtol t
  | None => 0
  end.

(** The command chain of [main] for the tokens of one line. *)
Definition dispatch (tokens : list string) (st : state) : outcome state :=
  let count := length tokens in
  let arg := ARG_L tokens in
  match tokens with
  | [] => Done st
  | cmd :: _ =>
      if String.eqb cmd "CREATE" && Nat.ltb 2 count then
        create_array (CInt.to_size_t (arg 1%nat)) (arg 2%nat) st
      else if String.eqb cmd "FILL" && Nat.ltb 2 count then
        fill_array (CInt.to_size_t (arg 1%nat)) (arg 2%nat) st
      else if String.eqb cmd "SPLICE" && Nat.ltb 4 count then
        splice_array (CInt.to_size_t (arg 1%nat)) (CInt.to_size_t (arg 2%nat))
          (arg 3%nat) (arg 4%nat) st
      else if String.eqb cmd "JOIN" && Nat.ltb 3 count then
        join_arrays (CInt.to_size_t (arg 1%nat)) (CInt.to_size_t (arg 2%nat))
          (CInt.to_size_t (arg 3%nat)) st
      else if String.eqb cmd "FREE" && Nat.ltb 1 count then
        free_array (CInt.to_size_t (arg 1%nat)) st
      else if String.eqb cmd "STAT" && Nat.ltb 1 count then
        compute_stat (CInt.to_size_t (arg 1%nat)) st
      else if String.eqb cmd "PRINT" && Nat.ltb 3 count then
        print_array (CInt.to_size_t (arg 1%nat)) (arg 2%nat) (arg 3%nat) st
      else Done st
  end.

(** One turn of the loop of [main]: the line as [fgets] returned it. *)
Definition process_line (line : string) (st : state) : outcome state :=
  dispatch (take 10 (strtok_all " " (c_str (chomp line)))) st.

(** The loop of [main] over the lines [fgets] returns one after another. *)
Fixpoint run (lines : list string) (st : state) : outcome state :=
  match lines with
  | [] => Done st
  | line :: rest => st' ← process_line line st; run rest st'
  end.

Definition main (stdin : string) : outcome state :=
  run (fgets_all 1024 stdin) initial.

End WithHeap.

(** *** Notions used to state the properties of bug6.c *)

(** The element count [create_array] gives a slot for a size argument. *)
Definition slot_count (size_arg : Z) : Z :=
  let size_arg := if size_arg <? 0 then 10 else size_arg in
  let count := CInt.to_size_t size_arg in
  if CInt.SIZE_MAX / CInt.sizeof_int <? count then 100 else count.

(** The number of tokens after the command word that [main] asks for
    before it runs the command ([count > 2] for CREATE, and so on); 0 for
    a word that is no command. *)
Definition needs (cmd : string) : nat :=
  if String.eqb cmd "CREATE" then 2
  else if String.eqb cmd "FILL" then 2
  else if String.eqb cmd "SPLICE" then 4
  else if String.eqb cmd "JOIN" then 3
  else if String.eqb cmd "FREE" then 1
  else if String.eqb cmd "STAT" then 1
  else if String.eqb cmd "PRINT" then 3
  else 0.

(** Does the command of these tokens create an array at slot [i]
    ([CREATE i size], [JOIN i idx1 idx2])? *)
Definition creates_at (i : Z) (tokens : list string) : bool :=
  match tokens with
  | [] => false
  | cmd :: _ =>
      ((String.eqb cmd "CREATE" && Nat.ltb 2 (length tokens))
       || (String.eqb cmd "JOIN" && Nat.ltb 3 (length tokens)))
      && (CInt.to_size_t (ARG_L tokens 1) =? i)
  end.

Definition line_creates_at (i : Z) (line : string) : bool :=
  creates_at i (take 10 (strtok_all " " (c_str (chomp line)))).

End Bug6.

(** ** bug5.cpp: the in-memory database of integer arrays (CREATE_ARRAY,
    FILL_ARRAY, SPLICE_ARRAY, JOIN_ARRAYS, FREE_ARRAY, COMPUTE_STAT,
    PRINT_ARRAY) *)

Module Bug5.

Import Libc Mem.
Local Open Scope string_scope.
Local Open Scope Z_scope.

Abbreviation ArrayInfo := Mem.Array.

(** [sizeof(ArrayInfo)] and [std::vector<ArrayInfo>::max_size()] *)
Definition sizeof_ArrayInfo : Z := 24.
Definition max_size : Z := CInt.LONG_MAX / sizeof_ArrayInfo.

Definition nl : string := String "010" "".

(** The vector [arrays], the number of allocation requests made so far,
    and what went to [std::cout] and [std::cerr]. *)
Record state : Type := mkState {
  arrays : list ArrayInfo;
  clock : nat;
  stdout : string;
  stderr : string
}.

Definition initial : state := mkState [] 0 "" "".

(** [arrays.size()] *)
Definition arrays_size (st : state) : Z := Z.of_nat (length (arrays st)).

Definition set_arrays (st : state) (v : list ArrayInfo) : state :=
  mkState v (clock st) (stdout st) (stderr st).

Definition tick (st : state) : state :=
  mkState (arrays st) (S (clock st)) (stdout st) (stderr st).

Definition cout (st : state) (s : string) : state :=
  mkState (arrays st) (clock st) (stdout st ++ s) (stderr st).

Definition cerr (st : state) (s : string) : state :=
  mkState (arrays st) (clock st) (stdout st) (stderr st ++ s).

(** [arrays[idx]], which [operator[]] does not check *)
Definition slot (st : state) (idx : Z) : outcome ArrayInfo := get (arrays st) idx.

Definition set_slot (st : state) (idx : Z) (a : ArrayInfo) : state :=
  set_arrays st (put (arrays st) idx a).

Section WithHeap.

Variable heap_ok : nat -> Z -> bool.

(** [arrays.resize(n, {NULL, 0, false})]: [std::length_error] beyond
    [max_size()], [std::bad_alloc] when growing fails; nothing catches
    either. Every growth asks the allocator. *)
Definition vector_resize (n : Z) (st : state) : outcome state :=
  if max_size <? n then Crash Uncaught
  else if n <=? arrays_size st
  then Done (set_arrays st (take (Z.to_nat n) (arrays st)))
  else
    let ok := heap_ok (clock st) (n * sizeof_ArrayInfo) in
    let st := tick st in
    if negb ok then Crash Uncaught
    else Done (set_arrays st (resize (Z.to_nat n) unallocated (arrays st))).

Definition ensure_capacity (idx : Z) (st : state) : outcome state :=
  if arrays_size st <=? idx
  then vector_resize (CInt.to_size_t (idx + 1)) st
  else Done st.

Definition create_array (idx : Z) (count : Z) (st : state) : outcome state :=
  st ← ensure_capacity idx st;
  a ← slot st idx;
  st ← (if allocated a
        then _ ← c_free (data a); Done (set_slot st idx unallocated)
        else Done st);
  let count := if count <? 0 then 100 else count in
  let alloc_size := CInt.to_size_t (CInt.to_size_t count * CInt.sizeof_int) in
  let ok := heap_ok (clock st) alloc_size in
  let st := tick st in
  if negb ok then Done st
  else
    let st := set_slot st idx (mkArray (fresh alloc_size) (CInt.to_size_t count) true) in
    tbl ← for_loop 0 (CInt.to_size_t count) (fun i => write idx i (Some 0)) (arrays st);
    Done (set_arrays st tbl).

Definition fill_array (idx : Z) (value : Z) (st : state) : outcome state :=
  if arrays_size st <=? idx
  then Done (cerr st ("fill_array: array not allocated" ++ nl))
  else
    a ← slot st idx;
    if negb (allocated a)
    then Done (cerr st ("fill_array: array not allocated" ++ nl))
    else
      tbl ← for_loop 0 (size a)
              (fun i => write idx i (Some (CInt.to_int value))) (arrays st);
      Done (set_arrays st tbl).

Definition splice_array (dest src : Z) (offset count : Z) (st : state)
  : outcome state :=
  st ← ensure_capacity dest st;
  st ← ensure_capacity src st;
  d ← slot st dest;
  if negb (allocated d)
  then Done (cerr st ("splice_array: one or both arrays not allocated" ++ nl))
  else
    s ← slot st src;
    if negb (allocated s)
    then Done (cerr st ("splice_array: one or both arrays not allocated" ++ nl))
    else if (offset <? 0) || (count <? 0)
    then Done (cerr st ("splice_array: invalid offset/count" ++ nl))
    else
      end_ ← long_arith (offset + count);
      if CInt.to_long (size s) <? end_
      then Done (cerr st ("splice_array: invalid offset/count" ++ nl))
      else
        new_size ← long_arith (CInt.to_long (size d) + count);
        let new_size := if new_size <? 0 then 10 else new_size in
        let bytes := CInt.to_size_t (CInt.to_size_t new_size * CInt.sizeof_int) in
        let ok := heap_ok (clock st) bytes in
        let st := tick st in
        if realloc_releases (data d) bytes then
          (* realloc(p, 0): the block is gone, the slot keeps its pointer *)
          _ ← c_free (data d);
          Done (cerr (set_slot st dest (set_data d Freed))
                  ("splice_array: realloc failed" ++ nl))
        else if negb ok then Done (cerr st ("splice_array: realloc failed" ++ nl))
        else
          new_data ← regrow (data d) bytes;
          let st := set_slot st dest (set_data d new_data) in
          tbl ← for_loop 0 count
                  (fun i tbl =>
                     c ← read src (offset + i) tbl;
                     write dest (CInt.to_size_t (size d + i)) c tbl) (arrays st);
          d ← get tbl dest;
          Done (set_arrays st (put tbl dest (set_size d (CInt.to_size_t new_size)))).

Definition join_arrays (new_idx idx1 idx2 : Z) (st : state) : outcome state :=
  st ← ensure_capacity new_idx st;
  st ← ensure_capacity idx1 st;
  st ← ensure_capacity idx2 st;
  a1 ← slot st idx1;
  if negb (allocated a1)
  then Done (cerr st ("join_arrays: one or both arrays not allocated" ++ nl))
  else
    a2 ← slot st idx2;
    if negb (allocated a2)
    then Done (cerr st ("join_arrays: one or both arrays not allocated" ++ nl))
    else if CInt.SIZE_MAX - size a2 <? size a1
    then Done (cerr st ("join_arrays: size overflow" ++ nl))
    else
      let new_size := size a1 + size a2 in
      let bytes := CInt.to_size_t (new_size * CInt.sizeof_int) in
      let ok := heap_ok (clock st) bytes in
      let st := tick st in
      if negb ok then Done (cerr st ("join_arrays: malloc failed" ++ nl))
      else
        p ← memcpy (fresh bytes) 0 (data a1)
              (CInt.to_size_t (size a1 * CInt.sizeof_int));
        p ← memcpy p (size a1) (data a2)
              (CInt.to_size_t (size a2 * CInt.sizeof_int));
        n ← slot st new_idx;
        _ ← (if allocated n then c_free (data n) else Done ());
        Done (set_slot st new_idx (mkArray p new_size true)).

Definition free_array (idx : Z) (st : state) : outcome state :=
  if arrays_size st <=? idx
  then Done (cerr st ("free_array: array not allocated or invalid index" ++ nl))
  else
    a ← slot st idx;
    if allocated a
    then _ ← c_free (data a); Done (set_slot st idx unallocated)
    else Done (cerr st ("free_array: array not allocated or invalid index" ++ nl)).

Definition compute_stat (idx : Z) (st : state) : outcome state :=
  if arrays_size st <=? idx
  then Done (cerr st ("compute_stat: array not allocated" ++ nl))
  else
    a ← slot st idx;
    if negb (allocated a)
    then Done (cerr st ("compute_stat: array not allocated" ++ nl))
    else if size a =? 0
    then Done (cerr st ("compute_stat: array is empty" ++ nl))
    else
      sum ← for_loop 0 (size a)
              (fun i sum => c ← load (data a) i; v ← value c; long_arith (sum + v)) 0;
      avg ← long_div sum (CInt.to_long (size a));
      Done (cout st ("Average: " ++ fmt_d avg ++ nl)).

Definition print_array (idx : Z) (start end_ : Z) (st : state) : outcome state :=
  if arrays_size st <=? idx
  then Done (cerr st ("print_array: array not allocated" ++ nl))
  else
    a ← slot st idx;
    if negb (allocated a)
    then Done (cerr st ("print_array: array not allocated" ++ nl))
    else if (start <? 0) || (end_ <? start) || (size a <=? CInt.to_size_t end_)
    then Done (cerr st ("print_array: invalid range" ++ nl))
    else
      out ← for_loop start (end_ + 1)
              (fun i out => c ← read idx i (arrays st); v ← value c;
                            Done (out ++ fmt_d v ++ " ")) "";
      _ ← long_arith (end_ + 1);
      Done (cout st (out ++ nl)).

(** The tokens of a line: cut at every space, a last empty piece dropped. *)
Fixpoint tokens_from (cur : string) (s : string) : list string :=
  match s with
  | EmptyString => if String.eqb cur "" then [] else [cur]
  | String c s' =>
      if Ascii.eqb c " " then cur :: tokens_from "" s'
      else tokens_from (String.append cur (String c "")) s'
  end.

Definition tokenize (line : string) : list string := tokens_from "" line.

(** The lambda [toL] of [main] *)
Definition toL (tokens : list string) (i : nat) : Z :=
  match tokens !! i with
  | Some t => strtol t
  | None => 0
  end.

Definition dispatch (tokens : list string) (st : state) : outcome state :=
  let count := length tokens in
  let arg := toL tokens in
  match tokens with
  | [] => Done st
  | cmd :: _ =>
      if String.eqb cmd "CREATE_ARRAY" && Nat.ltb 2 count then
        create_array (CInt.to_size_t (arg 1%nat)) (arg 2%nat) st
      else if String.eqb cmd "FILL_ARRAY" && Nat.ltb 2 count then
        fill_array (CInt.to_size_t (arg 1%nat)) (arg 2%nat) st
      else if String.eqb cmd "SPLICE_ARRAY" && Nat.ltb 4 count then
        splice_array (CInt.to_size_t (arg 1%nat)) (CInt.to_size_t (arg 2%nat))
          (arg 3%nat) (arg 4%nat) st
      else if String.eqb cmd "JOIN_ARRAYS" && Nat.ltb 3 count then
        join_arrays (CInt.to_size_t (arg 1%nat)) (CInt.to_size_t (arg 2%nat))
          (CInt.to_size_t (arg 3%nat)) st
      else if String.eqb cmd "FREE_ARRAY" && Nat.ltb 1 count then
        free_array (CInt.to_size_t (arg 1%nat)) st
      else if String.eqb cmd "COMPUTE_STAT" && Nat.ltb 1 count then
        compute_stat (CInt.to_size_t (arg 1%nat)) st
      else if String.eqb cmd "PRINT_ARRAY" && Nat.ltb 3 count then
        print_array (CInt.to_size_t (arg 1%nat)) (arg 2%nat) (arg 3%nat) st
      else Done st
  end.

Definition process_line (line : string) (st : state) : outcome state :=
  dispatch (tokenize line) st.

Fixpoint run (lines : list string) (st : state) : outcome state :=
  match lines with
  | [] => Done st
  | line :: rest => st' ← process_line line st; run rest st'
  end.

Definition main (stdin : string) : outcome state :=
  run (getline_all stdin) initial.

End WithHeap.

(** *** Notions used to state the properties of bug5.cpp *)

(** The element count [create_array] gives a slot for a count argument. *)
Definition slot_count (count : Z) : Z := if count <? 0 then 100 else count.

(** The number of tokens after the command word that [main] asks for
    before it runs the command ([tokens.size() > 2] for CREATE_ARRAY, and
    so on); 0 for a word that is no command. *)
Definition needs (cmd : string) : nat :=
  if String.eqb cmd "CREATE_ARRAY" then 2
  else if String.eqb cmd "FILL_ARRAY" then 2
  else if String.eqb cmd "SPLICE_ARRAY" then 4
  else if String.eqb cmd "JOIN_ARRAYS" then 3
  else if String.eqb cmd "FREE_ARRAY" then 1
  else if String.eqb cmd "COMPUTE_STAT" then 1
  else if String.eqb cmd "PRINT_ARRAY" then 3
  else 0.

(** Does the command of these tokens create an array at slot [i]
    ([CREATE_ARRAY i count], [JOIN_ARRAYS i idx1 idx2])? *)
Definition creates_at (i : Z) (tokens : list string) : bool :=
  match tokens with
  | [] => false
  | cmd :: _ =>
      ((String.eqb cmd "CREATE_ARRAY" && Nat.ltb 2 (length tokens))
       || (String.eqb cmd "JOIN_ARRAYS" && Nat.ltb 3 (length tokens)))
      && (CInt.to_size_t (toL tokens 1) =? i)
  end.

Definition line_creates_at (i : Z) (line : string) : bool :=
  creates_at i (tokenize line).

(** [st'] is [st] with more unallocated entries at the end of the vector,
    and the same output. *)
Definition grown (st st' : state) : Prop :=
  (exists n, (length (arrays st) <= n)%nat
             /\ arrays st' = resize n unallocated (arrays st))
  /\ stdout st' = stdout st /\ stderr st' = stderr st.

End Bug5.

(** ** bug7.c: the configuration store (SET, REMOVE, COMPUTE, DUMP) *)

Module Bug7.

Import Libc.
Local Open Scope string_scope.
Local Open Scope Z_scope.

(** [struct kv]: each pointer is NULL ([None]) or a string made by
    [strdup]. *)
Record kv : Type := mkKv {
  key : option string;
  value : option string
}.

(** [sizeof(struct kv)] *)
Definition sizeof_kv : Z := 16.

(** The block [pairs] (its length is [pair_capacity]), [pair_count], the
    number of allocation requests so far, and the output. *)
Record state : Type := mkState {
  pairs : list kv;
  pair_count : Z;
  clock : nat;
  stdout : string
}.

Definition initial : state := mkState [] 0 0 "".

Definition pair_capacity (st : state) : Z := Z.of_nat (length (pairs st)).

Definition set_pairs (st : state) (l : list kv) : state :=
  mkState l (pair_count st) (clock st) (stdout st).

Definition set_count (st : state) (n : Z) : state :=
  mkState (pairs st) n (clock st) (stdout st).

Definition tick (st : state) : state :=
  mkState (pairs st) (pair_count st) (S (clock st)) (stdout st).

Definition print (st : state) (s : string) : state :=
  mkState (pairs st) (pair_count st) (clock st) (stdout st ++ s).

(** [pairs[i]] *)
Definition pair_at (st : state) (i : Z) : outcome kv :=
  if (i <? 0) || (pair_capacity st <=? i) then Crash OutOfBounds
  else match pairs st !! Z.to_nat i with
       | Some p => Done p
       | None => Crash OutOfBounds
       end.

Definition set_pair_at (st : state) (i : Z) (p : kv) : state :=
  set_pairs st (<[Z.to_nat i := p]> (pairs st)).

Section WithHeap.

Variable heap_ok : nat -> Z -> bool.

(** [strdup(s)]: NULL when the allocator refuses. *)
Definition strdup (s : string) (st : state) : option string * state :=
  let ok := heap_ok (clock st) (Z.of_nat (String.length s) + 1) in
  (if ok then Some s else None, tick st).

Definition ensure_capacity (st : state) : outcome state :=
  if pair_capacity st <=? pair_count st then
    let new_capacity :=
      if pair_capacity st =? 0 then 4 else CInt.to_size_t (pair_capacity st * 2) in
    let bytes := CInt.to_size_t (new_capacity * sizeof_kv) in
    let ok := heap_ok (clock st) bytes in
    let st := tick st in
    if negb ok then Done st
    else if new_capacity <=? bytes / sizeof_kv
    then Done (set_pairs st (resize (Z.to_nat new_capacity) (mkKv None None) (pairs st)))
    else Crash OutOfBounds
  else Done st.

(** [free_pair(i)] *)
Definition free_pair (i : Z) (st : state) : outcome state :=
  _ ← pair_at st i;
  Done (set_pair_at st i (mkKv None None)).

(** The first [i < pair_count] with [pairs[i].key] equal to [k], looking
    from [i] on for [n] entries. *)
Fixpoint find_key (n : nat) (i : Z) (k : string) (st : state) : outcome (option Z) :=
  match n with
  | O => Done None
  | S n' =>
      p ← pair_at st i;
      match key p with
      | Some k' => if String.eqb k' k then Done (Some i) else find_key n' (i + 1) k st
      | None => find_key n' (i + 1) k st
      end
  end.

Definition set_pair (k v : string) (st : state) : outcome state :=
  found ← find_key (Z.to_nat (pair_count st)) 0 k st;
  match found with
  | Some i =>
      p ← pair_at st i;
      let '(new_val, st) := strdup v st in
      match new_val with
      | Some _ => Done (set_pair_at st i (mkKv (key p) new_val))
      | None => Done st
      end
  | None =>
      st ← ensure_capacity st;
      if pair_count st <? pair_capacity st then
        let '(k', st) := strdup k st in
        let '(v', st) := strdup v st in
        Done (set_count (set_pair_at st (pair_count st) (mkKv k' v'))
                (pair_count st + 1))
      else Done st
  end.

Definition remove_key (k : string) (st : state) : outcome state :=
  found ← find_key (Z.to_nat (pair_count st)) 0 k st;
  match found with
  | None =>
      if 0 <? pair_count st
      then _ ← pair_at st (pair_count st + 10); Done st
      else Done st
  | Some i =>
      st ← free_pair i st;
      st ← (if negb (i =? CInt.to_size_t (pair_count st - 1)) && (0 <? pair_count st)
            then last ← pair_at st (pair_count st - 1);
                 Done (set_pair_at (set_pair_at st i last)
                         (pair_count st - 1) (mkKv None None))
            else Done st);
      if 0 <? pair_count st then Done (set_count st (pair_count st - 1))
      else Done st
  end.

(** The sum of [strlen(pairs[i].value)] over the entries that have one. *)
Fixpoint total_length (n : nat) (i : Z) (acc : Z) (st : state) : outcome Z :=
  match n with
  | O => Done acc
  | S n' =>
      p ← pair_at st i;
      acc' ← (match value p with
              | Some v => long_arith (acc + Z.of_nat (String.length v))
              | None => Done acc
              end);
      total_length n' (i + 1) acc' st
  end.

Definition compute_stats (st : state) : outcome state :=
  if pair_count st =? 0 then
    avg ← long_div 100 (CInt.to_long (pair_count st));
    Done (print st ("Average length: " ++ fmt_d avg ++ String "010" ""))
  else
    total ← total_length (Z.to_nat (pair_count st)) 0 0 st;
    avg ← long_div total (CInt.to_long (pair_count st));
    Done (print st ("Average length: " ++ fmt_d avg ++ String "010" "")).

Fixpoint dump_from (n : nat) (i : Z) (st : state) : outcome state :=
  match n with
  | O => Done st
  | S n' =>
      p ← pair_at st i;
      let st :=
        match key p, value p with
        | Some k, Some v => print st (k ++ "=" ++ v ++ String "010" "")
        | _, _ => st
        end in
      dump_from n' (i + 1) st
  end.

Definition dump (st : state) : outcome state :=
  dump_from (Z.to_nat (pair_count st)) 0 st.

(** [strtok(line, " ")] followed by [strtok(NULL, "")]: the first word and
    what follows the space that ends it (NULL when nothing does). *)
Fixpoint skip_blanks (s : string) : string :=
  match s with
  | String c s' => if Ascii.eqb c " " then skip_blanks s' else s
  | EmptyString => s
  end.

Fixpoint word_and_rest (s : string) : string * option string :=
  match s with
  | EmptyString => ("", None)
  | String c s' =>
      if Ascii.eqb c " "
      then ("", match s' with EmptyString => None | _ => Some s' end)
      else let '(w, r) := word_and_rest s' in (String c w, r)
  end.

(** [strchr(kv, '=')]: the text before and after the first [=]. *)
Fixpoint split_eq (s : string) : option (string * string) :=
  match s with
  | EmptyString => None
  | String c s' =>
      if Ascii.eqb c "="
      then Some ("", s')
      else match split_eq s' with
           | Some (k, v) => Some (String c k, v)
           | None => None
           end
  end.

Fixpoint skip_blanks_tabs (s : string) : string :=
  match s with
  | String c s' =>
      if Ascii.eqb c " " || Ascii.eqb c "009" then skip_blanks_tabs s' else s
  | EmptyString => s
  end.

(** One turn of the loop of [main]. *)
Definition process_line (line : string) (st : state) : outcome state :=
  let line := c_str (chomp line) in
  match skip_blanks line with
  | EmptyString => Done st
  | s =>
      let '(cmd, rest) := word_and_rest s in
      if String.eqb cmd "SET" then
        match rest with
        | Some kv =>
            match split_eq kv with
            | Some (k, v) => set_pair k v st
            | None => Done st
            end
        | None => Done st
        end
      else if String.eqb cmd "REMOVE" then
        match rest with
        | Some k => remove_key (skip_blanks_tabs k) st
        | None => Done st
        end
      else if String.eqb cmd "COMPUTE" then compute_stats st
      else if String.eqb cmd "DUMP" then dump st
      else Done st
  end.

Fixpoint run (lines : list string) (st : state) : outcome state :=
  match lines with
  | [] => Done st
  | line :: rest => st' ← process_line line st; run rest st'
  end.

(** [main] on the contents of the input file. *)
Definition main (file : string) : outcome state :=
  run (fgets_all 1024 file) initial.

End WithHeap.

End Bug7.

(** ** bug2.c: the user list read from CSV lines *)

Module Bug2.

Import Libc.
Local Open Scope string_scope.
Local Open Scope Z_scope.

(** [struct user]; a string pointer is NULL when [strdup] failed. *)
Record user : Type := mkUser {
  name : option string;
  age : Z;
  email : option string
}.

(** [sizeof(struct user)] *)
Definition sizeof_user : Z := 24.

(** The entries [users[0 .. user_count - 1]] (the rest of the block is
    never read), [user_capacity], and the allocation requests so far. *)
Record state : Type := mkState {
  users : list user;
  user_capacity : Z;
  clock : nat
}.

Definition initial : state := mkState [] 0 0.

Definition user_count (st : state) : Z := Z.of_nat (length (users st)).

Section WithHeap.

Variable heap_ok : nat -> Z -> bool.

Definition strdup (s : string) (n : nat) : option string :=
  if heap_ok n (Z.of_nat (String.length s) + 1) then Some s else None.

Definition add_user (nm : string) (ag : Z) (em : string) (st : state)
  : outcome state :=
  grown ←
    (if user_capacity st <=? user_count st then
       new_capacity ← (if user_capacity st =? 0 then Done 2
                       else int_arith (user_capacity st * 2));
       let ok := heap_ok (clock st)
                   (CInt.to_size_t (CInt.to_size_t new_capacity * sizeof_user)) in
       Done (if ok then Some new_capacity else None, S (clock st))
     else Done (Some (user_capacity st), clock st));
  match grown.1 with
  | None => Done (mkState (users st) (user_capacity st) grown.2)
  | Some cap =>
      let n := grown.2 in
      let u := mkUser (strdup nm n) ag (strdup em (S n)) in
      Done (mkState (users st ++ [u]) cap (S (S n)))
  end.

(** The loop that steps each field past its leading blanks and tabs. *)
Fixpoint trim (s : string) : string :=
  match s with
  | String c s' => if Ascii.eqb c " " || Ascii.eqb c "009" then trim s' else s
  | EmptyString => s
  end.

Definition parse_line (line : string) (st : state) : outcome state :=
  match strtok_all "," (c_str line) with
  | f0 :: f1 :: f2 :: _ => add_user (trim f0) (atoi (trim f1)) (trim f2) st
  | _ => Done st
  end.

Fixpoint read_lines (lines : list string) (st : state) : outcome state :=
  match lines with
  | [] => Done st
  | line :: rest => st' ← parse_line (chomp line) st; read_lines rest st'
  end.

(** [total_age += users[i].age] over the entries *)
Fixpoint total_age (l : list user) (acc : Z) : outcome Z :=
  match l with
  | [] => Done acc
  | u :: l' => acc' ← long_arith (acc + age u); total_age l' acc'
  end.

(** The part of [main] after the reading loop: what it prints. *)
Definition report (st : state) : outcome string :=
  total ← total_age (users st) 0;
  average ← long_div total (user_count st);
  let line1 := "Loaded " ++ fmt_d (user_count st) ++ " users. Average age: "
               ++ fmt_d average ++ String "010" "" in
  match users st with
  | [] => Crash NullPointer
  | u :: _ =>
      match name u, email u with
      | Some n, Some e =>
          Done (line1 ++ "First user: " ++ n ++ " (" ++ fmt_d (age u) ++ ") <"
                ++ e ++ ">" ++ String "010" "")
      | _, _ => Crash NullPointer
      end
  end.

Definition main (stdin : string) : outcome string :=
  st ← read_lines (fgets_all 1024 stdin) initial;
  report st.

End WithHeap.

End Bug2.

(** ** Binary input: 32-bit little-endian counts and lengths *)

Module Bin.

Import Libc.
Local Open Scope Z_scope.

Definition byte_val (c : ascii) : Z := Z.of_nat (nat_of_ascii c).

Fixpoint le_value (s : string) : Z :=
  match s with
  | String c s' => byte_val c + 256 * le_value s'
  | EmptyString => 0
  end.

(** [fread(&x, 4, 1, f)]: the value when four bytes were there, and the
    rest of the stream. *)
Definition read_u32 (f : string) : option Z * string :=
  let '(b, rest) := fread 4 f in
  (if Nat.eqb (String.length b) 4 then Some (le_value b) else None, rest).

(** A block of [n] bytes after [fread] stored [got] at its start: the
    bytes beyond [got] were never written. *)
Definition filled (n : Z) (got : string) : list (option ascii) :=
  map Some (list_ascii_of_string got)
  ++ replicate (Z.to_nat n - String.length got) None.

(** What a program wrote, byte by byte; [None] stands for a byte that was
    taken from a cell nobody had written, so that its value is not
    determined. *)
Definition output : Type := list (option ascii).

Definition text (s : string) : output := map Some (list_ascii_of_string s).

(** [fwrite(data, 1, n, stdout)] *)
Definition fwrite (data : list (option ascii)) (n : nat) : outcome output :=
  if Nat.ltb (length data) n then Crash OutOfBounds else Done (take n data).

(** [(uint64_t) z] *)
Definition to_u64 (z : Z) : Z := z mod 2 ^ 64.

End Bin.

(** ** bug8.c: the document file reader *)

Module Bug8.

Import Libc Bin.
Local Open Scope string_scope.
Local Open Scope Z_scope.

(** [struct Document]; [data] is NULL ([None]) or a block of bytes. *)
Record Document : Type := mkDocument {
  data : option (list (option ascii));
  length : Z;
  allocated : bool
}.

Definition sizeof_Document : Z := 16.

Section WithHeap.

Variable heap_ok : nat -> Z -> bool.

(** The loop that reads the documents, from document [i] on. Every turn
    that does not leave the loop takes four bytes from the file, so
    [fuel] beyond its length is never used up. *)
Fixpoint read_docs (fuel : nat) (i : Z) (doc_count : Z) (f : string)
  (clock : nat) (docs : list Document) : list Document :=
  match fuel with
  | O => docs
  | S fuel' =>
      if doc_count <=? i then docs
      else
        match read_u32 f with
        | (None, _) => docs
        | (Some len, f) =>
            let ok := heap_ok clock len in
            if negb ok && (0 <? len) then docs
            else
              let '(got, f) := fread len f in
              let buf := if ok then Some (filled len got) else None in
              read_docs fuel' (i + 1) doc_count f (S clock)
                (<[Z.to_nat i := mkDocument buf len true]> docs)
        end
  end.

(** The reading part of [main]: [None] where [main] returns early,
    otherwise the array [docs] after the reading loop. *)
Definition read_file (file : string) : option (list Document) :=
  match read_u32 file with
  | (None, _) => None
  | (Some doc_count, f) =>
      let ok := heap_ok 0 (CInt.to_size_t (doc_count * sizeof_Document)) in
      if negb ok && (0 <? doc_count) then None
      else
        let docs := replicate (Z.to_nat doc_count) (mkDocument None 0 false) in
        Some (read_docs (S (String.length f)) 0 doc_count f 1 docs)
  end.

(** [total_len] and [actual_count] over the allocated documents *)
Fixpoint totals (docs : list Document) (total_len actual_count : Z) : Z * Z :=
  match docs with
  | [] => (total_len, actual_count)
  | d :: docs' =>
      if allocated d
      then totals docs' (to_u64 (total_len + length d)) (actual_count + 1)
      else totals docs' total_len actual_count
  end.

Fixpoint first_allocated (docs : list Document) : option Document :=
  match docs with
  | [] => None
  | d :: docs' => if allocated d then Some d else first_allocated docs'
  end.

(** The part of [main] after the file is closed: what it prints. *)
Definition report (docs : list Document) : outcome output :=
  let '(total_len, actual_count) := totals docs 0 0 in
  avg ← (if actual_count =? 0
         then u64_div total_len actual_count
         else u64_div total_len actual_count);
  let line1 := text ("Average length: " ++ fmt_d avg ++ String "010" "") in
  if 0 <? actual_count then
    match first_allocated docs with
    | Some d =>
        let to_print := if length d <? 100 then length d else 100 in
        s ← (match data d with
             | Some cells => fwrite cells (Z.to_nat to_print)
             | None => if to_print =? 0 then Done [] else Crash NullPointer
             end);
        Done (line1 ++ s ++ text (String "010" ""))%list
    | None => Done line1
    end
  else Done line1.

Definition main (file : string) : outcome output :=
  match read_file file with
  | None => Done []
  | Some docs => report docs
  end.

End WithHeap.

End Bug8.

(** ** bug10.c: the record database reader *)

Module Bug10.

Import Libc Bin.
Local Open Scope string_scope.
Local Open Scope Z_scope.

Record Field : Type := mkField {
  data : option (list (option ascii));
  length : Z;
  allocated : bool
}.

(** [struct Record]; [fields] is NULL ([None]) or the array of fields. *)
Record Record_ : Type := mkRecord {
  fields : option (list Field);
  field_count : Z;
  rec_allocated : bool
}.

Definition sizeof_Field : Z := 16.
Definition sizeof_Record : Z := 16.

Section WithHeap.

Variable heap_ok : nat -> Z -> bool.

(** The loop over the fields of one record, from field [j] on: the
    fields, [all_ok], the rest of the file and the allocation count. *)
Fixpoint read_fields (fuel : nat) (j : Z) (count : Z) (f : string) (clock : nat)
  (acc : list Field) : list Field * bool * string * nat :=
  match fuel with
  | O => (acc, true, f, clock)
  | S fuel' =>
      if count <=? j then (acc, true, f, clock)
      else
        match read_u32 f with
        | (None, f) => (acc, false, f, clock)
        | (Some len, f) =>
            let ok := heap_ok clock len in
            if negb ok && (0 <? len) then (acc, false, f, S clock)
            else
              let '(got, f) := fread len f in
              let buf := if ok then Some (filled len got) else None in
              read_fields fuel' (j + 1) count f (S clock)
                (<[Z.to_nat j := mkField buf len true]> acc)
        end
  end.

(** The loop over the records, from record [i] on. *)
Fixpoint read_records (fuel : nat) (i : Z) (record_count : Z) (f : string)
  (clock : nat) (records : list Record_) : list Record_ :=
  match fuel with
  | O => records
  | S fuel' =>
      if record_count <=? i then records
      else
        match read_u32 f with
        | (None, _) => records
        | (Some count, f) =>
            let ok := heap_ok clock (CInt.to_size_t (count * sizeof_Field)) in
            if negb ok && (0 <? count)
            then read_records fuel' (i + 1) record_count f (S clock) records
            else
              let blank := replicate (Z.to_nat count) (mkField None 0 false) in
              let '(fs, all_ok, f, clock) :=
                read_fields (S (String.length f)) 0 count f (S clock) blank in
              if negb all_ok
              then read_records fuel' (i + 1) record_count f clock records
              else read_records fuel' (i + 1) record_count f clock
                     (<[Z.to_nat i := mkRecord (if ok then Some fs else None) count true]>
                        records)
        end
  end.

Definition read_file (file : string) : option (list Record_) :=
  match read_u32 file with
  | (None, _) => None
  | (Some record_count, f) =>
      let ok := heap_ok 0 (CInt.to_size_t (record_count * sizeof_Record)) in
      if negb ok && (0 <? record_count) then None
      else
        let records :=
          replicate (Z.to_nat record_count) (mkRecord None 0 false) in
        Some (read_records (S (String.length f)) 0 record_count f 1 records)
  end.

Fixpoint totals (records : list Record_) (total_fields allocated_count : Z)
  : Z * Z :=
  match records with
  | [] => (total_fields, allocated_count)
  | r :: records' =>
      if rec_allocated r
      then totals records' (to_u64 (total_fields + field_count r))
             (allocated_count + 1)
      else totals records' total_fields allocated_count
  end.

Fixpoint first_with_field (records : list Record_) : option Record_ :=
  match records with
  | [] => None
  | r :: records' =>
      if rec_allocated r && (0 <? field_count r) then Some r
      else first_with_field records'
  end.

Definition report (records : list Record_) : outcome output :=
  let '(total_fields, allocated_count) := totals records 0 0 in
  avg ← (if allocated_count =? 0
         then u64_div total_fields allocated_count
         else u64_div total_fields allocated_count);
  let line1 :=
    text ("Average fields per record: " ++ fmt_d avg ++ String "010" "") in
  if 0 <? allocated_count then
    match first_with_field records with
    | Some r =>
        match fields r with
        | Some (fd :: _) =>
            let to_print := if length fd <? 50 then length fd else 50 in
            s ← (match data fd with
                 | Some cells => fwrite cells (Z.to_nat to_print)
                 | None => if to_print =? 0 then Done [] else Crash NullPointer
                 end);
            Done (line1 ++ s ++ text (String "010" ""))%list
        | Some [] => Crash OutOfBounds
        | None => Crash NullPointer
        end
    | None => Done line1
    end
  else Done line1.

Definition main (file : string) : outcome output :=
  match read_file file with
  | None => Done []
  | Some records => report records
  end.

End WithHeap.

End Bug10.

(** ** Sample inputs *)

Module Samples.

Local Open Scope string_scope.
Local Open Scope Z_scope.

(** A heap that grants every request of at most one MiB. *)
Definition roomy : nat -> Z -> bool := fun _ bytes => bytes <=? 2 ^ 20.

(** The four bytes of a small count or length in a file. *)
Definition u32 (n : nat) : string :=
  String (ascii_of_nat n) (String zero (String zero (String zero ""))).

(** One document that declares five bytes and brings two. *)
Definition short_document : string := u32 1 ++ u32 5 ++ "He".

(** One record with one field that declares five bytes and brings two. *)
Definition short_record : string := u32 1 ++ u32 1 ++ u32 5 ++ "He".

(** Slot 0 after [CREATE 0 3] on the empty table of bug6.c. *)
Definition three_zeros : Mem.Array :=
  Mem.mkArray (Mem.Live [Some 0; Some 0; Some 0]) 3 true.

Definition created6 : Bug6.state :=
  Bug6.mkState (Mem.put (replicate 16 Mem.unallocated) 0 three_zeros) 2 "".

(** The same after [CREATE_ARRAY 0 3] on the empty vector of bug5.cpp. *)
Definition created5 : Bug5.state :=
  Bug5.mkState [three_zeros] 2 "" "".

End Samples.

(** ** bug3.c: the book list read from [TITLE|AUTHOR|YEAR] lines *)

Module Bug3.

Import Libc.
Local Open Scope string_scope.
Local Open Scope Z_scope.

(** [struct book]; a string pointer is NULL when [strdup] failed. *)
Record book : Type := mkBook {
  title : option string;
  author : option string;
  year : Z
}.

(** [sizeof(struct book)] *)
Definition sizeof_book : Z := 24.

(** The entries [books[0 .. book_count - 1]], [book_capacity], and the
    allocation requests so far. *)
Record state : Type := mkState {
  books : list book;
  book_capacity : Z;
  clock : nat
}.

Definition initial : state := mkState [] 0 0.

Definition book_count (st : state) : Z := Z.of_nat (length (books st)).

Section WithHeap.

Variable heap_ok : nat -> Z -> bool.

Definition strdup (s : string) (n : nat) : option string :=
  if heap_ok n (Z.of_nat (String.length s) + 1) then Some s else None.

Definition add_book (ti : string) (au : string) (yr : Z) (st : state)
  : outcome state :=
  grown ←
    (if book_capacity st <=? book_count st then
       new_capacity ← (if book_capacity st =? 0 then Done 2
                       else int_arith (book_capacity st * 2));
       let ok := heap_ok (clock st)
                   (CInt.to_size_t (CInt.to_size_t new_capacity * sizeof_book)) in
       Done (if ok then Some new_capacity else None, S (clock st))
     else Done (Some (book_capacity st), clock st));
  match grown.1 with
  | None => Done (mkState (books st) (book_capacity st) grown.2)
  | Some cap =>
      let n := grown.2 in
      let b := mkBook (strdup ti n) (strdup au (S n)) yr in
      Done (mkState (books st ++ [b]) cap (S (S n)))
  end.

(** The loop that steps each field past its leading blanks and tabs. *)
Fixpoint trim (s : string) : string :=
  match s with
  | String c s' => if Ascii.eqb c " " || Ascii.eqb c "009" then trim s' else s
  | EmptyString => s
  end.

Definition parse_line (line : string) (st : state) : outcome state :=
  match strtok_all "|" (c_str line) with
  | f0 :: f1 :: f2 :: _ => add_book (trim f0) (trim f1) (atoi (trim f2)) st
  | _ => Done st
  end.

Fixpoint read_lines (lines : list string) (st : state) : outcome state :=
  match lines with
  | [] => Done st
  | line :: rest => st' ← parse_line (chomp line) st; read_lines rest st'
  end.

(** [total_year += books[i].year] over the entries *)
Fixpoint total_year (l : list book) (acc : Z) : outcome Z :=
  match l with
  | [] => Done acc
  | b :: l' => acc' ← long_arith (acc + year b); total_year l' acc'
  end.

(** The part of [main] after the file is closed: what it prints. *)
Definition report (st : state) : outcome string :=
  total ← total_year (books st) 0;
  avg_year ← long_div total (book_count st);
  let line1 := "Loaded " ++ fmt_d (book_count st) ++ " books. Average year: "
               ++ fmt_d avg_year ++ String "010" "" in
  match books st with
  | [] => Crash NullPointer
  | b :: _ =>
      match title b, author b with
      | Some t, Some a =>
          Done (line1 ++ "First book: " ++ String "034" "" ++ t
                ++ String "034" "" ++ " by " ++ a ++ " (" ++ fmt_d (year b) ++ ")"
                ++ String "010" "")
      | _, _ => Crash NullPointer
      end
  end.

(** [main] on the contents of the input file. *)
Definition main (file : string) : outcome string :=
  st ← read_lines (fgets_all 1024 file) initial;
  report st.

End WithHeap.

End Bug3.

(** ** bug4.cpp: the configuration lines [CONFIG param=value]

    The strings and vectors of this program allocate; the embedding takes
    these allocations to succeed. What it keeps track of is whether a
    [const char*] taken from [entries.back().param] still points to
    characters: when [push_back] moves the entries to new storage, a
    string whose characters live inside the string object takes them
    along, and the pointer is left behind. Which [push_back] moves the
    entries and which strings are stored in place is up to the library, so
    the embedding is parametric in both. *)

Module Bug4.

Import Libc.
Local Open Scope string_scope.
Local Open Scope Z_scope.

Record ConfigEntry : Type := mkConfigEntry {
  param : string;
  value : string
}.

(** An element of [paramPointers]: the characters it pointed to when it
    was taken, and whether they have gone since. *)
Record pointer : Type := mkPointer {
  chars : string;
  dangling : bool
}.

Record state : Type := mkState {
  entries : list ConfigEntry;
  paramPointers : list pointer
}.

Definition initial : state := mkState [] [].

(** [s.find(c)] *)
Fixpoint find (c : ascii) (s : string) : option nat :=
  match s with
  | EmptyString => None
  | String c' s' =>
      if Ascii.eqb c' c then Some O
      else match find c s' with
           | Some n => Some (S n)
           | None => None
           end
  end.

(** [s.substr(pos)] for [pos <= s.size()] *)
Fixpoint substr (pos : nat) (s : string) : string :=
  match pos, s with
  | O, _ => s
  | S pos', String _ s' => substr pos' s'
  | S _, EmptyString => ""
  end.

(** [s.substr(0, n)] *)
Fixpoint substr0 (n : nat) (s : string) : string :=
  match n, s with
  | S n', String c s' => String c (substr0 n' s')
  | _, _ => ""
  end.

(** The entry a line adds, if it adds one. *)
Definition parse (line : string) : option ConfigEntry :=
  if Nat.ltb 7 (String.length line) && String.prefix "CONFIG " line then
    let rest := substr 7 line in
    match find "=" rest with
    | Some eq_pos =>
        if Nat.ltb 0 eq_pos
           && (Z.of_nat eq_pos <? CInt.to_size_t (Z.of_nat (String.length rest) - 1))
        then
          let param := substr0 eq_pos rest in
          let val := substr (S eq_pos) rest in
          if negb (String.eqb param "") && negb (String.eqb val "")
          then Some (mkConfigEntry param val)
          else None
        else None
    | None => None
    end
  else None.

Section WithLibrary.

(** Does [push_back] onto a vector of that many entries move them? *)
Variable relocates : nat -> bool.

(** Are the characters of this string stored inside the string object? *)
Variable in_place : string -> bool.

Definition left_behind (p : pointer) : pointer :=
  if in_place (chars p) then mkPointer (chars p) true else p.

(** [entries.push_back(e); paramPointers.push_back(entries.back().param.c_str())] *)
Definition push (e : ConfigEntry) (st : state) : state :=
  let kept :=
    if relocates (length (entries st))
    then map left_behind (paramPointers st)
    else paramPointers st in
  mkState (entries st ++ [e]) (kept ++ [mkPointer (param e) false]).

(** One turn of the reading loop. *)
Definition step (st : state) (line : string) : state :=
  match parse line with
  | Some e => push e st
  | None => st
  end.

Definition read_lines (lines : list string) (st : state) : state :=
  fold_left step lines st.

(** The part of [main] after the loop: both branches print
    [paramPointers[0]]. *)
Definition report (st : state) : outcome string :=
  match paramPointers st with
  | p :: _ =>
      if dangling p then Crash UseAfterFree
      else Done ("First parameter: " ++ c_str (chars p) ++ String "010" "")
  | [] => Crash OutOfBounds
  end.

Definition main (stdin : string) : outcome string :=
  report (read_lines (getline_all stdin) initial).

End WithLibrary.

End Bug4.

(** ** bug9.c: the graph file reader *)

Module Bug9.

Import Libc Bin Mem.
Local Open Scope string_scope.
Local Open Scope Z_scope.

(** [struct AdjList]; the cells of [neighbors] hold [uint32_t] values. *)
Record AdjList : Type := mkAdjList {
  neighbors : pointer;
  capacity : Z;
  count : Z
}.

Definition sizeof_AdjList : Z := 24.

(** [sizeof(uint32_t)] *)
Definition sizeof_u32 : Z := 4.

(** The block [graphs]: NULL when [malloc] gave nothing (possible only
    for zero nodes), otherwise its [node_count] entries. *)
Definition graph : Type := option (list AdjList).

(** [graphs[idx]] as an rvalue *)
Definition node (g : graph) (idx : Z) : outcome AdjList :=
  match g with
  | None => Crash NullPointer
  | Some l =>
      if (idx <? 0) || (Z.of_nat (length l) <=? idx) then Crash OutOfBounds
      else match l !! Z.to_nat idx with
           | Some a => Done a
           | None => Crash OutOfBounds
           end
  end.

(** [graphs[idx] = a] for an entry of the block *)
Definition set_node (g : graph) (idx : Z) (a : AdjList) : graph :=
  match g with
  | None => None
  | Some l => Some (<[Z.to_nat idx := a]> l)
  end.

Section WithHeap.

Variable heap_ok : nat -> Z -> bool.

(** The body of the edge loop after both numbers were read: the graph
    and the number of allocation requests afterwards. *)
Definition add_edge (node_count : Z) (src dst : Z) (clock : nat) (g : graph)
  : outcome (graph * nat) :=
  if node_count <=? src then
    (* graphs[idx].neighbors = malloc(10 * sizeof(uint32_t));
       graphs[idx].neighbors[20] = dst; *)
    a ← node g src;
    let ok := heap_ok clock (10 * sizeof_u32) in
    let p := if ok then fresh (10 * sizeof_u32) else Null in
    p ← store p 20 (Some dst);
    Done (set_node g src (mkAdjList p (capacity a) (count a)), S clock)
  else
    a ← node g src;
    if capacity a <=? count a then
      let new_cap :=
        if capacity a =? 0 then 4 else CInt.to_size_t (capacity a * 2) in
      let bytes := CInt.to_size_t (new_cap * sizeof_u32) in
      let ok := heap_ok clock bytes in
      if negb ok then Done (g, S clock)
      else
        p ← regrow (neighbors a) bytes;
        p ← store p (count a) (Some dst);
        Done (set_node g src (mkAdjList p new_cap (CInt.to_size_t (count a + 1))),
              S clock)
    else
      p ← store (neighbors a) (count a) (Some dst);
      Done (set_node g src
              (mkAdjList p (capacity a) (CInt.to_size_t (count a + 1))), clock).

(** The loop that reads the edges, from edge [i] on. Every turn that does
    not leave the loop takes eight bytes from the file, so [fuel] beyond
    its length is never used up. *)
Fixpoint read_edges (fuel : nat) (i : Z) (node_count edge_count : Z) (f : string)
  (clock : nat) (g : graph) : outcome graph :=
  match fuel with
  | O => Done g
  | S fuel' =>
      if edge_count <=? i then Done g
      else
        match read_u32 f with
        | (None, _) => Done g
        | (Some src, f) =>
            match read_u32 f with
            | (None, _) => Done g
            | (Some dst, f) =>
                r ← add_edge node_count src dst clock g;
                read_edges fuel' (i + 1) node_count edge_count f r.2 r.1
            end
        end
  end.

(** The reading part of [main]: [None] where [main] returns early,
    otherwise [node_count] and the graph after the edge loop. *)
Definition read_file (file : string) : option (outcome (Z * graph)) :=
  match read_u32 file with
  | (None, _) => None
  | (Some node_count, f) =>
      match read_u32 f with
      | (None, _) => None
      | (Some edge_count, f) =>
          let ok := heap_ok 0 (CInt.to_size_t (node_count * sizeof_AdjList)) in
          if negb ok && (0 <? node_count) then None
          else
            let g :=
              if ok
              then Some (replicate (Z.to_nat node_count) (mkAdjList Null 0 0))
              else None in
            Some (g ← read_edges (S (String.length f)) 0 node_count edge_count
                       f 1 g;
                  Done (node_count, g))
      end
  end.

(** [total_edges += graphs[i].count] over the nodes *)
Fixpoint total_edges (l : list AdjList) (acc : Z) : Z :=
  match l with
  | [] => acc
  | a :: l' => total_edges l' (to_u64 (acc + count a))
  end.

Definition nodes_of (g : graph) : list AdjList :=
  match g with
  | Some l => l
  | None => []
  end.

(** The part of [main] after the file is closed: what it prints. *)
Definition report (node_count : Z) (g : graph) : outcome string :=
  let total := total_edges (nodes_of g) 0 in
  avg ← (if node_count =? 0
         then u64_div total (to_u64 node_count)
         else u64_div total (to_u64 node_count));
  let line1 := "Average out-degree: " ++ fmt_d avg ++ String "010" "" in
  if 0 <? node_count then
    first ← node g 0;
    match neighbors first with
    | Null => Done line1
    | p =>
        out ← for_loop 0 (count first)
                (fun i out => c ← load p i; v ← value c;
                              Done (out ++ " " ++ fmt_d v)) "";
        Done (line1 ++ "Edges from node 0:" ++ out ++ String "010" "")
    end
  else Done line1.

Definition main (file : string) : outcome string :=
  match read_file file with
  | None => Done ""
  | Some r => x ← r; report x.1 x.2
  end.

End WithHeap.

End Bug9.

(** ** Notions used to state the properties of the line readers *)

Module Text.

Local Open Scope string_scope.

(** Every byte of [s] passes the test [p]. *)
Fixpoint all (p : ascii -> bool) (s : string) : bool :=
  match s with
  | String c s' => p c && all p s'
  | EmptyString => true
  end.

(** A byte that ends neither a field (the delimiter [d]), nor a line, nor
    a C string. *)
Definition field_byte (d : ascii) (c : ascii) : bool :=
  negb (Ascii.eqb c d) && negb (Ascii.eqb c "010") && negb (Ascii.eqb c zero).

(** A non-empty run of such bytes. *)
Definition field (d : ascii) (s : string) : bool :=
  negb (String.eqb s "") && all (field_byte d) s.

(** The fields [ws] written one after another with [d] between them. *)
Definition join (d : ascii) (ws : list string) : string :=
  String.concat (String d "") ws.

(** A line of text as a file holds it. *)
Definition line (s : string) : string := s ++ String "010" "".

(** The text of a file that holds the lines [ls]. *)
Fixpoint unlines (ls : list string) : string :=
  match ls with
  | [] => ""
  | l :: ls' => l ++ String "010" (unlines ls')
  end.

(** The sum of a list of numbers. *)
Definition total (zs : list Z) : Z := fold_right Z.add 0%Z zs.

(** A blank or a tab. *)
Definition blank (c : ascii) : bool := Ascii.eqb c " " || Ascii.eqb c "009".

(** A text that does not start with a blank or a tab. *)
Definition unpadded (s : string) : bool :=
  match s with
  | String c _ => negb (blank c)
  | EmptyString => true
  end.

(** The value of the digits of [d] after the digits that gave [acc]. *)
Fixpoint uval (acc : Z) (d : Decimal.uint) : Z :=
  match d with
  | Decimal.Nil => acc
  | Decimal.D0 l => uval (acc * 10 + 0) l
  | Decimal.D1 l => uval (acc * 10 + 1) l
  | Decimal.D2 l => uval (acc * 10 + 2) l
  | Decimal.D3 l => uval (acc * 10 + 3) l
  | Decimal.D4 l => uval (acc * 10 + 4) l
  | Decimal.D5 l => uval (acc * 10 + 5) l
  | Decimal.D6 l => uval (acc * 10 + 6) l
  | Decimal.D7 l => uval (acc * 10 + 7) l
  | Decimal.D8 l => uval (acc * 10 + 8) l
  | Decimal.D9 l => uval (acc * 10 + 9) l
  end.

(** The bytes of a numeral: decimal digits after an optional minus. *)
Definition numeral_byte (c : ascii) : bool := Libc.isdigit c || Ascii.eqb c "-".

End Text.

(** ** Notions used to state the properties of bug2.c *)

Module Users.

Import Libc Text Bug2.
Local Open Scope string_scope.
Local Open Scope Z_scope.

(** A user as a line of the file states it, and as [add_user] stores
    it. *)
Definition csv (u : string * Z * string) : string :=
  join "," [u.1.1; fmt_d u.1.2; u.2].

Definition stored (u : string * Z * string) : user :=
  mkUser (Some (trim u.1.1)) u.1.2 (Some (trim u.2)).

Definition well_formed (u : string * Z * string) : Prop :=
  field "," u.1.1 = true /\ field "," u.2 = true
  /\ CInt.INT_MIN <= u.1.2 <= CInt.INT_MAX
  /\ (String.length (csv u) < 1023)%nat.

(** What [add_user] keeps: the count within the capacity, and the
    capacity 0 or a power of two from 2 on. *)
Definition within_capacity (st : state) : Prop :=
  user_count st <= user_capacity st
  /\ (user_capacity st = 0 \/ exists k : nat, user_capacity st = 2 ^ (Z.of_nat k + 1)).

(** The capacity never runs far ahead of the count, so that doubling it
    stays within [int] for up to 2^30 users. *)
Definition modest (st : state) : Prop :=
  0 <= user_capacity st <= Z.max 2 (2 * user_count st).

End Users.

(** ** Notions used to state the properties of bug3.c *)

Module Books.

Import Libc Text Bug3.
Local Open Scope string_scope.
Local Open Scope Z_scope.

(** A book as a line of the file states it, and as [add_book] stores
    it. *)
Definition entry (b : string * string * Z) : string :=
  join "|" [b.1.1; b.1.2; fmt_d b.2].

Definition stored (b : string * string * Z) : book :=
  mkBook (Some (trim b.1.1)) (Some (trim b.1.2)) b.2.

Definition well_formed (b : string * string * Z) : Prop :=
  field "|" b.1.1 = true /\ field "|" b.1.2 = true
  /\ CInt.INT_MIN <= b.2 <= CInt.INT_MAX
  /\ (String.length (entry b) < 1023)%nat.

(** What [add_book] keeps: the count within the capacity, and the
    capacity 0 or a power of two from 2 on. *)
Definition within_capacity (st : state) : Prop :=
  book_count st <= book_capacity st
  /\ (book_capacity st = 0 \/ exists k : nat, book_capacity st = 2 ^ (Z.of_nat k + 1)).

(** The capacity never runs far ahead of the count, so that doubling it
    stays within [int] for up to 2^30 books. *)
Definition modest (st : state) : Prop :=
  0 <= book_capacity st <= Z.max 2 (2 * book_count st).

End Books.

(** ** Notions used to state what the slot tables of bug5.cpp and bug6.c
    hold *)

Module Slots.

Import Libc Mem.
Local Open Scope string_scope.
Local Open Scope Z_scope.

(** The slot record of an array with exactly the elements [vs]. *)
Definition array_of (vs : list Z) : Array :=
  mkArray (Live (map Some vs)) (Z.of_nat (length vs)) true.

(** Slot [idx] of the table holds such an array. *)
Definition holds (tbl : list Array) (idx : Z) (vs : list Z) : Prop :=
  get tbl idx = Done (array_of vs).

(** Slot [j] holds the record [a], in a table of [n] entries. *)
Definition kept (j : Z) (a : Array) (n : nat) (tbl : list Array) : Prop :=
  get tbl j = Done a /\ length tbl = n.

(** The [count] elements of [vs] from position [start] on. *)
Definition slice (start count : Z) (vs : list Z) : list Z :=
  take (Z.to_nat count) (drop (Z.to_nat start) vs).

(** Numbers as [print_array] writes them: each followed by a blank. *)
Definition row (vs : list Z) : string :=
  String.concat "" (map (fun v => fmt_d v ++ " ") vs).

End Slots.

(** ** Notions used to state which slot a command of bug6.c or bug5.cpp
    may change *)

Module Targets.

Import Libc.
Local Open Scope string_scope.
Local Open Scope Z_scope.



(** The same for bug5.cpp. *)
Definition target5 (tokens : list string) : option Z :=
  match tokens with
  | [] => None
  | cmd :: _ =>
      if (String.eqb cmd "CREATE_ARRAY" && Nat.ltb 2 (length tokens))
         || (String.eqb cmd "FILL_ARRAY" && Nat.ltb 2 (length tokens))
         || (String.eqb cmd "SPLICE_ARRAY" && Nat.ltb 4 (length tokens))
         || (String.eqb cmd "JOIN_ARRAYS" && Nat.ltb 3 (length tokens))
         || (String.eqb cmd "FREE_ARRAY" && Nat.ltb 1 (length tokens))
      then Some (CInt.to_size_t (Bug5.toL tokens 1))
      else None
  end.

End Targets.

(** ** Notions used to state what the store of bug7.c holds *)

Module Store.

Import Libc.
Local Open Scope string_scope.
Local Open Scope Z_scope.

(** An entry of [pairs] with both strings present, and an unused one. *)
Definition entry (p : string * string) : Bug7.kv :=
  Bug7.mkKv (Some p.1) (Some p.2).

Definition blank : Bug7.kv := Bug7.mkKv None None.

(** The store holds the pairs [al], in this order, in the first
    [pair_count] entries of [pairs]; the entries behind them are
    unused. *)
Definition represents (st : Bug7.state) (al : list (string * string)) : Prop :=
  exists spare : nat,
    Bug7.pairs st = (map entry al ++ replicate spare blank)%list
    /\ Bug7.pair_count st = Z.of_nat (length al).




(** What [dump] prints. *)
Definition listing (al : list (string * string)) : string :=
  String.concat "" (map (fun p => p.1 ++ "=" ++ p.2 ++ String "010" "") al).

(** The lengths of the values. *)
Definition value_lengths (al : list (string * string)) : list Z :=
  map (fun p => Z.of_nat (String.length p.2)) al.

End Store.

(** ** The binary files of bug8.c, bug9.c and bug10.c as their headers
    describe them *)

Module Format.

Local Open Scope string_scope.
Local Open Scope Z_scope.

(** The byte of a value below 256. *)
Definition byte (n : Z) : ascii := ascii_of_nat (Z.to_nat (n mod 256)).

(** Four bytes, least significant first. *)
Definition le32 (n : Z) : string :=
  String (byte n)
    (String (byte (n / 256))
       (String (byte (n / 65536)) (String (byte (n / 16777216)) ""))).

(** bug8.c: [doc_length] and the data of one document; the number of
    documents and the documents. *)
Definition document (d : string) : string :=
  le32 (Z.of_nat (String.length d)) ++ d.

Fixpoint documents (ds : list string) : string :=
  match ds with
  | [] => ""
  | d :: ds' => document d ++ documents ds'
  end.

Definition document_file (ds : list string) : string :=
  le32 (Z.of_nat (length ds)) ++ documents ds.

(** A document as [main] stores it. *)
Definition stored_document (d : string) : Bug8.Document :=
  Bug8.mkDocument (Some (map Some (list_ascii_of_string d)))
    (Z.of_nat (String.length d)) true.

(** bug10.c: a field, the fields of a record behind their number, the
    records behind their number. *)
Fixpoint fields (fs : list string) : string :=
  match fs with
  | [] => ""
  | f :: fs' => document f ++ fields fs'
  end.

Definition record (fs : list string) : string :=
  le32 (Z.of_nat (length fs)) ++ fields fs.

Fixpoint records (rs : list (list string)) : string :=
  match rs with
  | [] => ""
  | r :: rs' => record r ++ records rs'
  end.

Definition record_file (rs : list (list string)) : string :=
  le32 (Z.of_nat (length rs)) ++ records rs.

Definition stored_field (f : string) : Bug10.Field :=
  Bug10.mkField (Some (map Some (list_ascii_of_string f)))
    (Z.of_nat (String.length f)) true.

Definition stored_record (fs : list string) : Bug10.Record_ :=
  Bug10.mkRecord (Some (map stored_field fs)) (Z.of_nat (length fs)) true.

(** The first record that has a field. *)
Fixpoint first_record (rs : list (list string)) : option (list string) :=
  match rs with
  | [] => None
  | [] :: rs' => first_record rs'
  | r :: _ => Some r
  end.

(** bug9.c: the edges as pairs [(src, dst)] behind the two counts. *)
Fixpoint edges (es : list (Z * Z)) : string :=
  match es with
  | [] => ""
  | e :: es' => le32 e.1 ++ le32 e.2 ++ edges es'
  end.

Definition graph_file (node_count : Z) (es : list (Z * Z)) : string :=
  le32 node_count ++ le32 (Z.of_nat (length es)) ++ edges es.

(** The targets of the edges that leave node [i], in the order of the
    file. *)
Definition out_of (i : Z) (es : list (Z * Z)) : list Z :=
  map snd (filter (fun e => e.1 = i) es).

End Format.

(** ** bug9.c: the adjacency lists as lists of targets *)

Module Graphs.

Import Libc Mem.
Local Open Scope string_scope.
Local Open Scope Z_scope.

(** The entry [a] holds the targets [l]: [count] of them at the start of
    the block [neighbors], which has [capacity] cells; no block as long
    as nothing was added. *)
Definition holds (a : Bug9.AdjList) (l : list Z) : Prop :=
  Bug9.count a = Z.of_nat (length l)
  /\ match Bug9.neighbors a with
     | Null => Bug9.capacity a = 0 /\ l = []
     | Live cells =>
         Bug9.capacity a = Z.of_nat (length cells)
         /\ l <> []
         /\ (length l <= length cells)%nat
         /\ take (length l) cells = map Some l
         /\ Bug9.capacity a <= 4 * Z.of_nat (length l)
     | Freed => False
     end.

(** The block [graphs] holds the lists [adj], none longer than [k]. *)
Definition represents (k : nat) (nodes : list Bug9.AdjList)
  (adj : list (list Z)) : Prop :=
  Forall2 holds nodes adj /\ Forall (fun l => (length l <= k)%nat) adj.

(** The lists after the edge [e] was added at its source. *)
Definition add (adj : list (list Z)) (e : Z * Z) : list (list Z) :=
  alter (fun l => l ++ [e.2])%list (Z.to_nat e.1) adj.

(** A file of [node_count] nodes and the edges [es] whose numbers all
    fit their four bytes. *)
Definition fits (node_count : Z) (es : list (Z * Z)) : Prop :=
  0 <= node_count < 2 ^ 32
  /\ Z.of_nat (length es) < 2 ^ 32
  /\ Forall (fun e => 0 <= e.1 < 2 ^ 32 /\ 0 <= e.2 < 2 ^ 32) es.

(** [" %u"] for every target *)
Fixpoint targets (l : list Z) : string :=
  match l with
  | [] => ""
  | v :: l' => " " ++ fmt_d v ++ targets l'
  end.

End Graphs.

(** ** More sample states *)

Module Samples2.

Import Slots.
Local Open Scope string_scope.
Local Open Scope Z_scope.

(** The table of bug6.c with the arrays 1 2 3 in slot 0 and 4 5 in
    slot 1. *)
Definition two6 : Bug6.state :=
  Bug6.mkState
    (array_of [1; 2; 3] :: array_of [4; 5] :: replicate 14 Mem.unallocated) 2 "".

(** The vector of bug5.cpp with the same arrays and a third, empty
    slot. *)
Definition two5 : Bug5.state :=
  Bug5.mkState [array_of [1; 2; 3]; array_of [4; 5]; Mem.unallocated] 3 "" "".

(** A heap that grants every request. *)
Definition generous : nat -> Z -> bool := fun _ _ => true.

(** The store of bug7.c after [SET a=1] and [SET b=22]. *)
Definition store2 : Bug7.state :=
  Bug7.mkState
    [Store.entry ("a", "1"); Store.entry ("b", "22"); Store.blank; Store.blank]
    2 5 "".

End Samples2.

(** * Facts about the loop forms *)

Module LoopFacts.

Import Mem.

Lemma bind_Done {A B : Type} (a : A) (k : A -> outcome B) :
  (Done a ≫= k) = k a.
Proof. reflexivity. Qed.

Lemma bind_Crash {A B : Type} (f : fault) (k : A -> outcome B) :
  (Crash f ≫= k) = Crash f.
Proof. reflexivity. Qed.

Lemma iter_add {St : Type} (n m : nat) (i : Z) (body : Z -> St -> outcome St) (s : St) :
  iter (n + m) i body s = s' ← iter n i body s; iter m (i + Z.of_nat n) body s'.
Proof.
  revert i s. induction n as [|n IH]; intros i s.
  - simpl. rewrite Z.add_0_r. reflexivity.
  - cbn [iter Nat.add]. destruct (body i s) as [s1|f]; cbn; [|reflexivity].
    rewrite IH. replace (i + 1 + Z.of_nat n) with (i + Z.of_nat (S n)) by lia.
    reflexivity.
Qed.

Lemma turns_iter {St : Type} (p : positive) (body : Z -> St -> outcome St) (i : Z) (s : St) :
  turns p body (i, s) = s' ← iter (Pos.to_nat p) i body s; Done (i + Z.pos p, s').
Proof.
  revert i s. induction p as [p IH|p IH|]; intros i s.
  - cbn [turns]. unfold turn at 1. cbn [fst snd].
    rewrite Pos2Nat.inj_xI. cbn [iter Nat.mul].
    destruct (body i s) as [s1|f]; cbn; [|reflexivity].
    rewrite IH. replace (Pos.to_nat p + (Pos.to_nat p + 0))%nat
      with (Pos.to_nat p + Pos.to_nat p)%nat by lia.
    rewrite iter_add.
    destruct (iter (Pos.to_nat p) (i + 1) body s1) as [s2|f]; cbn; [|reflexivity].
    rewrite IH. rewrite positive_nat_Z.
    destruct (iter (Pos.to_nat p) (i + 1 + Z.pos p) body s2) as [s3|f]; cbn;
      [|reflexivity].
    f_equal. f_equal. lia.
  - cbn [turns]. rewrite Pos2Nat.inj_xO.
    replace (2 * Pos.to_nat p)%nat with (Pos.to_nat p + Pos.to_nat p)%nat by lia.
    rewrite iter_add, IH.
    destruct (iter (Pos.to_nat p) i body s) as [s2|f]; cbn; [|reflexivity].
    rewrite IH. rewrite positive_nat_Z.
    destruct (iter (Pos.to_nat p) (i + Z.pos p) body s2) as [s3|f]; cbn;
      [|reflexivity].
    f_equal. f_equal. lia.
  - cbn [turns]. unfold turn. cbn [fst snd].
    change (Pos.to_nat 1) with 1%nat. cbn [iter].
    destruct (body i s); reflexivity.
Qed.

Lemma for_loop_iter {St : Type} (lo hi : Z) (body : Z -> St -> outcome St) (s : St) :
  for_loop lo hi body s = iter (Z.to_nat (hi - lo)) lo body s.
Proof.
  unfold for_loop. destruct (Z.leb_spec hi lo) as [H|H].
  - replace (Z.to_nat (hi - lo)) with 0%nat by lia. reflexivity.
  - rewrite turns_iter.
    replace (Pos.to_nat (Z.to_pos (hi - lo))) with (Z.to_nat (hi - lo)) by lia.
    destruct (iter _ lo body s); reflexivity.
Qed.

End LoopFacts.

(** * Facts about blocks and tables *)

Module MemFacts.

Import Mem LoopFacts.

Lemma get_Done (tbl : list Array) (idx : Z) (a : Array) :
  get tbl idx = Done a <-> 0 <= idx /\ tbl !! Z.to_nat idx = Some a.
Proof.
  unfold get. destruct (Z.ltb_spec idx 0) as [Hn|Hn]; cbn [orb].
  - split; [discriminate | lia].
  - destruct (Z.leb_spec (Z.of_nat (length tbl)) idx) as [Hl|Hl].
    + split; [discriminate|]. intros [_ H].
      apply lookup_lt_Some in H. lia.
    + destruct (tbl !! Z.to_nat idx) as [b|] eqn:E.
      * split; [intros [= ->]; auto | intros [_ [= ->]]; reflexivity].
      * apply lookup_ge_None in E. lia.
Qed.

Lemma get_in_range (tbl : list Array) (idx : Z) :
  0 <= idx < Z.of_nat (length tbl) -> exists a, get tbl idx = Done a.
Proof.
  intros H. destruct (lookup_lt_is_Some_2 tbl (Z.to_nat idx)) as [a Ha]; [lia|].
  exists a. apply get_Done. split; [lia | exact Ha].
Qed.

Lemma get_out_of_range (tbl : list Array) (idx : Z) :
  Z.of_nat (length tbl) <= idx -> get tbl idx = Crash OutOfBounds.
Proof.
  intros H. unfold get.
  destruct (Z.leb_spec (Z.of_nat (length tbl)) idx); [|lia].
  rewrite orb_true_r. reflexivity.
Qed.

Lemma length_put (tbl : list Array) (idx : Z) (a : Array) :
  length (put tbl idx a) = length tbl.
Proof. apply length_insert. Qed.

Lemma get_put_eq (tbl : list Array) (idx : Z) (a : Array) :
  0 <= idx < Z.of_nat (length tbl) -> get (put tbl idx a) idx = Done a.
Proof.
  intros H. apply get_Done. split; [lia|].
  apply list_lookup_insert_eq. lia.
Qed.

Lemma get_put_ne (tbl : list Array) (idx j : Z) (a : Array) :
  0 <= idx -> 0 <= j -> idx <> j -> get (put tbl idx a) j = get tbl j.
Proof.
  intros Hi Hj Hne. unfold get, put. rewrite length_insert.
  rewrite list_lookup_insert_ne by lia. reflexivity.
Qed.

Lemma put_put (tbl : list Array) (idx : Z) (a b : Array) :
  put (put tbl idx a) idx b = put tbl idx b.
Proof. apply list_insert_insert_eq. Qed.

(** [n] consecutive stores of [c] from cell [i] on: the cells of the
    range hold [c], the others are as before. *)
Lemma iter_write_range (idx : Z) (c : cell) (n : nat) :
  forall (i : Z) (tbl : list Array) (a : Array) (cells : list cell),
    get tbl idx = Done a ->
    data a = Live cells ->
    0 <= i ->
    i + Z.of_nat n <= Z.of_nat (length cells) ->
    exists cells',
      iter n i (fun j => write idx j c) tbl
        = Done (put tbl idx (set_data a (Live cells')))
      /\ length cells' = length cells
      /\ (forall j : nat, i <= Z.of_nat j < i + Z.of_nat n -> cells' !! j = Some c)
      /\ (forall j : nat, Z.of_nat j < i \/ i + Z.of_nat n <= Z.of_nat j ->
            cells' !! j = cells !! j).
Proof.
  induction n as [|n IH]; intros i tbl a cells Hget Hdata Hi Hlen.
  - exists cells. cbn [iter]. split; [|split; [|split]].
    + f_equal. unfold put. symmetry. apply list_insert_id.
      apply get_Done in Hget. destruct Hget as [_ Hget]. rewrite Hget.
      f_equal. destruct a; cbn in *. subst. reflexivity.
    + reflexivity.
    + intros; lia.
    + reflexivity.
  - pose proof Hget as Hrange. apply get_Done in Hrange.
    destruct Hrange as [Hidx Hlk]. apply lookup_lt_Some in Hlk.
    set (a1 := set_data a (Live (<[Z.to_nat i := c]> cells))).
    assert (Hw : write idx i c tbl = Done (put tbl idx a1)).
    { unfold write. rewrite Hget. cbn. rewrite Hdata. unfold store.
      destruct (Z.ltb_spec i 0); [lia|].
      destruct (Z.leb_spec (Z.of_nat (length cells)) i); [lia|]. reflexivity. }
    destruct (IH (i + 1) (put tbl idx a1) a1 (<[Z.to_nat i := c]> cells))
      as (cells' & Hrun & Hl & Hin & Hout).
    + apply get_put_eq. lia.
    + reflexivity.
    + lia.
    + rewrite length_insert. lia.
    + exists cells'. cbn [iter]. rewrite Hw. cbn. rewrite Hrun, put_put.
      split; [|split; [|split]].
      * reflexivity.
      * rewrite Hl. apply length_insert.
      * intros j Hj. destruct (decide (Z.of_nat j = i)) as [E|E].
        -- rewrite Hout by lia. replace j with (Z.to_nat i) by lia.
           apply list_lookup_insert_eq. lia.
        -- apply Hin. lia.
      * intros j Hj. rewrite Hout by lia.
        apply list_lookup_insert_ne. lia.
Qed.

(** Storing [c] in every cell of a block. *)
Lemma for_loop_write_all (idx : Z) (c : cell) (tbl : list Array) (a : Array)
  (cells : list cell) (n : Z) :
  get tbl idx = Done a ->
  data a = Live cells ->
  n = Z.of_nat (length cells) ->
  for_loop 0 n (fun j => write idx j c) tbl
    = Done (put tbl idx (set_data a (Live (replicate (length cells) c)))).
Proof.
  intros Hget Hdata Hn. rewrite for_loop_iter.
  destruct (iter_write_range idx c (Z.to_nat (n - 0)) 0 tbl a cells)
    as (cells' & Hrun & Hl & Hin & _); auto; try lia.
  rewrite Hrun. do 4 f_equal.
  apply list_eq. intros j.
  destruct (decide (j < length cells)%nat) as [Hj|Hj].
  - rewrite Hin by lia. symmetry. apply lookup_replicate_2. lia.
  - rewrite (lookup_ge_None_2 cells') by lia.
    symmetry. apply lookup_ge_None_2. rewrite length_replicate. lia.
Qed.

Lemma cells_in_mul (n : Z) :
  0 <= n -> cells_in (n * CInt.sizeof_int) = Z.to_nat n.
Proof.
  intros H. unfold cells_in, CInt.sizeof_int.
  rewrite Z.div_mul by lia. reflexivity.
Qed.

End MemFacts.

(** * Slots that were never given an array *)

Module PristineFacts.

Import Mem LoopFacts MemFacts.














End PristineFacts.

Module Bug6Facts.

Import Mem LoopFacts MemFacts PristineFacts Bug6.

Lemma quarter_of_SIZE_MAX : CInt.SIZE_MAX / CInt.sizeof_int = 4611686018427387903.
Proof. reflexivity. Qed.

Lemma to_size_t_range (z : Z) : 0 <= CInt.to_size_t z < 18446744073709551616.
Proof. unfold CInt.to_size_t. apply Z.mod_pos_bound. reflexivity. Qed.

Lemma to_size_t_small (z : Z) :
  0 <= z < 18446744073709551616 -> CInt.to_size_t z = z.
Proof. intros H. unfold CInt.to_size_t. apply Z.mod_small. exact H. Qed.

Lemma slot_count_range (size_arg : Z) :
  0 <= slot_count size_arg <= CInt.SIZE_MAX / CInt.sizeof_int.
Proof.
  unfold slot_count. rewrite quarter_of_SIZE_MAX.
  set (s := if size_arg <? 0 then 10 else size_arg).
  pose proof (to_size_t_range s).
  destruct (Z.ltb_spec 4611686018427387903 (CInt.to_size_t s)); lia.
Qed.

Lemma slot_set_arrays (st : state) (tbl : list Array) (idx : Z) :
  slot (set_arrays st tbl) idx = get tbl idx.
Proof. reflexivity. Qed.

Lemma slot_tick (st : state) (idx : Z) : slot (tick st) idx = slot st idx.
Proof. reflexivity. Qed.

(** What a slot holds once [create_array] has allocated it. *)
Lemma create_array_slot (heap_ok : nat -> Z -> bool) (idx size_arg : Z)
  (st st' : state) (a : Array) :
  0 <= idx ->
  create_array heap_ok idx size_arg st = Done st' ->
  slot st' idx = Done a ->
  allocated a = true ->
  a = mkArray (Live (replicate (Z.to_nat (slot_count size_arg)) (Some 0)))
        (slot_count size_arg) true.
Proof.
  intros Hidx Hrun Hslot Halloc.
  pose proof (slot_count_range size_arg) as Hcount.
  unfold create_array in Hrun. fold (slot_count size_arg) in Hrun.
  destruct (ensure_capacity heap_ok idx st) as [st1|f]; [|discriminate].
  cbn in Hrun.
  destruct (Z.leb_spec (array_count st1) idx) as [Hout|Hin].
  { injection Hrun as <-. unfold slot in Hslot.
    rewrite get_out_of_range in Hslot by exact Hout. discriminate. }
  destruct (get_in_range (arrays st1) idx) as [a0 Ha0];
    [unfold array_count in Hin; lia|].
  unfold slot in Hrun at 1. rewrite Ha0 in Hrun. cbn in Hrun.
  destruct (if allocated a0
            then _ ← c_free (data a0); Done (set_slot st1 idx unallocated)
            else Done st1) as [st2|f] eqn:E2; [|discriminate].
  cbn in Hrun.
  assert (Hlen2 : length (arrays st2) = length (arrays st1)).
  { destruct (allocated a0).
    - destruct (c_free (data a0)); [|discriminate]. cbn in E2.
      injection E2 as <-. apply length_put.
    - injection E2 as <-. reflexivity. }
  assert (Hvac : exists a2, slot st2 idx = Done a2 /\ allocated a2 = false).
  { destruct (allocated a0) eqn:Ea0.
    - destruct (c_free (data a0)); [|discriminate]. cbn in E2.
      injection E2 as <-. exists unallocated. split; [|reflexivity].
      apply get_put_eq. unfold array_count in Hin. lia.
    - injection E2 as <-. exists a0. split; assumption. }
  destruct Hvac as (a2 & Ha2 & Hvac).
  destruct (heap_ok (clock st2) _) eqn:Eok; cbn in Hrun.
  - set (blk := mkArray (fresh (CInt.to_size_t (slot_count size_arg * CInt.sizeof_int)))
                  (slot_count size_arg) true) in *.
    assert (Hb : CInt.to_size_t (slot_count size_arg * CInt.sizeof_int)
                 = slot_count size_arg * CInt.sizeof_int).
    { apply to_size_t_small. rewrite quarter_of_SIZE_MAX in Hcount.
      unfold CInt.sizeof_int. lia. }
    rewrite (for_loop_write_all idx (Some 0) _ blk
               (replicate (Z.to_nat (slot_count size_arg)) None)) in Hrun.
    + cbn in Hrun. injection Hrun as <-.
      rewrite slot_set_arrays, put_put in Hslot.
      rewrite get_put_eq in Hslot
        by (cbn; unfold array_count in Hin; lia).
      injection Hslot as <-. unfold set_data. cbn.
      rewrite length_replicate. reflexivity.
    + cbn. apply get_put_eq. unfold array_count in Hin. lia.
    + cbn. unfold fresh. rewrite Hb, cells_in_mul by lia. reflexivity.
    + rewrite length_replicate. lia.
  - injection Hrun as <-. rewrite slot_tick, Ha2 in Hslot.
    injection Hslot as <-. congruence.
Qed.

(** [fill_array] on a slot whose block has [size] cells. *)
Lemma fill_array_slot (idx value : Z) (st : state)
  (a : Array) (cells : list cell) :
  slot st idx = Done a ->
  allocated a = true ->
  data a = Live cells ->
  size a = Z.of_nat (length cells) ->
  fill_array idx value st
    = Done (set_slot st idx
              (set_data a (Live (replicate (length cells)
                                   (Some (CInt.to_int value)))))).
Proof.
  intros Hslot Halloc Hdata Hsize. unfold fill_array.
  pose proof Hslot as Hr. apply get_Done in Hr. destruct Hr as [Hidx Hlk].
  apply lookup_lt_Some in Hlk.
  destruct (Z.leb_spec (array_count st) idx) as [H|H];
    [unfold array_count in H; lia|].
  rewrite Hslot. cbn. rewrite Halloc. cbn.
  rewrite (for_loop_write_all idx _ (arrays st) a cells) by assumption.
  reflexivity.
Qed.

(** ** A slot stays pristine until [create_array] or [join_arrays]
    names it *)















(** [print_array] with a range that is not inside the slot reads nothing
    and prints nothing. *)
Lemma print_array_rejects (idx start end_ : Z) (st : state) (a : Array) :
  slot st idx = Done a ->
  allocated a = true ->
  end_ <= CInt.LONG_MAX ->
  ~ (0 <= start <= end_ /\ end_ < size a) ->
  print_array idx start end_ st = Done st.
Proof.
  intros Hslot Halloc Hend Hrange. unfold print_array.
  destruct (array_count st <=? idx); [reflexivity|].
  rewrite Hslot. cbn. rewrite Halloc. cbn.
  destruct (Z.ltb_spec start 0); [reflexivity|].
  destruct (Z.ltb_spec end_ start); [reflexivity|]. cbn [orb].
  rewrite to_size_t_small.
  - destruct (Z.leb_spec (size a) end_); [reflexivity | lia].
  - unfold CInt.LONG_MAX in Hend.
    change (2 ^ 63 - 1) with 9223372036854775807 in Hend. lia.
Qed.

Lemma to_long_small (z : Z) :
  CInt.LONG_MIN <= z <= CInt.LONG_MAX -> CInt.to_long z = z.
Proof.
  unfold CInt.LONG_MIN, CInt.LONG_MAX, CInt.to_long.
  change (2 ^ 63) with 9223372036854775808.
  change (2 ^ 64) with 18446744073709551616. intros H.
  rewrite Z.mod_small by lia. lia.
Qed.

Lemma splice_array_rejects (heap_ok : nat -> Z -> bool)
  (dest src offset count : Z) (st : state) :
  0 <= dest -> 0 <= src ->
  splice_rejected (arrays st) dest src offset count ->
  splice_array heap_ok dest src offset count st = Done st.
Proof.
  intros Hdest Hsrc Hrej. unfold splice_array.
  destruct (Z.leb_spec (array_count st) dest) as [Hd|Hd]; [reflexivity|].
  destruct (Z.leb_spec (array_count st) src) as [Hs|Hs]; [reflexivity|].
  cbn [orb].
  destruct (get_in_range (arrays st) dest) as [d Hgd];
    [unfold array_count in Hd; lia|].
  destruct (get_in_range (arrays st) src) as [s Hgs];
    [unfold array_count in Hs; lia|].
  unfold slot. rewrite Hgd, Hgs. cbn.
  destruct (allocated d) eqn:Ed; [|reflexivity].
  destruct (allocated s) eqn:Es; [|reflexivity]. cbn [negb orb].
  destruct (Z.ltb_spec offset 0); [reflexivity|].
  destruct (Z.ltb_spec count 0); [reflexivity|]. cbn [orb].
  destruct Hrej as [H1|[H2|[H3|[H4|(s' & Hs' & Hsz & Hmax)]]]].
  - unfold occupied in H1. rewrite Hgd in H1. congruence.
  - unfold occupied in H2. rewrite Hgs in H2. congruence.
  - lia.
  - lia.
  - rewrite Hgs in Hs'. injection Hs' as <-.
    unfold long_arith, CInt.in_long.
    destruct (Z.leb_spec CInt.LONG_MIN (offset + count));
      [|unfold CInt.LONG_MIN in *; lia].
    destruct (Z.leb_spec (offset + count) CInt.LONG_MAX); [|lia]. cbn.
    rewrite to_long_small by (unfold CInt.LONG_MIN; lia).
    destruct (Z.ltb_spec (size s) (offset + count)); [reflexivity | lia].
Qed.

End Bug6Facts.

Module Bug5Facts.

Import Mem LoopFacts MemFacts PristineFacts Bug5.
Import Bug6Facts(to_size_t_range, to_size_t_small, to_long_small, quarter_of_SIZE_MAX).




(** What a slot holds once [create_array] has allocated it. *)
Lemma create_array_slot_cpp (heap_ok : nat -> Z -> bool) (idx count : Z)
  (st st' : state) (a : Array) :
  0 <= idx ->
  slot_count count <= CInt.SIZE_MAX / CInt.sizeof_int ->
  create_array heap_ok idx count st = Done st' ->
  slot st' idx = Done a ->
  allocated a = true ->
  a = mkArray (Live (replicate (Z.to_nat (slot_count count)) (Some 0)))
        (slot_count count) true.
Proof.
  intros Hidx Hmax Hrun Hslot Halloc.
  rewrite quarter_of_SIZE_MAX in Hmax.
  assert (Hpos : 0 <= slot_count count).
  { unfold slot_count. destruct (Z.ltb_spec count 0); lia. }
  unfold create_array in Hrun. fold (slot_count count) in Hrun.
  rewrite (to_size_t_small (slot_count count)) in Hrun by lia.
  destruct (ensure_capacity heap_ok idx st) as [st1|f]; [|discriminate].
  cbn in Hrun.
  destruct (slot st1 idx) as [a0|] eqn:Ha0; [|discriminate]. cbn in Hrun.
  pose proof Ha0 as Hr. apply get_Done in Hr. destruct Hr as [_ Hlk].
  apply lookup_lt_Some in Hlk.
  destruct (if allocated a0
            then _ ← c_free (data a0); Done (set_slot st1 idx unallocated)
            else Done st1) as [st2|f] eqn:E2; [|discriminate].
  cbn in Hrun.
  assert (Hlen2 : length (arrays st2) = length (arrays st1)).
  { destruct (allocated a0).
    - destruct (c_free (data a0)); [|discriminate]. cbn in E2.
      injection E2 as <-. apply length_put.
    - injection E2 as <-. reflexivity. }
  assert (Hvac : exists a2, slot st2 idx = Done a2 /\ allocated a2 = false).
  { destruct (allocated a0) eqn:Ea0.
    - destruct (c_free (data a0)); [|discriminate]. cbn in E2.
      injection E2 as <-. exists unallocated. split; [|reflexivity].
      apply get_put_eq. lia.
    - injection E2 as <-. exists a0. split; assumption. }
  destruct Hvac as (a2 & Ha2 & Hvac).
  destruct (heap_ok (clock st2) _) eqn:Eok; cbn in Hrun.
  - set (blk := mkArray (fresh (CInt.to_size_t (slot_count count * CInt.sizeof_int)))
                  (slot_count count) true) in *.
    assert (Hb : CInt.to_size_t (slot_count count * CInt.sizeof_int)
                 = slot_count count * CInt.sizeof_int).
    { apply to_size_t_small. unfold CInt.sizeof_int. lia. }
    rewrite (for_loop_write_all idx (Some 0) _ blk
               (replicate (Z.to_nat (slot_count count)) None)) in Hrun.
    + cbn in Hrun. injection Hrun as <-.
      unfold slot in Hslot. cbn in Hslot. rewrite put_put in Hslot.
      rewrite get_put_eq in Hslot by (cbn; lia).
      injection Hslot as <-. unfold set_data. cbn.
      rewrite length_replicate. reflexivity.
    + cbn. apply get_put_eq. lia.
    + cbn. unfold fresh. rewrite Hb, cells_in_mul by lia. reflexivity.
    + rewrite length_replicate. lia.
  - injection Hrun as <-. unfold slot in *. cbn in Hslot. rewrite Ha2 in Hslot.
    injection Hslot as <-. congruence.
Qed.

Lemma fill_array_slot_cpp (idx value : Z) (st : state)
  (a : Array) (cells : list cell) :
  slot st idx = Done a ->
  allocated a = true ->
  data a = Live cells ->
  size a = Z.of_nat (length cells) ->
  fill_array idx value st
    = Done (set_slot st idx
              (set_data a (Live (replicate (length cells)
                                   (Some (CInt.to_int value)))))).
Proof.
  intros Hslot Halloc Hdata Hsize. unfold fill_array.
  pose proof Hslot as Hr. apply get_Done in Hr. destruct Hr as [Hidx Hlk].
  apply lookup_lt_Some in Hlk.
  destruct (Z.leb_spec (arrays_size st) idx) as [H|H];
    [unfold arrays_size in H; lia|].
  rewrite Hslot. cbn. rewrite Halloc. cbn.
  rewrite (for_loop_write_all idx _ (arrays st) a cells) by assumption.
  reflexivity.
Qed.












Lemma print_array_rejects_cpp (idx start end_ : Z) (st : state) (a : Array) :
  slot st idx = Done a ->
  allocated a = true ->
  end_ <= CInt.LONG_MAX ->
  ~ (0 <= start <= end_ /\ end_ < size a) ->
  print_array idx start end_ st
    = Done (cerr st ("print_array: invalid range" ++ nl)).
Proof.
  intros Hslot Halloc Hend Hrange. unfold print_array.
  pose proof Hslot as Hr. apply get_Done in Hr. destruct Hr as [Hidx Hlk].
  apply lookup_lt_Some in Hlk.
  destruct (Z.leb_spec (arrays_size st) idx) as [H|H];
    [unfold arrays_size in H; lia|].
  rewrite Hslot. cbn. rewrite Halloc. cbn.
  destruct (Z.ltb_spec start 0); [reflexivity|].
  destruct (Z.ltb_spec end_ start); [reflexivity|]. cbn [orb].
  rewrite to_size_t_small.
  - destruct (Z.leb_spec (size a) end_); [reflexivity | lia].
  - unfold CInt.LONG_MAX in Hend.
    change (2 ^ 63 - 1) with 9223372036854775807 in Hend. lia.
Qed.

(** Growing the vector shows the same arrays at the same slots. *)
Lemma lookup_slot_grow (tbl : list Array) (n : nat) (i : Z) :
  (length tbl <= n)%nat ->
  lookup_slot (resize n unallocated tbl) i = lookup_slot tbl i.
Proof.
  intros Hn. unfold lookup_slot, get. rewrite length_resize.
  destruct (Z.ltb_spec i 0); [reflexivity|]. cbn [orb].
  destruct (Z.leb_spec (Z.of_nat (length tbl)) i) as [Hout|Hin].
  - destruct (Z.leb_spec (Z.of_nat n) i); [reflexivity|].
    rewrite lookup_resize_new by lia. reflexivity.
  - destruct (Z.leb_spec (Z.of_nat n) i); [lia|].
    rewrite lookup_resize by lia. reflexivity.
Qed.

Lemma get_grow (tbl : list Array) (n : nat) (i : Z) (a : Array) :
  (length tbl <= n)%nat ->
  get tbl i = Done a -> get (resize n unallocated tbl) i = Done a.
Proof.
  intros Hn Hget. apply get_Done in Hget. destruct Hget as [Hi Hlk].
  apply get_Done. split; [exact Hi|].
  pose proof (lookup_lt_Some _ _ _ Hlk).
  rewrite lookup_resize by lia. exact Hlk.
Qed.

Lemma occupied_lookup_slot (tbl : list Array) (i : Z) :
  occupied tbl i = match lookup_slot tbl i with Some _ => true | None => false end.
Proof.
  unfold occupied, lookup_slot. destruct (get tbl i) as [a|]; [|reflexivity].
  destruct (allocated a); reflexivity.
Qed.

Lemma grown_refl (st : state) : grown st st.
Proof.
  split; [|split; reflexivity].
  exists (length (arrays st)). split; [lia|]. symmetry. apply resize_all.
Qed.

Lemma grown_trans (s1 s2 s3 : state) : grown s1 s2 -> grown s2 s3 -> grown s1 s3.
Proof.
  intros ((n & Hn & E1) & O1 & R1) ((m & Hm & E2) & O2 & R2).
  split; [|split; congruence].
  exists m. rewrite E1, length_resize in Hm. split; [lia|].
  rewrite E2, E1.
  rewrite (resize_ge (arrays s1) n) by exact Hn.
  rewrite (resize_ge (arrays s1) m) by lia.
  rewrite resize_ge by (rewrite length_app, length_replicate; lia).
  rewrite length_app, length_replicate.
  rewrite <- app_assoc, <- replicate_add. f_equal. f_equal. lia.
Qed.

Lemma ensure_capacity_grown (heap_ok : nat -> Z -> bool) (idx : Z) (st : state) :
  0 <= idx < CInt.SIZE_MAX ->
  match ensure_capacity heap_ok idx st with
  | Done st' => grown st st' /\ idx < arrays_size st'
  | Crash f => f = Uncaught /\ arrays_size st <= idx
  end.
Proof.
  intros Hidx. unfold ensure_capacity.
  destruct (Z.leb_spec (arrays_size st) idx) as [Hout|Hin].
  - unfold vector_resize. rewrite to_size_t_small
      by (unfold CInt.SIZE_MAX in Hidx;
          change (2 ^ 64 - 1) with 18446744073709551615 in Hidx; lia).
    destruct (max_size <? idx + 1); [auto|].
    destruct (Z.leb_spec (idx + 1) (arrays_size st)); [lia|].
    destruct (heap_ok _ _); cbn; [|auto].
    split.
    + split; [|split; reflexivity]. cbn.
      exists (Z.to_nat (idx + 1)). split; [unfold arrays_size in *; lia|].
      reflexivity.
    + unfold arrays_size. cbn. rewrite length_resize. lia.
  - split; [apply grown_refl | exact Hin].
Qed.

Lemma grown_lookup_slot (st st' : state) (i : Z) :
  grown st st' -> lookup_slot (arrays st') i = lookup_slot (arrays st) i.
Proof.
  intros ((n & Hn & E) & _). rewrite E. apply lookup_slot_grow. exact Hn.
Qed.

Lemma grown_size (st st' : state) : grown st st' -> arrays_size st <= arrays_size st'.
Proof.
  intros ((n & Hn & E) & _). unfold arrays_size. rewrite E, length_resize. lia.
Qed.

(** A call that [splice_array] turns down shows the same arrays at the
    same slots afterwards and prints nothing on [std::cout]; only growing
    the vector for an index beyond it can end the run. *)
Lemma splice_array_rejects_cpp (heap_ok : nat -> Z -> bool)
  (dest src offset count : Z) (st : state) :
  0 <= dest < CInt.SIZE_MAX -> 0 <= src < CInt.SIZE_MAX ->
  splice_rejected (arrays st) dest src offset count ->
  match splice_array heap_ok dest src offset count st with
  | Done st' =>
      (exists n, (length (arrays st) <= n)%nat
                 /\ arrays st' = resize n unallocated (arrays st))
      /\ (forall i, lookup_slot (arrays st') i = lookup_slot (arrays st) i)
      /\ stdout st' = stdout st
  | Crash f => f = Uncaught /\ (arrays_size st <= dest \/ arrays_size st <= src)
  end.
Proof.
  intros Hdest Hsrc Hrej. unfold splice_array.
  pose proof (ensure_capacity_grown heap_ok dest st Hdest) as H1.
  destruct (ensure_capacity heap_ok dest st) as [st1|f]; cbn;
    [|destruct H1; auto].
  destruct H1 as [G1 Hd1].
  pose proof (ensure_capacity_grown heap_ok src st1 Hsrc) as H2.
  destruct (ensure_capacity heap_ok src st1) as [st2|f]; cbn.
  2:{ destruct H2 as [-> H2]. split; [reflexivity|].
      right. pose proof (grown_size _ _ G1). lia. }
  destruct H2 as [G2 Hs2].
  pose proof (grown_trans _ _ _ G1 G2) as G.
  pose proof (grown_size _ _ G2) as Hsz.
  assert (Hkeep : forall st', arrays st' = arrays st2 -> stdout st' = stdout st2 ->
            (exists n, (length (arrays st) <= n)%nat
                       /\ arrays st' = resize n unallocated (arrays st))
            /\ (forall i, lookup_slot (arrays st') i = lookup_slot (arrays st) i)
            /\ stdout st' = stdout st).
  { intros st' Ha Ho. rewrite Ha, Ho.
    split; [exact (proj1 G)|].
    split; [intros i; apply (grown_lookup_slot _ _ i G)|].
    destruct G as (_ & O & _). exact O. }
  destruct (get_in_range (arrays st2) dest) as [d Hgd];
    [unfold arrays_size in *; lia|].
  destruct (get_in_range (arrays st2) src) as [s Hgs];
    [unfold arrays_size in *; lia|].
  unfold slot. rewrite Hgd. cbn.
  destruct (allocated d) eqn:Ed; cbn; [|apply Hkeep; reflexivity].
  rewrite Hgs. cbn.
  destruct (allocated s) eqn:Es; cbn; [|apply Hkeep; reflexivity].
  destruct (Z.ltb_spec offset 0); [apply Hkeep; reflexivity|].
  destruct (Z.ltb_spec count 0); [apply Hkeep; reflexivity|]. cbn [orb].
  assert (Hocc : forall i b, get (arrays st2) i = Done b -> allocated b = true ->
                   occupied (arrays st) i = true).
  { intros i b Hb Hal. rewrite occupied_lookup_slot.
    rewrite <- (grown_lookup_slot _ _ i G). unfold lookup_slot.
    rewrite Hb, Hal. reflexivity. }
  destruct Hrej as [R1|[R2|[R3|[R4|(s' & Hs' & Hrange & Hmax)]]]].
  - rewrite (Hocc dest d Hgd Ed) in R1. discriminate.
  - rewrite (Hocc src s Hgs Es) in R2. discriminate.
  - lia.
  - lia.
  - destruct G as ((n & Hn & E) & _).
    apply (get_grow _ n) in Hs'; [|exact Hn]. rewrite <- E, Hgs in Hs'.
    injection Hs' as <-.
    assert (Hsum : long_arith (offset + count) = Done (offset + count)).
    { unfold long_arith, CInt.in_long.
      destruct (Z.leb_spec CInt.LONG_MIN (offset + count));
        [|unfold CInt.LONG_MIN in *; lia].
      destruct (Z.leb_spec (offset + count) CInt.LONG_MAX); [|lia].
      reflexivity. }
    rewrite Hsum. cbn.
    rewrite to_long_small by (unfold CInt.LONG_MIN; lia).
    destruct (Z.ltb_spec (size s) (offset + count));
      [apply Hkeep; reflexivity | lia].
Qed.

(** When both indices are inside the vector nothing is extended, and a
    call that is turned down leaves the very same table. *)
Lemma splice_array_rejects_in_table (heap_ok : nat -> Z -> bool)
  (dest src offset count : Z) (st : state) :
  0 <= dest < arrays_size st -> 0 <= src < arrays_size st ->
  splice_rejected (arrays st) dest src offset count ->
  exists st',
    splice_array heap_ok dest src offset count st = Done st'
    /\ arrays st' = arrays st
    /\ stdout st' = stdout st.
Proof.
  intros Hdest Hsrc Hrej. unfold splice_array, ensure_capacity.
  destruct (Z.leb_spec (arrays_size st) dest); [lia|]. cbn.
  destruct (Z.leb_spec (arrays_size st) src); [lia|]. cbn.
  destruct (get_in_range (arrays st) dest) as [d Hgd];
    [unfold arrays_size in *; lia|].
  destruct (get_in_range (arrays st) src) as [s Hgs];
    [unfold arrays_size in *; lia|].
  unfold slot. rewrite Hgd. cbn.
  destruct (allocated d) eqn:Ed; cbn; [|eexists; repeat split].
  rewrite Hgs. cbn.
  destruct (allocated s) eqn:Es; cbn; [|eexists; repeat split].
  destruct (Z.ltb_spec offset 0); [eexists; repeat split|].
  destruct (Z.ltb_spec count 0); [eexists; repeat split|]. cbn [orb].
  destruct Hrej as [R1|[R2|[R3|[R4|(s' & Hs' & Hrange & Hmax)]]]].
  - unfold occupied in R1. rewrite Hgd in R1. congruence.
  - unfold occupied in R2. rewrite Hgs in R2. congruence.
  - lia.
  - lia.
  - rewrite Hgs in Hs'. injection Hs' as <-.
    assert (Hsum : long_arith (offset + count) = Done (offset + count)).
    { unfold long_arith, CInt.in_long.
      destruct (Z.leb_spec CInt.LONG_MIN (offset + count));
        [|unfold CInt.LONG_MIN in *; lia].
      destruct (Z.leb_spec (offset + count) CInt.LONG_MAX); [|lia].
      reflexivity. }
    rewrite Hsum. cbn.
    rewrite to_long_small by (unfold CInt.LONG_MIN; lia).
    destruct (Z.ltb_spec (size s) (offset + count)); [|lia].
    eexists. repeat split.
Qed.

End Bug5Facts.

(** * The input loops end before their fuel does *)

Module StreamFacts.

Import Libc.

Lemma fread_rest (s : string) :
  forall n b r, fread n s = (b, r) -> (String.length r <= String.length s)%nat.
Proof.
  induction s as [|c s IH]; intros n b r H; cbn in H.
  - injection H as <- <-. cbn. lia.
  - destruct (n <=? 0).
    + injection H as <- <-. cbn. lia.
    + destruct (fread (n - 1) s) as [b' r'] eqn:E. injection H as <- <-.
      apply IH in E. cbn. lia.
Qed.

Lemma fread_got (s : string) :
  forall n b r, fread n s = (b, r) ->
    (String.length b + String.length r = String.length s)%nat.
Proof.
  induction s as [|c s IH]; intros n b r H; cbn in H.
  - injection H as <- <-. reflexivity.
  - destruct (n <=? 0).
    + injection H as <- <-. reflexivity.
    + destruct (fread (n - 1) s) as [b' r'] eqn:E. injection H as <- <-.
      apply IH in E. cbn. lia.
Qed.

Lemma fgets_from_rest (room : nat) :
  forall s l r, fgets_from room s = (l, r) ->
    (String.length r <= String.length s)%nat
    /\ (0 < room -> s <> EmptyString -> String.length r < String.length s)%nat.
Proof.
  induction room as [|room IH]; intros s l r H.
  - cbn in H. injection H as <- <-. split; lia.
  - destruct s as [|c s]; cbn in H.
    + injection H as <- <-. split; [lia | congruence].
    + destruct (Ascii.eqb c "010").
      * injection H as <- <-. cbn. split; lia.
      * destruct (fgets_from room s) as [l' r'] eqn:E. injection H as <- <-.
        apply IH in E. destruct E as [E _]. cbn. split; lia.
Qed.

Lemma fgets_rest (s l r : string) :
  fgets Bug1.MAX_LINE s = Some (l, r) -> (String.length r < String.length s)%nat.
Proof.
  unfold fgets. destruct s as [|c s]; [discriminate|].
  assert (Hroom : (0 < Nat.pred Bug1.MAX_LINE)%nat) by (cbn; lia).
  generalize dependent (Nat.pred Bug1.MAX_LINE). intros room Hroom H.
  injection H as H. apply fgets_from_rest in H. destruct H as [_ H].
  apply H; [exact Hroom | discriminate].
Qed.

Lemma process_command_rest (malloc_ok : Z -> bool) (tokens : list string)
  (stdin out rest : string) :
  Bug1.process_command malloc_ok tokens stdin = Done (out, rest) ->
  (String.length rest <= String.length stdin)%nat.
Proof.
  unfold Bug1.process_command. destruct tokens as [|cmd args].
  { intros [= <- <-]. lia. }
  destruct (String.eqb cmd "CALC").
  { destruct args as [|t1 [|t2 [|t3 ?]]]; try discriminate.
    destruct (Bug1.calc _ _ _); [|discriminate]. cbn. intros [= <- <-]. lia. }
  destruct (String.eqb cmd "ALLOC").
  { destruct args as [|t1 ?]; [discriminate|].
    destruct (malloc_ok _); [|discriminate].
    destruct (fread _ stdin) as [b r] eqn:E.
    destruct (negb _); [discriminate|].
    destruct (has_nul b); [|discriminate].
    intros [= <- <-]. apply (fread_rest _ _ _ _ E). }
  destruct (String.eqb cmd "ECHO").
  { intros [= <- <-]. lia. }
  destruct (malloc_ok 10); discriminate.
Qed.

(** Any two amounts of fuel above the length of the input give the loop
    of bug1.c the same result: the loop always ends at the end of the
    input. *)
Lemma main_loop_fuel (malloc_ok : Z -> bool) (fuel1 : nat) :
  forall (fuel2 : nat) (stdin out : string),
    (String.length stdin < fuel1)%nat ->
    (String.length stdin < fuel2)%nat ->
    Bug1.main_loop malloc_ok fuel1 stdin out
      = Bug1.main_loop malloc_ok fuel2 stdin out.
Proof.
  induction fuel1 as [|fuel1 IH]; intros fuel2 stdin out H1 H2; [lia|].
  destruct fuel2 as [|fuel2]; [lia|]. cbn [Bug1.main_loop].
  destruct (fgets Bug1.MAX_LINE stdin) as [[line rest]|] eqn:E; [|reflexivity].
  apply fgets_rest in E.
  destruct (Bug1.process_line malloc_ok line rest) as [[o r]|] eqn:Ep;
    [|reflexivity].
  cbn. apply process_command_rest in Ep. apply IH; lia.
Qed.

Lemma read_u32_rest (f : string) (v : option Z) (r : string) :
  Bin.read_u32 f = (v, r) ->
  (String.length r <= String.length f)%nat
  /\ (forall n, v = Some n -> (String.length r + 4 = String.length f)%nat).
Proof.
  unfold Bin.read_u32. destruct (fread 4 f) as [b r'] eqn:E.
  intros [= <- <-]. pose proof (fread_got _ _ _ _ E) as Hg.
  split; [lia|]. intros n Hn.
  destruct (Nat.eqb_spec (String.length b) 4); [lia | discriminate].
Qed.

(** The same for the reading loop of bug8.c. *)
Lemma read_docs_fuel (heap_ok : nat -> Z -> bool) (doc_count : Z) (fuel1 : nat) :
  forall (fuel2 : nat) (i : Z) (f : string) (clock : nat)
    (docs : list Bug8.Document),
    (String.length f < fuel1)%nat ->
    (String.length f < fuel2)%nat ->
    Bug8.read_docs heap_ok fuel1 i doc_count f clock docs
      = Bug8.read_docs heap_ok fuel2 i doc_count f clock docs.
Proof.
  induction fuel1 as [|fuel1 IH]; intros fuel2 i f clock docs H1 H2; [lia|].
  destruct fuel2 as [|fuel2]; [lia|]. cbn [Bug8.read_docs].
  destruct (doc_count <=? i); [reflexivity|].
  destruct (Bin.read_u32 f) as [[len|] f1] eqn:E; [|reflexivity].
  apply read_u32_rest in E. destruct E as [_ E]. specialize (E len eq_refl).
  destruct (negb _ && _); [reflexivity|].
  destruct (fread len f1) as [got f2] eqn:E2.
  apply fread_rest in E2. apply IH; lia.
Qed.

(** The same for the two reading loops of bug10.c. *)
Lemma read_fields_fuel (heap_ok : nat -> Z -> bool) (count : Z) (fuel1 : nat) :
  forall (fuel2 : nat) (j : Z) (f : string) (clock : nat)
    (acc : list Bug10.Field),
    (String.length f < fuel1)%nat ->
    (String.length f < fuel2)%nat ->
    Bug10.read_fields heap_ok fuel1 j count f clock acc
      = Bug10.read_fields heap_ok fuel2 j count f clock acc.
Proof.
  induction fuel1 as [|fuel1 IH]; intros fuel2 j f clock acc H1 H2; [lia|].
  destruct fuel2 as [|fuel2]; [lia|]. cbn [Bug10.read_fields].
  destruct (count <=? j); [reflexivity|].
  destruct (Bin.read_u32 f) as [[len|] f1] eqn:E; [|reflexivity].
  apply read_u32_rest in E. destruct E as [_ E]. specialize (E len eq_refl).
  destruct (negb _ && _); [reflexivity|].
  destruct (fread len f1) as [got f2] eqn:E2.
  apply fread_rest in E2. apply IH; lia.
Qed.

Lemma read_fields_rest (heap_ok : nat -> Z -> bool) (count : Z) (fuel : nat) :
  forall (j : Z) (f : string) (clock : nat) (acc : list Bug10.Field)
    fs ok f' clock',
    Bug10.read_fields heap_ok fuel j count f clock acc = (fs, ok, f', clock') ->
    (String.length f' <= String.length f)%nat.
Proof.
  induction fuel as [|fuel IH]; intros j f clock acc fs ok f' clock' H.
  - cbn in H. injection H as <- <- <- <-. lia.
  - cbn [Bug10.read_fields] in H.
    destruct (count <=? j); [injection H as <- <- <- <-; lia|].
    destruct (Bin.read_u32 f) as [[len|] f1] eqn:E.
    + apply read_u32_rest in E. destruct E as [E _].
      destruct (negb _ && _); [injection H as <- <- <- <-; lia|].
      destruct (fread len f1) as [got f2] eqn:E2.
      apply fread_rest in E2. apply IH in H. lia.
    + apply read_u32_rest in E. destruct E as [E _].
      injection H as <- <- <- <-. lia.
Qed.

Lemma read_records_fuel (heap_ok : nat -> Z -> bool) (record_count : Z)
  (fuel1 : nat) :
  forall (fuel2 : nat) (i : Z) (f : string) (clock : nat)
    (records : list Bug10.Record_),
    (String.length f < fuel1)%nat ->
    (String.length f < fuel2)%nat ->
    Bug10.read_records heap_ok fuel1 i record_count f clock records
      = Bug10.read_records heap_ok fuel2 i record_count f clock records.
Proof.
  induction fuel1 as [|fuel1 IH]; intros fuel2 i f clock records H1 H2; [lia|].
  destruct fuel2 as [|fuel2]; [lia|]. cbn [Bug10.read_records].
  destruct (record_count <=? i); [reflexivity|].
  destruct (Bin.read_u32 f) as [[count|] f1] eqn:E; [|reflexivity].
  apply read_u32_rest in E. destruct E as [_ E]. specialize (E count eq_refl).
  destruct (negb _ && _); [apply IH; lia|].
  destruct (Bug10.read_fields heap_ok _ 0 count f1 _ _) as [[[fs ok] f2] c2]
    eqn:E2.
  apply read_fields_rest in E2.
  destruct (negb ok); apply IH; lia.
Qed.

End StreamFacts.

(** * The runs that the sources document as working *)

Section Documented.

Local Open Scope string_scope.

(** bug6.c: "CREATE 0 10" followed by "FILL 0 1" and "PRINT 0 0 9". *)
Example manager_documented_run :
  (st ← Bug6.run Samples.roomy ["CREATE 0 10"; "FILL 0 1"; "PRINT 0 0 9"]
          Bug6.initial;
   Done (Bug6.stdout st))
  = Done ("1 1 1 1 1 1 1 1 1 1 " ++ Bug1.newline).
Proof. vm_compute. reflexivity. Qed.

(** bug5.cpp: "CREATE_ARRAY 0 10", "FILL_ARRAY 0 5", "COMPUTE_STAT 0". *)
Example database_documented_run :
  (st ← Bug5.run Samples.roomy
          ["CREATE_ARRAY 0 10"; "FILL_ARRAY 0 5"; "COMPUTE_STAT 0"] Bug5.initial;
   Done (Bug5.stdout st, Bug5.stderr st))
  = Done ("Average: 5" ++ Bug1.newline, "").
Proof. vm_compute. reflexivity. Qed.

(** bug7.c: "SET name=alice", "COMPUTE", "DUMP". *)
Example store_documented_run :
  (st ← Bug7.run Samples.roomy ["SET name=alice"; "COMPUTE"; "DUMP"]
          Bug7.initial;
   Done (Bug7.stdout st))
  = Done ("Average length: 5" ++ Bug1.newline
          ++ "name=alice" ++ Bug1.newline).
Proof. vm_compute. reflexivity. Qed.

(** bug2.c: the two users of the header comment. *)
Example users_documented_run :
  Bug2.main Samples.roomy
    ("alice,30,alice@example.com" ++ Bug1.newline
     ++ "bob,25,bob@example.com" ++ Bug1.newline)
  = Done ("Loaded 2 users. Average age: 27" ++ Bug1.newline
          ++ "First user: alice (30) <alice@example.com>" ++ Bug1.newline).
Proof. vm_compute. reflexivity. Qed.

(** bug8.c: one document "Hello"; bug10.c: one record with the one field
    "Hello". *)
Example documents_documented_run :
  Bug8.main Samples.roomy (Samples.u32 1 ++ Samples.u32 5 ++ "Hello")
  = Done (Bin.text ("Average length: 5" ++ Bug1.newline
                    ++ "Hello" ++ Bug1.newline)).
Proof. vm_compute. reflexivity. Qed.

Example records_documented_run :
  Bug10.main Samples.roomy
    (Samples.u32 1 ++ Samples.u32 1 ++ Samples.u32 5 ++ "Hello")
  = Done (Bin.text ("Average fields per record: 1" ++ Bug1.newline
                    ++ "Hello" ++ Bug1.newline)).
Proof. vm_compute. reflexivity. Qed.

End Documented.

(** * The calculator of bug1.c *)

Section Calculator.

Local Open Scope string_scope.

(** C9: on the input line "CALC 10 + 5" the calculator command prints
    exactly the line "Result: 15", whatever follows on the input and
    whatever the allocator does; so does the whole program when that line
    is its input, and its loop ends there for every amount of fuel above
    the length of the input. *)
Theorem calc_10_plus_5 (malloc_ok : Z -> bool) (stdin : string) :
  Bug1.process_line malloc_ok "CALC 10 + 5" stdin
    = Done ("Result: 15" ++ Bug1.newline, stdin)
  /\ Bug1.main malloc_ok ("CALC 10 + 5" ++ Bug1.newline)
       = Done ("Result: 15" ++ Bug1.newline)
  /\ (forall fuel,
        (String.length ("CALC 10 + 5" ++ Bug1.newline) < fuel)%nat ->
        Bug1.main_loop malloc_ok fuel ("CALC 10 + 5" ++ Bug1.newline) ""
          = Done ("Result: 15" ++ Bug1.newline)).
Proof.
  split; [reflexivity|]. split; [reflexivity|].
  intros fuel Hfuel.
  rewrite (StreamFacts.main_loop_fuel malloc_ok fuel
             (S (String.length ("CALC 10 + 5" ++ Bug1.newline))));
    [reflexivity | exact Hfuel | lia].
Qed.

Lemma calc_10_plus_5_witness :
  (String.length ("CALC 10 + 5" ++ Bug1.newline) < 20)%nat
  /\ Bug1.main_loop (fun _ => true) 20 ("CALC 10 + 5" ++ Bug1.newline) ""
     = Done ("Result: 15" ++ Bug1.newline).
Proof.
  assert (Hfuel : (String.length ("CALC 10 + 5" ++ Bug1.newline) < 20)%nat)
    by (cbn; lia).
  split; [exact Hfuel|].
  exact (proj2 (proj2 (calc_10_plus_5 (fun _ => true) EmptyString)) 20%nat Hfuel).
Defined.

(** C6 (the code departs from the claim): on the input line "CALC 10 / 0"
    [process_command] reaches the division [a / b] with [b = 0]; no guard
    and no error branch stands before it, and the run ends there. *)
Theorem calc_10_div_0 (malloc_ok : Z -> bool) (stdin : string) :
  Bug1.process_line malloc_ok "CALC 10 / 0" stdin = Crash DivideByZero
  /\ Bug1.main malloc_ok ("CALC 10 / 0" ++ Bug1.newline) = Crash DivideByZero.
Proof. split; reflexivity. Qed.

End Calculator.

(** * Averages over nothing *)

Section Averages.

Local Open Scope string_scope.

(** C1 (the code departs from the claim): with no pair, user, document or
    record to average over, the statistics code of bug7.c, bug2.c, bug8.c
    and bug10.c divides by the zero count; no empty result is reported. *)
Theorem average_over_nothing_divides_by_zero :
  (forall pairs clock out,
      Bug7.compute_stats (Bug7.mkState pairs 0 clock out) = Crash DivideByZero)
  /\ (forall heap_ok, Bug7.main heap_ok ("COMPUTE" ++ Bug1.newline)
                      = Crash DivideByZero)
  /\ (forall capacity clock,
        Bug2.report (Bug2.mkState [] capacity clock) = Crash DivideByZero)
  /\ (forall heap_ok, Bug2.main heap_ok "" = Crash DivideByZero)
  /\ Bug8.report [] = Crash DivideByZero
  /\ (forall heap_ok, Bug8.main heap_ok (Samples.u32 0) = Crash DivideByZero)
  /\ Bug10.report [] = Crash DivideByZero
  /\ (forall heap_ok, Bug10.main heap_ok (Samples.u32 0) = Crash DivideByZero).
Proof.
  repeat split; try reflexivity.
  - intros heap_ok. unfold Bug8.main, Bug8.read_file.
    change (Bin.read_u32 (Samples.u32 0)) with (Some 0, EmptyString).
    cbv iota beta. rewrite andb_false_r. reflexivity.
  - intros heap_ok. unfold Bug10.main, Bug10.read_file.
    change (Bin.read_u32 (Samples.u32 0)) with (Some 0, EmptyString).
    cbv iota beta. rewrite andb_false_r. reflexivity.
Qed.

Lemma fread_all (s : string) :
  forall n, Z.of_nat (String.length s) <= n -> Libc.fread n s = (s, EmptyString).
Proof.
  induction s as [|c s IH]; intros n H; [reflexivity|].
  cbn [Libc.fread]. cbn [String.length] in H.
  destruct (Z.leb_spec n 0); [lia|].
  rewrite IH by lia. reflexivity.
Qed.

(** C3 (the code departs from the claim): whenever the length [len] that
    a document of bug8.c, or a field of bug10.c, declares exceeds the
    bytes [payload] that the file has left, the reading loop stores the
    entry with the declared length [len] and a block of which only the
    first bytes were written, and takes its next turn: no truncation is
    signalled. For a document, and a field, that declares five bytes
    where two are left, the entry is stored so and the report then prints
    five bytes from that block, three of them never written. *)
Theorem short_payload_is_stored_unsignalled :
  (forall heap_ok fuel i doc_count f len payload clock docs,
      i < doc_count ->
      Bin.read_u32 f = (Some len, payload) ->
      Z.of_nat (String.length payload) < len ->
      heap_ok clock len = true ->
      Bug8.read_docs heap_ok (S fuel) i doc_count f clock docs
        = Bug8.read_docs heap_ok fuel (i + 1) doc_count EmptyString (S clock)
            (<[Z.to_nat i := Bug8.mkDocument (Some (Bin.filled len payload))
                                len true]> docs))
  /\ (forall heap_ok fuel j count f len payload clock acc,
      j < count ->
      Bin.read_u32 f = (Some len, payload) ->
      Z.of_nat (String.length payload) < len ->
      heap_ok clock len = true ->
      Bug10.read_fields heap_ok (S fuel) j count f clock acc
        = Bug10.read_fields heap_ok fuel (j + 1) count EmptyString (S clock)
            (<[Z.to_nat j := Bug10.mkField (Some (Bin.filled len payload))
                                len true]> acc))
  /\ Bug8.read_file Samples.roomy Samples.short_document
     = Some [Bug8.mkDocument
               (Some [Some "H"%char; Some "e"%char; None; None; None]) 5 true]
  /\ Bug8.main Samples.roomy Samples.short_document
     = Done (Bin.text ("Average length: 5" ++ Bug1.newline)
             ++ [Some "H"%char; Some "e"%char; None; None; None]
             ++ Bin.text Bug1.newline)%list
  /\ Bug10.read_file Samples.roomy Samples.short_record
     = Some [Bug10.mkRecord
               (Some [Bug10.mkField
                        (Some [Some "H"%char; Some "e"%char; None; None; None])
                        5 true]) 1 true]
  /\ Bug10.main Samples.roomy Samples.short_record
     = Done (Bin.text ("Average fields per record: 1" ++ Bug1.newline)
             ++ [Some "H"%char; Some "e"%char; None; None; None]
             ++ Bin.text Bug1.newline)%list.
Proof.
  split; [|split; [|repeat split; reflexivity]].
  - intros heap_ok fuel i doc_count f len payload clock docs Hi Hlen Hshort Hok.
    cbn [Bug8.read_docs].
    destruct (Z.leb_spec doc_count i); [lia|].
    rewrite Hlen, Hok. cbn [negb andb].
    rewrite fread_all by lia. reflexivity.
  - intros heap_ok fuel j count f len payload clock acc Hj Hlen Hshort Hok.
    cbn [Bug10.read_fields].
    destruct (Z.leb_spec count j); [lia|].
    rewrite Hlen, Hok. cbn [negb andb].
    rewrite fread_all by lia. reflexivity.
Qed.

Lemma short_payload_witness :
  Bin.read_u32 (Samples.u32 5 ++ "He") = (Some 5, "He"%string)
  /\ Z.of_nat (String.length "He") < 5
  /\ Bug8.read_docs Samples.roomy 3 0 1 (Samples.u32 5 ++ "He") 1
       [Bug8.mkDocument None 0 false]
     = Bug8.read_docs Samples.roomy 2 (0 + 1) 1 EmptyString 2
         (<[Z.to_nat 0 := Bug8.mkDocument (Some (Bin.filled 5 "He")) 5 true]>
            [Bug8.mkDocument None 0 false]).
Proof.
  assert (Hlen : Bin.read_u32 (Samples.u32 5 ++ "He") = (Some 5, "He"%string))
    by reflexivity.
  assert (Hshort : Z.of_nat (String.length "He") < 5) by (cbn; lia).
  split; [exact Hlen|]. split; [exact Hshort|].
  exact (proj1 short_payload_is_stored_unsignalled Samples.roomy 2%nat 0 1
           (Samples.u32 5 ++ "He")%string 5 "He"%string 1%nat
           [Bug8.mkDocument None 0 false] ltac:(lia) Hlen Hshort eq_refl).
Defined.

End Averages.

(** * Numbers read from tokens *)

Section Tokens.

Import Libc.
Local Open Scope string_scope.










End Tokens.

(** * The slot tables of bug6.c and bug5.cpp *)

Section Slots.

Import Mem MemFacts PristineFacts.
Local Open Scope string_scope.

Lemma lookup_slot_Some (tbl : list Array) (idx : Z) (a : Array) :
  lookup_slot tbl idx = Some a <-> get tbl idx = Done a /\ allocated a = true.
Proof.
  unfold lookup_slot. destruct (get tbl idx) as [b|].
  - destruct (allocated b) eqn:E.
    + split; [intros [= <-]; auto | intros [[= <-] _]; reflexivity].
    + split; [discriminate | intros [[= <-] H]; congruence].
  - split; [discriminate | intros [[=] _]].
Qed.

Lemma lookup_slot_None (tbl : list Array) (idx : Z) :
  lookup_slot tbl idx = None <-> occupied tbl idx = false.
Proof.
  unfold lookup_slot, occupied. destruct (get tbl idx) as [b|]; [|tauto].
  destruct (allocated b); split; congruence.
Qed.

Lemma slot_count6_plain (size_arg : Z) :
  0 <= size_arg <= CInt.SIZE_MAX / CInt.sizeof_int ->
  Bug6.slot_count size_arg = size_arg.
Proof.
  rewrite Bug6Facts.quarter_of_SIZE_MAX. intros H. unfold Bug6.slot_count.
  rewrite Bug6Facts.quarter_of_SIZE_MAX.
  destruct (Z.ltb_spec size_arg 0); [lia|].
  rewrite Bug6Facts.to_size_t_small by lia.
  destruct (Z.ltb_spec 4611686018427387903 size_arg); [lia | reflexivity].
Qed.

Lemma slot_count6_huge (size_arg : Z) :
  CInt.SIZE_MAX / CInt.sizeof_int < size_arg <= CInt.LONG_MAX ->
  Bug6.slot_count size_arg = 100.
Proof.
  rewrite Bug6Facts.quarter_of_SIZE_MAX. unfold CInt.LONG_MAX.
  change (2 ^ 63 - 1) with 9223372036854775807.
  intros H. unfold Bug6.slot_count.
  rewrite Bug6Facts.quarter_of_SIZE_MAX.
  destruct (Z.ltb_spec size_arg 0); [lia|].
  rewrite Bug6Facts.to_size_t_small by lia.
  destruct (Z.ltb_spec 4611686018427387903 size_arg); [reflexivity | lia].
Qed.

Lemma slot_count5_plain (count : Z) : 0 <= count -> Bug5.slot_count count = count.
Proof.
  intros H. unfold Bug5.slot_count. destruct (Z.ltb_spec count 0); [lia | reflexivity].
Qed.

(** C4 (as amended): after [create(idx, size)] has given slot [idx] an
    array, that array has exactly [size] elements, all zero, when
    [0 <= size <= SIZE_MAX / sizeof(int)]. A negative size argument is
    replaced first, by 10 in bug6.c and by 100 in bug5.cpp, and bug6.c
    replaces a size above [SIZE_MAX / sizeof(int)] by 100; the array then
    has that many elements, all zero. *)
Theorem create_then_get_zeroed (heap_ok : nat -> Z -> bool) (idx size_arg : Z) :
  0 <= idx ->
  (forall st st' a,
      Bug6.create_array heap_ok idx size_arg st = Done st' ->
      lookup_slot (Bug6.arrays st') idx = Some a ->
      size a = Bug6.slot_count size_arg
      /\ data a = Live (replicate (Z.to_nat (Bug6.slot_count size_arg)) (Some 0)))
  /\ (forall st st' a,
      Bug5.slot_count size_arg <= CInt.SIZE_MAX / CInt.sizeof_int ->
      Bug5.create_array heap_ok idx size_arg st = Done st' ->
      lookup_slot (Bug5.arrays st') idx = Some a ->
      size a = Bug5.slot_count size_arg
      /\ data a = Live (replicate (Z.to_nat (Bug5.slot_count size_arg)) (Some 0)))
  /\ (0 <= size_arg <= CInt.SIZE_MAX / CInt.sizeof_int ->
      Bug6.slot_count size_arg = size_arg /\ Bug5.slot_count size_arg = size_arg)
  /\ (size_arg < 0 ->
      Bug6.slot_count size_arg = 10 /\ Bug5.slot_count size_arg = 100)
  /\ (CInt.SIZE_MAX / CInt.sizeof_int < size_arg <= CInt.LONG_MAX ->
      Bug6.slot_count size_arg = 100).
Proof.
  intros Hidx. split; [|split; [|split; [|split]]].
  - intros st st' a Hrun Hlk. apply lookup_slot_Some in Hlk.
    destruct Hlk as [Hget Halloc].
    rewrite (Bug6Facts.create_array_slot heap_ok idx size_arg st st' a);
      auto.
  - intros st st' a Hmax Hrun Hlk. apply lookup_slot_Some in Hlk.
    destruct Hlk as [Hget Halloc].
    rewrite (Bug5Facts.create_array_slot_cpp heap_ok idx size_arg st st' a);
      auto.
  - intros H. split; [apply slot_count6_plain; exact H|].
    apply slot_count5_plain. lia.
  - intros H. unfold Bug6.slot_count, Bug5.slot_count.
    destruct (Z.ltb_spec size_arg 0); [|lia]. split; reflexivity.
  - apply slot_count6_huge.
Qed.

Lemma create_then_get_zeroed_witness :
  Bug6.create_array Samples.roomy 0 3 Bug6.initial = Done Samples.created6
  /\ lookup_slot (Bug6.arrays Samples.created6) 0 = Some Samples.three_zeros
  /\ size Samples.three_zeros = 3
  /\ data Samples.three_zeros = Live [Some 0; Some 0; Some 0].
Proof.
  assert (Hrun : Bug6.create_array Samples.roomy 0 3 Bug6.initial
                 = Done Samples.created6) by (vm_compute; reflexivity).
  assert (Hlk : lookup_slot (Bug6.arrays Samples.created6) 0
                = Some Samples.three_zeros) by (vm_compute; reflexivity).
  split; [exact Hrun|]. split; [exact Hlk|].
  exact (proj1 (create_then_get_zeroed Samples.roomy 0 3 ltac:(lia))
           Bug6.initial Samples.created6 Samples.three_zeros Hrun Hlk).
Defined.

(** C4 as stated fails: [create(0, -1)] succeeds and the slot it leaves
    has 10 elements in bug6.c and 100 in bug5.cpp, not -1. *)
Lemma create_then_get_counterexample :
  (st ← Bug6.create_array Samples.roomy 0 (-1) Bug6.initial;
   Done (size <$> lookup_slot (Bug6.arrays st) 0)) = Done (Some 10)
  /\ (st ← Bug5.create_array Samples.roomy 0 (-1) Bug5.initial;
      Done (size <$> lookup_slot (Bug5.arrays st) 0)) = Done (Some 100).
Proof. split; vm_compute; reflexivity. Qed.

Lemma read_filled (tbl : list Array) (idx i : Z) (a : Array) (n : nat) (c : cell) :
  0 <= idx < Z.of_nat (length tbl) ->
  0 <= i < Z.of_nat n ->
  read idx i (put tbl idx (set_data a (Live (replicate n c)))) = Done c.
Proof.
  intros Hidx Hi. unfold read. rewrite get_put_eq by exact Hidx. cbn.
  rewrite length_replicate.
  destruct (Z.ltb_spec i 0); [lia|].
  destruct (Z.leb_spec (Z.of_nat n) i); [lia|]. cbn.
  rewrite lookup_replicate_2 by lia. reflexivity.
Qed.

Lemma to_int_small (v : Z) :
  CInt.INT_MIN <= v <= CInt.INT_MAX -> CInt.to_int v = v.
Proof.
  unfold CInt.INT_MIN, CInt.INT_MAX, CInt.to_int.
  change (2 ^ 31) with 2147483648. change (2 ^ 32) with 4294967296.
  intros H. rewrite Z.mod_small by lia. lia.
Qed.

(** C5 (as amended): after [create(idx, n)] has given slot [idx] an
    array, [fill(idx, v)] returns, and every element of the slot then
    reads [(int) v], the value [v] reduced to 32 bits; this is [v] itself
    when [v] is in the range of [int]. The elements are those below [n]
    when [0 <= n <= SIZE_MAX / sizeof(int)], and those below the count
    that replaced [n] otherwise. *)
Theorem create_fill_read (heap_ok : nat -> Z -> bool) (idx n v : Z) :
  0 <= idx ->
  (forall st st1,
      Bug6.create_array heap_ok idx n st = Done st1 ->
      occupied (Bug6.arrays st1) idx = true ->
      exists st2,
        Bug6.fill_array idx v st1 = Done st2
        /\ forall i, 0 <= i < Bug6.slot_count n ->
             read idx i (Bug6.arrays st2) = Done (Some (CInt.to_int v)))
  /\ (forall st st1,
      Bug5.slot_count n <= CInt.SIZE_MAX / CInt.sizeof_int ->
      Bug5.create_array heap_ok idx n st = Done st1 ->
      occupied (Bug5.arrays st1) idx = true ->
      exists st2,
        Bug5.fill_array idx v st1 = Done st2
        /\ forall i, 0 <= i < Bug5.slot_count n ->
             read idx i (Bug5.arrays st2) = Done (Some (CInt.to_int v)))
  /\ (CInt.INT_MIN <= v <= CInt.INT_MAX -> CInt.to_int v = v)
  /\ (0 <= n <= CInt.SIZE_MAX / CInt.sizeof_int ->
      Bug6.slot_count n = n /\ Bug5.slot_count n = n).
Proof.
  intros Hidx. split; [|split; [|split]].
  - intros st st1 Hrun Hocc. unfold occupied in Hocc.
    destruct (get (Bug6.arrays st1) idx) as [a|] eqn:Hget; [|discriminate].
    pose proof (Bug6Facts.create_array_slot heap_ok idx n st st1 a Hidx Hrun Hget Hocc)
      as Ha.
    pose proof (Bug6Facts.slot_count_range n) as Hc.
    eexists. split.
    + apply (Bug6Facts.fill_array_slot idx v st1 a
               (replicate (Z.to_nat (Bug6.slot_count n)) (Some 0))).
      * exact Hget.
      * exact Hocc.
      * rewrite Ha. reflexivity.
      * rewrite Ha. cbn. rewrite length_replicate. lia.
    + intros i Hi. cbn. rewrite length_replicate.
      apply get_Done in Hget. destruct Hget as [_ Hlk].
      apply lookup_lt_Some in Hlk.
      apply read_filled; lia.
  - intros st st1 Hmax Hrun Hocc. unfold occupied in Hocc.
    destruct (get (Bug5.arrays st1) idx) as [a|] eqn:Hget; [|discriminate].
    pose proof (Bug5Facts.create_array_slot_cpp heap_ok idx n st st1 a Hidx Hmax
                  Hrun Hget Hocc) as Ha.
    assert (Hc : 0 <= Bug5.slot_count n)
      by (unfold Bug5.slot_count; destruct (Z.ltb_spec n 0); lia).
    eexists. split.
    + apply (Bug5Facts.fill_array_slot_cpp idx v st1 a
               (replicate (Z.to_nat (Bug5.slot_count n)) (Some 0))).
      * exact Hget.
      * exact Hocc.
      * rewrite Ha. reflexivity.
      * rewrite Ha. cbn. rewrite length_replicate. lia.
    + intros i Hi. cbn. rewrite length_replicate.
      apply get_Done in Hget. destruct Hget as [_ Hlk].
      apply lookup_lt_Some in Hlk.
      apply read_filled; lia.
  - apply to_int_small.
  - intros H. split; [apply slot_count6_plain; exact H|].
    apply slot_count5_plain. lia.
Qed.

Lemma create_fill_read_witness :
  Bug6.create_array Samples.roomy 0 3 Bug6.initial = Done Samples.created6
  /\ occupied (Bug6.arrays Samples.created6) 0 = true
  /\ exists st2,
       Bug6.fill_array 0 7 Samples.created6 = Done st2
       /\ forall i, 0 <= i < Bug6.slot_count 3 ->
            read 0 i (Bug6.arrays st2) = Done (Some (CInt.to_int 7)).
Proof.
  assert (Hrun : Bug6.create_array Samples.roomy 0 3 Bug6.initial
                 = Done Samples.created6) by (vm_compute; reflexivity).
  assert (Hocc : occupied (Bug6.arrays Samples.created6) 0 = true)
    by (vm_compute; reflexivity).
  split; [exact Hrun|]. split; [exact Hocc|].
  exact (proj1 (create_fill_read Samples.roomy 0 3 7 ltac:(lia))
           Bug6.initial Samples.created6 Hrun Hocc).
Defined.

(** C5 as stated fails: after [create(0, 1)] and [fill(0, 4294967296)]
    element 0 reads 0 in both programs, not 4294967296. *)
Lemma create_fill_read_counterexample :
  (st1 ← Bug6.create_array Samples.roomy 0 1 Bug6.initial;
   st2 ← Bug6.fill_array 0 4294967296 st1;
   read 0 0 (Bug6.arrays st2)) = Done (Some 0)
  /\ (st1 ← Bug5.create_array Samples.roomy 0 1 Bug5.initial;
      st2 ← Bug5.fill_array 0 4294967296 st1;
      read 0 0 (Bug5.arrays st2)) = Done (Some 0).
Proof. split; vm_compute; reflexivity. Qed.

(** C7 (as amended): [print] takes a range only when
    [0 <= start <= end < size] for the size the slot has, and turns every
    other range down before it reads an element: bug6.c returns with the
    table and the output as they were and says nothing, bug5.cpp writes
    "print_array: invalid range" to [std::cerr]. So after "CREATE 0 10"
    the command "PRINT 0 0 20" changes nothing in bug6.c, and after
    "CREATE_ARRAY 0 10" the command "PRINT_ARRAY 0 0 20" only adds that
    message in bug5.cpp. [splice] likewise turns down, before any
    reallocation or copy, a negative offset or count and a range whose end
    [offset + count], a value of [long], lies beyond the size of the
    source slot. *)
Theorem print_turns_down_a_range_beyond_the_slot :
  (forall idx start end_ st a,
      Bug6.slot st idx = Done a -> allocated a = true ->
      end_ <= CInt.LONG_MAX ->
      ~ (0 <= start <= end_ /\ end_ < size a) ->
      Bug6.print_array idx start end_ st = Done st)
  /\ (forall idx start end_ st a,
      Bug5.slot st idx = Done a -> allocated a = true ->
      end_ <= CInt.LONG_MAX ->
      ~ (0 <= start <= end_ /\ end_ < size a) ->
      Bug5.print_array idx start end_ st
        = Done (Bug5.cerr st ("print_array: invalid range" ++ Bug5.nl)))
  /\ (forall heap_ok st,
      Bug6.run heap_ok ["CREATE 0 10"] Bug6.initial = Done st ->
      Bug6.run heap_ok ["PRINT 0 0 20"] st = Done st)
  /\ (forall heap_ok st,
      Bug5.run heap_ok ["CREATE_ARRAY 0 10"] Bug5.initial = Done st ->
      occupied (Bug5.arrays st) 0 = true ->
      Bug5.run heap_ok ["PRINT_ARRAY 0 0 20"] st
        = Done (Bug5.cerr st ("print_array: invalid range" ++ Bug5.nl)))
  /\ (forall heap_ok dest src offset count st s,
      0 <= dest -> 0 <= src ->
      get (Bug6.arrays st) src = Done s ->
      offset < 0 \/ count < 0
      \/ (0 <= size s < offset + count /\ offset + count <= CInt.LONG_MAX) ->
      Bug6.splice_array heap_ok dest src offset count st = Done st)
  /\ (forall heap_ok dest src offset count st s,
      0 <= dest < Bug5.arrays_size st -> 0 <= src < Bug5.arrays_size st ->
      get (Bug5.arrays st) src = Done s ->
      offset < 0 \/ count < 0
      \/ (0 <= size s < offset + count /\ offset + count <= CInt.LONG_MAX) ->
      exists st',
        Bug5.splice_array heap_ok dest src offset count st = Done st'
        /\ Bug5.arrays st' = Bug5.arrays st
        /\ Bug5.stdout st' = Bug5.stdout st).
Proof.
  split; [|split; [|split; [|split; [|split]]]].
  - exact Bug6Facts.print_array_rejects.
  - exact Bug5Facts.print_array_rejects_cpp.
  - intros heap_ok st Hrun.
    change (Bug6.run heap_ok ["PRINT 0 0 20"] st)
      with (st' ← Bug6.print_array 0 0 20 st; Done st').
    change (Bug6.run heap_ok ["CREATE 0 10"] Bug6.initial)
      with (st' ← Bug6.create_array heap_ok 0 10 Bug6.initial; Done st') in Hrun.
    destruct (Bug6.create_array heap_ok 0 10 Bug6.initial) as [st1|] eqn:Hc;
      [|discriminate].
    cbn in Hrun. injection Hrun as ->.
    assert (Hp : Bug6.print_array 0 0 20 st = Done st); [|rewrite Hp; reflexivity].
    destruct (occupied (Bug6.arrays st) 0) eqn:Hocc.
    + unfold occupied in Hocc.
      destruct (get (Bug6.arrays st) 0) as [a|] eqn:Hget; [|discriminate].
      pose proof (Bug6Facts.create_array_slot heap_ok 0 10 _ st a
                    ltac:(lia) Hc Hget Hocc) as Ha.
      apply (Bug6Facts.print_array_rejects 0 0 20 st a Hget Hocc).
      * vm_compute. discriminate.
      * rewrite Ha. cbn [size]. change (Bug6.slot_count 10) with 10. lia.
    + unfold Bug6.print_array.
      destruct (Z.leb_spec (Bug6.array_count st) 0) as [H|H]; [reflexivity|].
      unfold occupied in Hocc. unfold Bug6.slot.
      destruct (get_in_range (Bug6.arrays st) 0) as [a Ha];
        [unfold Bug6.array_count in H; lia|].
      rewrite Ha in Hocc |- *. cbn. rewrite Hocc. reflexivity.
  - intros heap_ok st Hrun Hocc.
    change (Bug5.run heap_ok ["PRINT_ARRAY 0 0 20"] st)
      with (st' ← Bug5.print_array 0 0 20 st; Done st').
    change (Bug5.run heap_ok ["CREATE_ARRAY 0 10"] Bug5.initial)
      with (st' ← Bug5.create_array heap_ok 0 10 Bug5.initial; Done st') in Hrun.
    destruct (Bug5.create_array heap_ok 0 10 Bug5.initial) as [st1|] eqn:Hc;
      [|discriminate].
    cbn in Hrun. injection Hrun as ->.
    unfold occupied in Hocc.
    destruct (get (Bug5.arrays st) 0) as [a|] eqn:Hget; [|discriminate].
    pose proof (Bug5Facts.create_array_slot_cpp heap_ok 0 10 _ st a
                  ltac:(lia) ltac:(vm_compute; discriminate) Hc Hget Hocc) as Ha.
    rewrite (Bug5Facts.print_array_rejects_cpp 0 0 20 st a Hget Hocc).
    + reflexivity.
    + vm_compute. discriminate.
    + rewrite Ha. cbn [size]. change (Bug5.slot_count 10) with 10. lia.
  - intros heap_ok dest src offset count st s Hdest Hsrc Hget Hbad.
    apply Bug6Facts.splice_array_rejects; [exact Hdest | exact Hsrc |].
    destruct Hbad as [H|[H|[H1 H2]]].
    + right. right. left. exact H.
    + right. right. right. left. exact H.
    + do 4 right. exists s. auto.
  - intros heap_ok dest src offset count st s Hdest Hsrc Hget Hbad.
    apply Bug5Facts.splice_array_rejects_in_table;
      [exact Hdest | exact Hsrc |].
    destruct Hbad as [H|[H|[H1 H2]]].
    + right. right. left. exact H.
    + right. right. right. left. exact H.
    + do 4 right. exists s. auto.
Qed.

Lemma print_turns_down_witness :
  Bug6.slot Samples.created6 0 = Done Samples.three_zeros
  /\ allocated Samples.three_zeros = true
  /\ 20 <= CInt.LONG_MAX
  /\ ~ (0 <= 0 <= 20 /\ 20 < size Samples.three_zeros)
  /\ Bug6.print_array 0 0 20 Samples.created6 = Done Samples.created6.
Proof.
  assert (Hslot : Bug6.slot Samples.created6 0 = Done Samples.three_zeros)
    by reflexivity.
  assert (Hmax : 20 <= CInt.LONG_MAX) by (vm_compute; discriminate).
  assert (Hout : ~ (0 <= 0 <= 20 /\ 20 < size Samples.three_zeros))
    by (cbn; lia).
  split; [exact Hslot|]. split; [reflexivity|]. split; [exact Hmax|].
  split; [exact Hout|].
  exact (proj1 print_turns_down_a_range_beyond_the_slot
           0 0 20 Samples.created6 Samples.three_zeros Hslot eq_refl Hmax Hout).
Defined.

(** C7 as stated fails in bug6.c: after "CREATE 0 10" the command
    "PRINT 0 0 20" returns like a command that did nothing; no error is
    raised or written, and the run cannot be told from one that asked to
    print a slot that does not exist. *)
Lemma print_out_of_range_counterexample :
  Bug6.run Samples.roomy ["CREATE 0 10"; "PRINT 0 0 20"] Bug6.initial
    = Bug6.run Samples.roomy ["CREATE 0 10"] Bug6.initial
  /\ Bug6.run Samples.roomy ["CREATE 0 10"; "PRINT 0 0 20"] Bug6.initial
     = Bug6.run Samples.roomy ["CREATE 0 10"; "PRINT 5 0 20"] Bug6.initial
  /\ (st ← Bug6.run Samples.roomy ["CREATE 0 10"; "PRINT 0 0 20"] Bug6.initial;
      Done (Bug6.stdout st)) = Done "".
Proof. repeat split; vm_compute; reflexivity. Qed.

(** C10 (as amended): a call that [splice] turns down (no array in the
    source or the destination slot, a negative offset or count, or a
    range whose end [offset + count], a sum that fits in [long], lies
    beyond the source) returns before anything is reallocated or copied.
    In bug6.c the whole state is as before the call. In bug5.cpp, which
    first extends the vector to hold both indices, this holds for
    indices below [SIZE_MAX] when the vector can be extended: the table
    is then the one before the call with unallocated entries added at its
    end (none when both indices were inside it), every slot shows the
    array it showed before with its size and elements, and nothing is
    printed on [std::cout]; when the extension fails, its exception ends
    the run. *)
Theorem splice_turned_down_changes_nothing :
  (forall heap_ok dest src offset count st,
      0 <= dest -> 0 <= src ->
      splice_rejected (Bug6.arrays st) dest src offset count ->
      Bug6.splice_array heap_ok dest src offset count st = Done st)
  /\ (forall heap_ok dest src offset count st,
      0 <= dest < CInt.SIZE_MAX -> 0 <= src < CInt.SIZE_MAX ->
      splice_rejected (Bug5.arrays st) dest src offset count ->
      match Bug5.splice_array heap_ok dest src offset count st with
      | Done st' =>
          (exists n, (length (Bug5.arrays st) <= n)%nat
                     /\ Bug5.arrays st' = resize n unallocated (Bug5.arrays st))
          /\ (forall i, lookup_slot (Bug5.arrays st') i
                        = lookup_slot (Bug5.arrays st) i)
          /\ Bug5.stdout st' = Bug5.stdout st
      | Crash f =>
          f = Uncaught
          /\ (Bug5.arrays_size st <= dest \/ Bug5.arrays_size st <= src)
      end)
  /\ (forall heap_ok dest src offset count st,
      0 <= dest < Bug5.arrays_size st -> 0 <= src < Bug5.arrays_size st ->
      splice_rejected (Bug5.arrays st) dest src offset count ->
      exists st',
        Bug5.splice_array heap_ok dest src offset count st = Done st'
        /\ Bug5.arrays st' = Bug5.arrays st
        /\ Bug5.stdout st' = Bug5.stdout st).
Proof.
  split; [|split].
  - exact Bug6Facts.splice_array_rejects.
  - exact Bug5Facts.splice_array_rejects_cpp.
  - exact Bug5Facts.splice_array_rejects_in_table.
Qed.

Lemma splice_turned_down_witness :
  splice_rejected (Bug6.arrays Samples.created6) 0 0 2 5
  /\ Bug6.splice_array Samples.roomy 0 0 2 5 Samples.created6
     = Done Samples.created6.
Proof.
  assert (Hrej : splice_rejected (Bug6.arrays Samples.created6) 0 0 2 5).
  { do 4 right. exists Samples.three_zeros.
    split; [reflexivity|]. split; [cbn; lia|]. vm_compute. discriminate. }
  split; [exact Hrej|].
  exact (proj1 splice_turned_down_changes_nothing Samples.roomy 0 0 2 5
           Samples.created6 ltac:(lia) ltac:(lia) Hrej).
Defined.

(** C10 as stated fails in bug5.cpp, which extends the vector before it
    looks at a slot. With an array in slot 0, a splice from a source
    index that cannot be reached does not return: the extension throws
    and nothing catches it. A source index of [SIZE_MAX] (the token -1)
    makes [idx + 1] wrap to 0, so that the vector is emptied and the
    destination is gone before it is looked at. In both programs the sum
    [offset + count] is computed in [long] before it is compared: beyond
    [LONG_MAX] the call is not turned down but overflows. *)
Lemma splice_turned_down_counterexample :
  lookup_slot (Bug5.arrays Samples.created5) 9223372036854775806 = None
  /\ Bug5.process_line Samples.roomy "SPLICE_ARRAY 0 9223372036854775806 0 0"
       Samples.created5
     = Crash Uncaught
  /\ (st ← Bug5.ensure_capacity Samples.roomy CInt.SIZE_MAX Samples.created5;
      Done (Bug5.arrays st)) = Done []
  /\ Bug5.process_line Samples.roomy "SPLICE_ARRAY 0 -1 0 0" Samples.created5
     = Crash OutOfBounds
  /\ Bug6.process_line Samples.roomy "SPLICE 0 0 9223372036854775807 1"
       Samples.created6
     = Crash SignedOverflow
  /\ Bug5.process_line Samples.roomy "SPLICE_ARRAY 0 0 9223372036854775807 1"
       Samples.created5
     = Crash SignedOverflow.
Proof. repeat split; vm_compute; reflexivity. Qed.




End Slots.

(** * Facts about text: fields, lines and decimal numerals *)

Module TextFacts.

Import Libc Text.
Local Open Scope string_scope.

Lemma append_nil_r (s : string) : s ++ "" = s.
Proof. induction s as [|c s IH]; cbn; [reflexivity | now rewrite IH]. Qed.

Lemma append_assoc (a b c : string) : (a ++ b) ++ c = a ++ (b ++ c).
Proof. induction a as [|x a IH]; cbn; [reflexivity | now rewrite IH]. Qed.

Lemma append_snoc (cur : string) (c : ascii) (s : string) :
  (cur ++ String c "") ++ s = cur ++ String c s.
Proof. rewrite append_assoc. reflexivity. Qed.

Lemma length_append (a b : string) :
  String.length (a ++ b) = (String.length a + String.length b)%nat.
Proof. induction a as [|x a IH]; cbn; [reflexivity | now rewrite IH]. Qed.

Lemma append_empty (a b : string) : a ++ b = "" -> a = "" /\ b = "".
Proof. destruct a; cbn; [auto | discriminate]. Qed.

Lemma eqb_empty_append (a b : string) :
  String.eqb b "" = false -> String.eqb (a ++ b) "" = false.
Proof.
  intros H. apply String.eqb_neq. intros E. apply append_empty in E as [_ ->].
  discriminate.
Qed.

Lemma all_impl (p q : ascii -> bool) (s : string) :
  (forall c, p c = true -> q c = true) -> all p s = true -> all q s = true.
Proof.
  intros Hpq. induction s as [|c s IH]; cbn; [reflexivity|].
  intros [Hc Hs]%andb_true_iff. rewrite (Hpq c Hc), (IH Hs). reflexivity.
Qed.

Lemma all_append (p : ascii -> bool) (a b : string) :
  all p (a ++ b) = all p a && all p b.
Proof.
  induction a as [|c a IH]; cbn; [reflexivity|].
  rewrite IH, andb_assoc. reflexivity.
Qed.

Lemma field_nonempty (d : ascii) (s : string) :
  field d s = true -> String.eqb s "" = false.
Proof. unfold field. intros [H _]%andb_true_iff. now apply negb_true_iff. Qed.

Lemma field_all (d : ascii) (s : string) :
  field d s = true -> all (field_byte d) s = true.
Proof. unfold field. now intros [_ H]%andb_true_iff. Qed.

Lemma field_byte_delimiter (d c : ascii) :
  field_byte d c = true -> Ascii.eqb c d = false.
Proof.
  unfold field_byte. intros [[H _]%andb_true_iff _]%andb_true_iff.
  now apply negb_true_iff.
Qed.

Lemma field_byte_newline (d c : ascii) :
  field_byte d c = true -> Ascii.eqb c "010" = false.
Proof.
  unfold field_byte. intros [[_ H]%andb_true_iff _]%andb_true_iff.
  now apply negb_true_iff.
Qed.

Lemma field_byte_nul (d c : ascii) :
  field_byte d c = true -> Ascii.eqb c zero = false.
Proof.
  unfold field_byte. intros [_ H]%andb_true_iff. now apply negb_true_iff.
Qed.

(** ** [strchr(line, '\n')] and the end of a C string *)

Lemma chomp_all (s : string) :
  all (fun c => negb (Ascii.eqb c "010")) s = true -> chomp s = s.
Proof.
  induction s as [|c s IH]; cbn; [reflexivity|].
  intros [Hc Hs]%andb_true_iff. apply negb_true_iff in Hc. rewrite Hc, (IH Hs).
  reflexivity.
Qed.

Lemma chomp_line (s rest : string) :
  all (fun c => negb (Ascii.eqb c "010")) s = true ->
  chomp (s ++ String "010" rest) = s.
Proof.
  induction s as [|c s IH]; cbn; [reflexivity|].
  intros [Hc Hs]%andb_true_iff. apply negb_true_iff in Hc. rewrite Hc, (IH Hs).
  reflexivity.
Qed.

Lemma c_str_all (s : string) :
  all (fun c => negb (Ascii.eqb c zero)) s = true -> c_str s = s.
Proof.
  induction s as [|c s IH]; cbn; [reflexivity|].
  intros [Hc Hs]%andb_true_iff. apply negb_true_iff in Hc. rewrite Hc, (IH Hs).
  reflexivity.
Qed.

Lemma has_nul_all (s : string) :
  all (fun c => negb (Ascii.eqb c zero)) s = true -> has_nul s = false.
Proof.
  induction s as [|c s IH]; cbn; [reflexivity|].
  intros [Hc Hs]%andb_true_iff. apply negb_true_iff in Hc. rewrite Hc, (IH Hs).
  reflexivity.
Qed.

(** ** [strtok_r] on fields *)

Lemma strtok_from_run (d : ascii) (w : string) :
  forall cur rest,
    all (fun c => negb (Ascii.eqb c d)) w = true ->
    strtok_from d cur (w ++ rest) = strtok_from d (cur ++ w) rest.
Proof.
  induction w as [|c w IH]; intros cur rest; cbn.
  - intros _. rewrite append_nil_r. reflexivity.
  - intros [Hc Hw]%andb_true_iff. apply negb_true_iff in Hc. rewrite Hc.
    rewrite (IH _ _ Hw), append_snoc. reflexivity.
Qed.

Lemma strtok_from_field (d : ascii) (w rest : string) :
  field d w = true ->
  strtok_from d "" (w ++ String d rest) = w :: strtok_from d "" rest.
Proof.
  intros H. rewrite strtok_from_run.
  - cbn. rewrite Ascii.eqb_refl, (field_nonempty _ _ H). reflexivity.
  - eapply all_impl; [|apply (field_all _ _ H)].
    intros c Hc. now rewrite (field_byte_delimiter _ _ Hc).
Qed.

Lemma strtok_from_last (d : ascii) (w : string) :
  field d w = true -> strtok_from d "" w = [w].
Proof.
  intros H. rewrite <- (append_nil_r w) at 1. rewrite strtok_from_run.
  - cbn. rewrite (field_nonempty _ _ H). reflexivity.
  - eapply all_impl; [|apply (field_all _ _ H)].
    intros c Hc. now rewrite (field_byte_delimiter _ _ Hc).
Qed.

Lemma strtok_all_join (d : ascii) (ws : list string) :
  Forall (fun w => field d w = true) ws ->
  strtok_all d (join d ws) = ws.
Proof.
  unfold strtok_all, join. induction 1 as [|w ws Hw Hws IH]; [reflexivity|].
  destruct ws as [|w' ws].
  - cbn. now apply strtok_from_last.
  - change (String.concat (String d "") (w :: w' :: ws))
      with (w ++ String d (String.concat (String d "") (w' :: ws))).
    rewrite strtok_from_field by assumption. now rewrite IH.
Qed.

Lemma join_all (p : ascii -> bool) (d : ascii) (ws : list string) :
  p d = true ->
  Forall (fun w => all p w = true) ws ->
  all p (join d ws) = true.
Proof.
  intros Hd. unfold join. induction 1 as [|w ws Hw Hws IH]; [reflexivity|].
  destruct ws as [|w' ws]; [exact Hw|].
  change (String.concat (String d "") (w :: w' :: ws))
    with (w ++ String d (String.concat (String d "") (w' :: ws))).
  rewrite all_append, Hw. cbn [all andb]. rewrite Hd. exact IH.
Qed.

(** A line made of fields goes unchanged through the two cuts every
    reader applies (at the newline, at the NUL). *)
Lemma cuts_join (d : ascii) (ws : list string) (rest : string) :
  Ascii.eqb d "010" = false -> Ascii.eqb d zero = false ->
  Forall (fun w => field d w = true) ws ->
  c_str (chomp (join d ws ++ String "010" rest)) = join d ws.
Proof.
  intros Hnl Hz Hws.
  rewrite chomp_line, c_str_all; [reflexivity| |].
  - apply join_all; [now rewrite Hz|].
    eapply Forall_impl; [exact Hws|]. intros w Hw. cbn beta.
    eapply all_impl; [|apply (field_all _ _ Hw)].
    intros c Hc. now rewrite (field_byte_nul _ _ Hc).
  - apply join_all; [now rewrite Hnl|].
    eapply Forall_impl; [exact Hws|]. intros w Hw. cbn beta.
    eapply all_impl; [|apply (field_all _ _ Hw)].
    intros c Hc. now rewrite (field_byte_newline _ _ Hc).
Qed.

(** ** Decimal numerals: [printf("%d")] read back by [strtol] *)

Lemma digits_string_of_uint (d : Decimal.uint) :
  forall acc, digits acc (NilEmpty.string_of_uint d) = uval acc d.
Proof.
  induction d; intros acc; cbn [NilEmpty.string_of_uint uval]; try reflexivity;
    cbn [digits]; change (isdigit _) with true; cbv iota; rewrite <- IHd;
    reflexivity.
Qed.

Lemma uval_pos (d : Decimal.uint) :
  forall acc : positive, uval (Z.pos acc) d = Z.pos (Pos.of_uint_acc d acc).
Proof.
  induction d; intros acc; cbn [uval Pos.of_uint_acc]; try reflexivity;
    rewrite <- IHd; f_equal; lia.
Qed.

Lemma uval_0 (d : Decimal.uint) : uval 0 d = Z.of_uint d.
Proof.
  unfold Z.of_uint.
  induction d; cbn [uval Pos.of_uint]; [reflexivity | exact IHd | ..];
    match goal with
    | |- uval ?a _ = _ =>
        let a' := eval cbv in a in change a with a'
    end; rewrite uval_pos; reflexivity.
Qed.

Lemma to_uint_not_Nil (p : positive) : Pos.to_uint p <> Decimal.Nil.
Proof.
  intros E. pose proof (DecimalPos.Unsigned.of_to p) as H. rewrite E in H.
  discriminate.
Qed.

Lemma string_of_uint_digits (d : Decimal.uint) :
  all isdigit (NilEmpty.string_of_uint d) = true.
Proof. induction d; cbn; [reflexivity | exact IHd ..]. Qed.

Lemma string_of_uint_head (d : Decimal.uint) :
  d <> Decimal.Nil ->
  exists c s, NilEmpty.string_of_uint d = String c s /\ isdigit c = true.
Proof.
  destruct d; intros H; [congruence | cbn; eexists _, _; split; reflexivity ..].
Qed.

Lemma isdigit_not_space (c : ascii) : isdigit c = true -> isspace c = false.
Proof.
  unfold isdigit, isspace. cbv zeta.
  destruct (Z.leb_spec 48 (Z.of_nat (nat_of_ascii c))); [|discriminate].
  intros _. apply orb_false_iff. split.
  - apply Z.eqb_neq. lia.
  - apply andb_false_iff. right. apply Z.leb_gt. lia.
Qed.

Lemma isdigit_not (c d : ascii) :
  isdigit c = true -> isdigit d = false -> Ascii.eqb c d = false.
Proof.
  intros Hc Hd. apply Ascii.eqb_neq. intros ->. congruence.
Qed.

Lemma strtol_digits (s : string) (c : ascii) :
  isdigit c = true ->
  strtol (String c s) = Z.min CInt.LONG_MAX (digits 0 (String c s)).
Proof.
  intros Hc. unfold strtol. cbn [skip_space].
  rewrite (isdigit_not_space _ Hc).
  rewrite (isdigit_not c "-" Hc eq_refl), (isdigit_not c "+" Hc eq_refl).
  reflexivity.
Qed.

Lemma strtol_fmt_d (z : Z) :
  CInt.LONG_MIN <= z <= CInt.LONG_MAX -> strtol (fmt_d z) = z.
Proof.
  intros Hz. unfold fmt_d. destruct z as [|p|p]; cbn [Z.to_int].
  - reflexivity.
  - unfold NilZero.string_of_int, NilZero.string_of_uint.
    pose proof (to_uint_not_Nil p) as Hn.
    destruct (string_of_uint_head _ Hn) as (c & s & E & Hc).
    assert (Hv : digits 0 (NilEmpty.string_of_uint (Pos.to_uint p)) = Z.pos p).
    { rewrite digits_string_of_uint, uval_0. unfold Z.of_uint.
      rewrite DecimalPos.Unsigned.of_to. reflexivity. }
    destruct (Pos.to_uint p) eqn:Ep; try congruence;
      rewrite E in Hv |- *; rewrite (strtol_digits _ _ Hc), Hv; lia.
  - unfold NilZero.string_of_int, NilZero.string_of_uint.
    pose proof (to_uint_not_Nil p) as Hn.
    assert (Hv : digits 0 (NilEmpty.string_of_uint (Pos.to_uint p)) = Z.pos p).
    { rewrite digits_string_of_uint, uval_0. unfold Z.of_uint.
      rewrite DecimalPos.Unsigned.of_to. reflexivity. }
    destruct (Pos.to_uint p) eqn:Ep; try congruence;
      unfold strtol; cbn [skip_space]; change (isspace "-") with false;
      cbv iota; rewrite Ascii.eqb_refl, Hv; lia.
Qed.

Lemma to_int_range (z : Z) :
  CInt.INT_MIN <= z <= CInt.INT_MAX -> CInt.to_int z = z.
Proof.
  unfold CInt.INT_MIN, CInt.INT_MAX, CInt.to_int. intros H.
  rewrite Z.mod_small; lia.
Qed.

Lemma atoi_fmt_d (z : Z) :
  CInt.INT_MIN <= z <= CInt.INT_MAX -> atoi (fmt_d z) = z.
Proof.
  intros H. unfold atoi. rewrite strtol_fmt_d.
  - now apply to_int_range.
  - unfold CInt.INT_MIN, CInt.INT_MAX, CInt.LONG_MIN, CInt.LONG_MAX in *. lia.
Qed.

Lemma fmt_d_numeral (z : Z) : all numeral_byte (fmt_d z) = true.
Proof.
  assert (Hu : forall d, all numeral_byte (NilZero.string_of_uint d) = true).
  { intros d. unfold NilZero.string_of_uint.
    assert (H : all numeral_byte (NilEmpty.string_of_uint d) = true).
    { eapply all_impl; [|apply string_of_uint_digits].
      intros c Hc. unfold numeral_byte. now rewrite Hc. }
    destruct d; [reflexivity | exact H ..]. }
  unfold fmt_d. destruct (Z.to_int z); cbn [NilZero.string_of_int].
  - apply Hu.
  - cbn [all]. rewrite Hu. reflexivity.
Qed.

Lemma fmt_d_nonempty (z : Z) : String.eqb (fmt_d z) "" = false.
Proof.
  unfold fmt_d. destruct (Z.to_int z) as [d|d]; cbn [NilZero.string_of_int];
    [|reflexivity].
  unfold NilZero.string_of_uint. destruct d; reflexivity.
Qed.

(** A numeral is a field for every delimiter that is not one of its bytes. *)
Lemma fmt_d_field (d : ascii) (z : Z) :
  numeral_byte d = false -> field d (fmt_d z) = true.
Proof.
  intros Hd. unfold field. rewrite fmt_d_nonempty. cbn [negb andb].
  eapply all_impl; [|apply fmt_d_numeral].
  intros c Hc. unfold field_byte.
  assert (H : forall x, numeral_byte x = false -> Ascii.eqb c x = false).
  { intros x Hx. apply Ascii.eqb_neq. intros ->. congruence. }
  rewrite (H d Hd), (H "010"%char eq_refl), (H zero eq_refl). reflexivity.
Qed.

(** ** [fgets] on lines that fit the buffer *)

Lemma fgets_from_all_line (size : nat) (s : string) :
  forall (room : nat) (cur rest : string),
    all (fun c => negb (Ascii.eqb c "010")) s = true ->
    (String.length s < room)%nat ->
    fgets_from_all size room cur (s ++ String "010" rest)
    = (cur ++ s ++ String "010" "") :: fgets_from_all size (Nat.pred size) "" rest.
Proof.
  induction s as [|c s IH]; intros room cur rest.
  - intros _ _. cbn [append fgets_from_all]. rewrite Ascii.eqb_refl. reflexivity.
  - cbn [all append String.length]. intros [Hc Hs]%andb_true_iff Hl.
    apply negb_true_iff in Hc. cbn [fgets_from_all]. rewrite Hc.
    destruct room as [|[|room]]; [lia | lia |].
    rewrite IH by (assumption || lia). rewrite append_snoc. reflexivity.
Qed.

Lemma fgets_all_unlines (size : nat) (ls : list string) :
  Forall (fun l => all (fun c => negb (Ascii.eqb c "010")) l = true
                   /\ (String.length l < Nat.pred size)%nat) ls ->
  fgets_all size (unlines ls) = map line ls.
Proof.
  unfold fgets_all. induction 1 as [|l ls [Hl Hn] _ IH]; [reflexivity|].
  cbn [unlines map]. rewrite fgets_from_all_line by assumption.
  rewrite IH. reflexivity.
Qed.

Lemma field_no_newline (d : ascii) (w : string) :
  field d w = true -> all (fun c => negb (Ascii.eqb c "010")) w = true.
Proof.
  intros H. eapply all_impl; [|apply (field_all _ _ H)].
  intros c Hc. now rewrite (field_byte_newline _ _ Hc).
Qed.

Lemma join_no_newline (d : ascii) (ws : list string) :
  Ascii.eqb d "010" = false ->
  Forall (fun w => field d w = true) ws ->
  all (fun c => negb (Ascii.eqb c "010")) (join d ws) = true.
Proof.
  intros Hd H. apply join_all; [now rewrite Hd|].
  eapply Forall_impl; [exact H|]. intros w Hw. now apply (field_no_newline d).
Qed.

End TextFacts.

(** * bug1.c beyond the two documented lines *)

Module Bug1Facts.

Import Libc Text TextFacts.
Local Open Scope string_scope.
Local Open Scope Z_scope.

Lemma in_int_true (z : Z) :
  CInt.INT_MIN <= z <= CInt.INT_MAX -> CInt.in_int z = true.
Proof.
  intros H. unfold CInt.in_int. apply andb_true_iff. split; apply Z.leb_le; lia.
Qed.

(** The quotient of two [int] values is an [int], but for
    [INT_MIN / -1]. *)
Lemma quot_in_int (a b : Z) :
  CInt.INT_MIN <= a <= CInt.INT_MAX ->
  CInt.INT_MIN <= b <= CInt.INT_MAX ->
  b <> 0 -> ~ (a = CInt.INT_MIN /\ b = -1) ->
  CInt.INT_MIN <= Z.quot a b <= CInt.INT_MAX.
Proof.
  unfold CInt.INT_MIN, CInt.INT_MAX. intros Ha Hb Hz Hm.
  destruct (Z.eq_dec b 1) as [->|H1]; [rewrite Z.quot_1_r; lia|].
  destruct (Z.eq_dec b (-1)) as [->|H2].
  { change (-1) with (- (1)). rewrite Z.quot_opp_r, Z.quot_1_r by lia. lia. }
  assert (Hq : Z.abs (Z.quot a b) <= 2 ^ 30).
  { rewrite <- Z.quot_abs by exact Hz.
    transitivity (Z.quot (Z.abs a) 2).
    - apply Z.quot_le_compat_l; lia.
    - apply Z.quot_le_upper_bound; lia. }
  lia.
Qed.

Lemma tokenize_join (ws : list string) :
  Forall (fun w => field " " w = true) ws ->
  Bug1.tokenize (line (join " " ws)) = take Bug1.MAX_TOKENS ws.
Proof.
  intros H. unfold Bug1.tokenize, line.
  rewrite cuts_join by (done || reflexivity). now rewrite strtok_all_join.
Qed.

Lemma calc_tokens (malloc_ok : Z -> bool) (a b : Z) (op stdin : string) :
  CInt.INT_MIN <= a <= CInt.INT_MAX ->
  CInt.INT_MIN <= b <= CInt.INT_MAX ->
  field " " op = true ->
  Bug1.process_line malloc_ok (line (join " " ["CALC"; fmt_d a; op; fmt_d b])) stdin
  = r ← Bug1.calc a (Bug1.first_byte op) b;
    Done ("Result: " ++ fmt_d r ++ Bug1.newline, stdin).
Proof.
  intros Ha Hb Hop. unfold Bug1.process_line. rewrite tokenize_join.
  - change (take Bug1.MAX_TOKENS ["CALC"; fmt_d a; op; fmt_d b])
      with ["CALC"; fmt_d a; op; fmt_d b].
    change (Bug1.process_command malloc_ok ["CALC"; fmt_d a; op; fmt_d b] stdin)
      with (r ← Bug1.calc (atoi (fmt_d a)) (Bug1.first_byte op) (atoi (fmt_d b));
            Done ("Result: " ++ fmt_d r ++ Bug1.newline, stdin)).
    now rewrite !atoi_fmt_d.
  - repeat constructor; try reflexivity; try exact Hop;
      now apply fmt_d_field.
Qed.

Lemma fread_split (s : string) :
  forall n b r, fread n s = (b, r) -> s = b ++ r.
Proof.
  induction s as [|c s IH]; intros n b r; cbn.
  - intros [= <- <-]. reflexivity.
  - destruct (n <=? 0).
    + intros [= <- <-]. reflexivity.
    + destruct (fread (n - 1) s) as [b' r'] eqn:E. intros [= <- <-].
      cbn. now rewrite <- (IH _ _ _ E).
Qed.

Lemma fread_exact (b : string) :
  forall r, fread (Z.of_nat (String.length b)) (b ++ r) = (b, r).
Proof.
  induction b as [|c b IH]; intros r.
  - cbn. destruct r; reflexivity.
  - cbn [String.length append fread].
    destruct (Z.leb_spec (Z.of_nat (S (String.length b))) 0); [lia|].
    replace (Z.of_nat (S (String.length b)) - 1)
      with (Z.of_nat (String.length b)) by lia.
    now rewrite IH.
Qed.

End Bug1Facts.

Section CalculatorLines.

Import Libc Text TextFacts Bug1Facts.
Local Open Scope string_scope.
Local Open Scope Z_scope.

(** X1 (bug1.c, CALC): for all [int] values [a] and [b], the line made of
    the words CALC, [a], an operator and [b] prints the exact sum,
    difference or product whenever that fits in an [int], and for [/] the
    quotient rounded towards zero whenever the divisor is not 0 and the
    division is not [INT_MIN / -1] (the one quotient that does not fit in
    an [int]); the rest of the input is left as it was. *)
Theorem calc_line_computes (malloc_ok : Z -> bool) (a b : Z) (stdin : string) :
  CInt.INT_MIN <= a <= CInt.INT_MAX ->
  CInt.INT_MIN <= b <= CInt.INT_MAX ->
  (CInt.INT_MIN <= a + b <= CInt.INT_MAX ->
   Bug1.process_line malloc_ok (line (join " " ["CALC"; fmt_d a; "+"; fmt_d b])) stdin
   = Done ("Result: " ++ fmt_d (a + b) ++ Bug1.newline, stdin))
  /\ (CInt.INT_MIN <= a - b <= CInt.INT_MAX ->
      Bug1.process_line malloc_ok (line (join " " ["CALC"; fmt_d a; "-"; fmt_d b])) stdin
      = Done ("Result: " ++ fmt_d (a - b) ++ Bug1.newline, stdin))
  /\ (CInt.INT_MIN <= a * b <= CInt.INT_MAX ->
      Bug1.process_line malloc_ok (line (join " " ["CALC"; fmt_d a; "*"; fmt_d b])) stdin
      = Done ("Result: " ++ fmt_d (a * b) ++ Bug1.newline, stdin))
  /\ (b <> 0 -> ~ (a = CInt.INT_MIN /\ b = -1) ->
      Bug1.process_line malloc_ok (line (join " " ["CALC"; fmt_d a; "/"; fmt_d b])) stdin
      = Done ("Result: " ++ fmt_d (Z.quot a b) ++ Bug1.newline, stdin)).
Proof.
  intros Ha Hb. split; [|split; [|split]].
  - intros H. rewrite calc_tokens by (assumption || reflexivity).
    cbn [Bug1.first_byte]. unfold Bug1.calc. cbn [Ascii.eqb Bool.eqb].
    unfold int_arith. now rewrite (in_int_true _ H).
  - intros H. rewrite calc_tokens by (assumption || reflexivity).
    cbn [Bug1.first_byte]. unfold Bug1.calc. cbn [Ascii.eqb Bool.eqb].
    unfold int_arith. now rewrite (in_int_true _ H).
  - intros H. rewrite calc_tokens by (assumption || reflexivity).
    cbn [Bug1.first_byte]. unfold Bug1.calc. cbn [Ascii.eqb Bool.eqb].
    unfold int_arith. now rewrite (in_int_true _ H).
  - intros Hz Hm. pose proof (quot_in_int a b Ha Hb Hz Hm) as H.
    rewrite calc_tokens by (assumption || reflexivity).
    cbn [Bug1.first_byte]. unfold Bug1.calc. cbn [Ascii.eqb Bool.eqb].
    unfold int_div, int_arith. apply Z.eqb_neq in Hz. rewrite Hz.
    now rewrite (in_int_true _ H).
Qed.

Lemma calc_line_computes_witness :
  Bug1.process_line (fun _ => true) (line (join " " ["CALC"; fmt_d (-7); "/"; fmt_d 2])) ""
  = Done ("Result: -3" ++ Bug1.newline, "").
Proof.
  assert (Ha : CInt.INT_MIN <= -7 <= CInt.INT_MAX) by (vm_compute; split; discriminate).
  assert (Hb : CInt.INT_MIN <= 2 <= CInt.INT_MAX) by (vm_compute; split; discriminate).
  assert (Hz : 2 <> 0) by discriminate.
  assert (Hq : ~ (-7 = CInt.INT_MIN /\ 2 = -1)) by (intros [_ H]; discriminate H).
  exact (proj2 (proj2 (proj2 (calc_line_computes (fun _ => true) (-7) 2 "" Ha Hb))) Hz Hq).
Defined.



(** X3 (bug1.c, ALLOC): [ALLOC n] stays within defined behaviour exactly
    when [malloc] grants [(size_t) n] bytes, the input still holds that
    many bytes and one of them is NUL; it then prints these bytes up to
    the first NUL and has taken them from the input. In every other case
    the code makes an access outside a block ([buf[sz+10]] after a short
    read, [%s] running past a block without NUL, [stack_buf[20]] when
    [malloc] returns NULL), which C leaves undefined and the embedding
    records as a fault. *)
Theorem alloc_returns_iff_block_read (malloc_ok : Z -> bool) (t1 : string)
  (more : list string) (stdin out rest : string) :
  Bug1.process_command malloc_ok ("ALLOC" :: t1 :: more) stdin = Done (out, rest)
  <-> malloc_ok (CInt.to_size_t (atoi t1)) = true
      /\ exists buf,
           stdin = buf ++ rest
           /\ Z.of_nat (String.length buf) = CInt.to_size_t (atoi t1)
           /\ has_nul buf = true
           /\ out = "Data read: " ++ c_str buf ++ Bug1.newline.
Proof.
  change (Bug1.process_command malloc_ok ("ALLOC" :: t1 :: more) stdin)
    with (if malloc_ok (CInt.to_size_t (atoi t1)) then
            let '(buf, rest) := fread (CInt.to_size_t (atoi t1)) stdin in
            if negb (Z.of_nat (String.length buf) =? CInt.to_size_t (atoi t1))
            then Crash OutOfBounds
            else if has_nul buf
            then Done ("Data read: " ++ c_str buf ++ Bug1.newline, rest)
            else Crash OutOfBounds
          else Crash OutOfBounds).
  split.
  - destruct (malloc_ok _); [|discriminate].
    destruct (fread _ stdin) as [buf r] eqn:E.
    destruct (Z.eqb_spec (Z.of_nat (String.length buf)) (CInt.to_size_t (atoi t1)))
      as [Hl|Hl]; cbn [negb]; [|discriminate].
    destruct (has_nul buf) eqn:Hn; [|discriminate].
    intros [= <- <-]. split; [reflexivity|]. exists buf.
    split; [exact (fread_split _ _ _ _ E)|]. auto.
  - intros (Hm & buf & -> & Hl & Hn & ->). rewrite Hm, <- Hl, fread_exact.
    rewrite Z.eqb_refl, Hn. reflexivity.
Qed.

Lemma alloc_returns_iff_block_read_witness :
  Bug1.process_command (fun _ => true) ["ALLOC"; "3"] (String "a" (String zero "bcd"))
  = Done ("Data read: a" ++ Bug1.newline, "cd").
Proof.
  apply (proj2 (alloc_returns_iff_block_read (fun _ => true) "3" []
                  (String "a" (String zero "bcd")) ("Data read: a" ++ Bug1.newline)
                  "cd")).
  split; [reflexivity|]. exists (String "a" (String zero "b")).
  repeat split; reflexivity.
Defined.

End CalculatorLines.

(** * bug2.c: which lines add a user, and what is reported *)

Module Bug2Facts.

Import Libc Text TextFacts Bug2 Users.
Local Open Scope string_scope.
Local Open Scope Z_scope.

Lemma parse_line_short (heap_ok : nat -> Z -> bool) (ln : string) (st : state) :
  (length (strtok_all "," (c_str ln)) < 3)%nat ->
  parse_line heap_ok ln st = Done st.
Proof.
  unfold parse_line. destruct (strtok_all "," (c_str ln)) as [|f0 [|f1 [|f2 l]]];
    cbn [length]; intros H; (reflexivity || lia).
Qed.

Lemma read_lines_short (heap_ok : nat -> Z -> bool) (lines : list string)
  (st : state) :
  Forall (fun l => (length (strtok_all "," (c_str (chomp l))) < 3)%nat) lines ->
  read_lines heap_ok lines st = Done st.
Proof.
  induction 1 as [|l lines Hl _ IH]; [reflexivity|].
  cbn [read_lines]. rewrite parse_line_short by exact Hl. exact IH.
Qed.

Lemma add_user_within (heap_ok : nat -> Z -> bool) (nm : string) (ag : Z)
  (em : string) (st st' : state) :
  add_user heap_ok nm ag em st = Done st' ->
  within_capacity st -> within_capacity st'.
Proof.
  unfold add_user, within_capacity, user_count. intros H [Hc Hp].
  destruct (Z.leb_spec (user_capacity st) (Z.of_nat (length (users st))))
    as [Hfull|Hroom].
  - destruct (Z.eqb_spec (user_capacity st) 0) as [H0|H0].
    + cbn in H.
      destruct (heap_ok (clock st) (CInt.to_size_t (CInt.to_size_t 2 * sizeof_user)));
        cbn in H; injection H as <-; cbn [users user_capacity].
      * rewrite length_app. cbn [length]. split; [lia|]. right. exists 0%nat.
        reflexivity.
      * split; [lia | now left].
    + unfold int_arith in H.
      destruct (CInt.in_int (user_capacity st * 2)); [|discriminate]. cbn in H.
      destruct (heap_ok (clock st) _); cbn in H; injection H as <-;
        cbn [users user_capacity].
      * rewrite length_app. cbn [length]. destruct Hp as [Hp|[k Hk]]; [lia|].
        assert (0 < 2 ^ (Z.of_nat k + 1)) by (apply Z.pow_pos_nonneg; lia).
        split; [lia|]. right. exists (S k).
        rewrite Hk. replace (Z.of_nat (S k) + 1) with (Z.succ (Z.of_nat k + 1)) by lia.
        rewrite Z.pow_succ_r by lia. lia.
      * split; [lia | exact Hp].
  - cbn in H. injection H as <-. cbn [users user_capacity].
    rewrite length_app. cbn [length]. split; [lia | exact Hp].
Qed.

Lemma parse_line_within (heap_ok : nat -> Z -> bool) (ln : string) (st st' : state) :
  parse_line heap_ok ln st = Done st' ->
  within_capacity st -> within_capacity st'.
Proof.
  unfold parse_line. destruct (strtok_all "," (c_str ln)) as [|f0 [|f1 [|f2 l]]];
    try (intros [= <-]; exact id).
  apply add_user_within.
Qed.

Lemma read_lines_within (heap_ok : nat -> Z -> bool) (lines : list string) :
  forall st st', read_lines heap_ok lines st = Done st' ->
    within_capacity st -> within_capacity st'.
Proof.
  induction lines as [|l lines IH]; intros st st'; cbn [read_lines].
  - intros [= <-]. exact id.
  - destruct (parse_line heap_ok (chomp l) st) as [st1|f] eqn:E; [|discriminate].
    cbn. intros H Hw. eapply IH; [exact H|]. eapply parse_line_within; eassumption.
Qed.

Lemma trim_numeral (s : string) : all numeral_byte s = true -> trim s = s.
Proof.
  destruct s as [|c s]; [reflexivity|]. cbn [all trim].
  intros [Hc _]%andb_true_iff.
  assert (H : forall x, numeral_byte x = false -> Ascii.eqb c x = false).
  { intros x Hx. apply Ascii.eqb_neq. intros ->. congruence. }
  rewrite (H " "%char eq_refl), (H "009"%char eq_refl). reflexivity.
Qed.

Lemma csv_fields (u : string * Z * string) :
  well_formed u ->
  Forall (fun w => field "," w = true) [u.1.1; fmt_d u.1.2; u.2].
Proof.
  intros (Hn & He & _ & _). repeat constructor; try assumption.
  now apply fmt_d_field.
Qed.

Lemma parse_line_csv (heap_ok : nat -> Z -> bool) (u : string * Z * string)
  (st : state) :
  well_formed u ->
  parse_line heap_ok (chomp (line (csv u))) st
  = add_user heap_ok (trim u.1.1) u.1.2 (trim u.2) st.
Proof.
  intros Hu. unfold parse_line, line, csv.
  rewrite cuts_join by (reflexivity || now apply csv_fields).
  rewrite strtok_all_join by now apply csv_fields.
  rewrite (trim_numeral (fmt_d u.1.2)) by apply fmt_d_numeral.
  rewrite atoi_fmt_d by apply Hu. reflexivity.
Qed.

Lemma add_user_granted (heap_ok : nat -> Z -> bool) (nm : string) (ag : Z)
  (em : string) (st : state) :
  (forall n b, heap_ok n b = true) ->
  modest st -> user_count st < 2 ^ 30 ->
  exists st',
    add_user heap_ok nm ag em st = Done st'
    /\ users st' = (users st ++ [mkUser (Some nm) ag (Some em)])%list
    /\ modest st'.
Proof.
  intros Hheap Hm Hn. unfold add_user, modest, user_count in *.
  destruct (Z.leb_spec (user_capacity st) (Z.of_nat (length (users st))))
    as [Hfull|Hroom].
  - assert (E : (if user_capacity st =? 0 then Done 2
                 else int_arith (user_capacity st * 2))
                = Done (if user_capacity st =? 0 then 2 else user_capacity st * 2)).
    { destruct (Z.eqb_spec (user_capacity st) 0); [reflexivity|].
      unfold int_arith, CInt.in_int, CInt.INT_MIN, CInt.INT_MAX.
      destruct (Z.leb_spec (- 2 ^ 31) (user_capacity st * 2)); [|lia].
      destruct (Z.leb_spec (user_capacity st * 2) (2 ^ 31 - 1)); [|lia].
      reflexivity. }
    rewrite E. cbn. rewrite Hheap. cbn. unfold strdup. rewrite !Hheap.
    eexists. split; [reflexivity|]. cbn [users user_capacity].
    split; [reflexivity|]. rewrite length_app. cbn [length].
    destruct (Z.eqb_spec (user_capacity st) 0); lia.
  - cbn. unfold strdup. rewrite !Hheap.
    eexists. split; [reflexivity|]. cbn [users user_capacity].
    split; [reflexivity|]. rewrite length_app. cbn [length]. lia.
Qed.

Lemma read_lines_csv (heap_ok : nat -> Z -> bool) (us : list (string * Z * string)) :
  (forall n b, heap_ok n b = true) ->
  Forall well_formed us ->
  forall st,
    modest st ->
    user_count st + Z.of_nat (length us) <= 2 ^ 30 ->
    exists st',
      read_lines heap_ok (map (fun u => line (csv u)) us) st = Done st'
      /\ users st' = (users st ++ map stored us)%list.
Proof.
  intros Hheap. induction 1 as [|u us Hu _ IH]; intros st Hm Hn.
  - exists st. split; [reflexivity|]. cbn. now rewrite app_nil_r.
  - cbn [map read_lines length] in *. rewrite parse_line_csv by exact Hu.
    destruct (add_user_granted heap_ok (trim u.1.1) u.1.2 (trim u.2) st Hheap Hm)
      as (st1 & E1 & Hu1 & Hm1); [lia|].
    rewrite E1. cbn.
    destruct (IH st1 Hm1) as (st' & E' & Hu').
    { unfold user_count in *. rewrite Hu1, length_app. cbn [length]. lia. }
    exists st'. split; [exact E'|]. rewrite Hu', Hu1, <- app_assoc. reflexivity.
Qed.

Lemma total_age_sum (l : list user) :
  forall acc,
    Forall (fun u => CInt.INT_MIN <= age u <= CInt.INT_MAX) l ->
    Z.abs acc + Z.of_nat (length l) * 2 ^ 31 <= 2 ^ 62 ->
    total_age l acc = Done (acc + total (map age l)).
Proof.
  induction l as [|u l IH]; intros acc Hl Hb.
  - cbn. now rewrite Z.add_0_r.
  - inversion Hl as [|? ? Hu Hl']; subst. cbn [total_age map length] in *.
    unfold CInt.INT_MIN, CInt.INT_MAX in Hu.
    assert (E : long_arith (acc + age u) = Done (acc + age u)).
    { unfold long_arith, CInt.in_long, CInt.LONG_MIN, CInt.LONG_MAX.
      destruct (Z.leb_spec (- 2 ^ 63) (acc + age u)); [|lia].
      destruct (Z.leb_spec (acc + age u) (2 ^ 63 - 1)); [|lia]. reflexivity. }
    rewrite E. cbn. rewrite IH by (assumption || lia).
    unfold total. cbn [fold_right]. f_equal. lia.
Qed.

(** The loop over the leading blanks and tabs of a field stops at the
    first other byte. *)
Lemma trim_padded (p s : string) :
  all blank p = true -> unpadded s = true -> trim (p ++ s) = s.
Proof.
  induction p as [|c p IH]; cbn [append all]; intros Hp Hs.
  - destruct s as [|c s]; [reflexivity|]. cbn [trim unpadded] in *.
    unfold blank in Hs. now destruct (Ascii.eqb c " " || Ascii.eqb c "009").
  - apply andb_true_iff in Hp as [Hc Hp]. cbn [trim]. unfold blank in Hc.
    rewrite Hc. now apply IH.
Qed.

End Bug2Facts.

Section UserFiles.

Import Libc Text TextFacts Users Bug2Facts.
Local Open Scope string_scope.
Local Open Scope Z_scope.

(** X5 (bug2.c): when no line of the input has three comma-separated
    fields, no user is added and the run ends in the division of the
    total age by a user count of 0, before anything is printed; whether
    allocations succeed plays no part. *)
Theorem no_user_line_divides_by_zero (heap_ok : nat -> Z -> bool) (stdin : string) :
  Forall (fun l => (length (strtok_all "," (c_str (chomp l))) < 3)%nat)
    (fgets_all 1024 stdin) ->
  Bug2.main heap_ok stdin = Crash DivideByZero.
Proof.
  intros H. unfold Bug2.main. rewrite read_lines_short by exact H. reflexivity.
Qed.

Lemma no_user_line_divides_by_zero_witness :
  Bug2.main Samples.roomy (unlines ["name,age"; ""; "no commas at all"])
  = Crash DivideByZero.
Proof.
  apply no_user_line_divides_by_zero. vm_compute. repeat constructor.
Defined.

(** X6 (bug2.c, [add_user]): after any lines, whatever the allocator
    does, [user_count] is at most [user_capacity], and [user_capacity] is
    0 or a power of two from 2 on. *)
Theorem users_stay_within_capacity (heap_ok : nat -> Z -> bool)
  (lines : list string) (st : Bug2.state) :
  Bug2.read_lines heap_ok lines Bug2.initial = Done st ->
  Bug2.user_count st <= Bug2.user_capacity st
  /\ (Bug2.user_capacity st = 0
      \/ exists k : nat, Bug2.user_capacity st = 2 ^ (Z.of_nat k + 1)).
Proof.
  intros H. apply (read_lines_within heap_ok lines _ _ H).
  split; [reflexivity | now left].
Qed.

Lemma users_stay_within_capacity_witness :
  exists st,
    Bug2.read_lines Samples.roomy ["a,1,b"; "c,2,d"; "e,3,f"] Bug2.initial = Done st
    /\ Bug2.user_count st <= Bug2.user_capacity st.
Proof.
  eexists. split; [reflexivity|].
  exact (proj1 (users_stay_within_capacity Samples.roomy
                  ["a,1,b"; "c,2,d"; "e,3,f"] _ eq_refl)).
Defined.

(** The report for a file of well-formed lines, with the first entry
    as the reading loop stored it. *)
Lemma users_are_reported_as_stored (heap_ok : nat -> Z -> bool)
  (u : string * Z * string) (us : list (string * Z * string)) :
  (forall n b, heap_ok n b = true) ->
  Forall well_formed (u :: us) ->
  Z.of_nat (length (u :: us)) <= 2 ^ 30 ->
  Bug2.main heap_ok (unlines (map csv (u :: us)))
  = Done (("Loaded " ++ fmt_d (Z.of_nat (length (u :: us)))
           ++ " users. Average age: "
           ++ fmt_d (Z.quot (total (map (fun v => v.1.2) (u :: us)))
                       (Z.of_nat (length (u :: us))))
           ++ String "010" "")
          ++ "First user: " ++ Bug2.trim u.1.1 ++ " (" ++ fmt_d u.1.2 ++ ") <"
          ++ Bug2.trim u.2 ++ ">" ++ String "010" "").
Proof.
  intros Hheap Hwf Hn. unfold Bug2.main.
  rewrite fgets_all_unlines.
  2:{ rewrite Forall_map. eapply Forall_impl; [exact Hwf|].
      intros v Hv. split; [|apply Hv].
      apply join_no_newline; [reflexivity | now apply csv_fields]. }
  rewrite map_map.
  destruct (read_lines_csv heap_ok (u :: us) Hheap Hwf Bug2.initial) as (st & E & Hu).
  { unfold modest, Bug2.user_count. cbn. lia. }
  { unfold Bug2.user_count. cbn [Bug2.initial Bug2.users length] in *. lia. }
  rewrite E. cbn [mbind outcome_mbind outcome_bind]. unfold Bug2.report.
  cbn [Bug2.initial Bug2.users app] in Hu.
  assert (Hlen : Bug2.user_count st = Z.of_nat (length (u :: us))).
  { unfold Bug2.user_count. rewrite Hu, length_map. reflexivity. }
  rewrite (total_age_sum (Bug2.users st) 0).
  2:{ rewrite Hu, Forall_map. eapply Forall_impl; [exact Hwf|].
      intros v Hv. apply Hv. }
  2:{ fold (Bug2.user_count st). rewrite Hlen. cbn [Z.abs]. lia. }
  cbn [mbind outcome_mbind outcome_bind]. rewrite Hlen, Z.add_0_l.
  assert (Hages : map Bug2.age (Bug2.users st) = map (fun v => v.1.2) (u :: us)).
  { rewrite Hu, map_map. reflexivity. }
  rewrite Hages.
  assert (Hq : long_div (total (map (fun v => v.1.2) (u :: us)))
                 (Z.of_nat (length (u :: us)))
               = Done (Z.quot (total (map (fun v => v.1.2) (u :: us)))
                         (Z.of_nat (length (u :: us))))).
  { assert (Hsum : Z.abs (total (map (fun v => v.1.2) (u :: us)))
                   <= Z.of_nat (length (u :: us)) * 2 ^ 31).
    { clear -Hwf. induction Hwf as [|v vs Hv _ IH]; [cbn; lia|].
      destruct Hv as (_ & _ & Hv & _). unfold CInt.INT_MIN, CInt.INT_MAX in Hv.
      cbn [map length total fold_right] in *. unfold total in IH. lia. }
    unfold long_div. destruct (Z.eqb_spec (Z.of_nat (length (u :: us))) 0) as [H0|H0];
      [cbn [length] in H0; lia|].
    assert (Hb : Z.abs (Z.quot (total (map (fun v => v.1.2) (u :: us)))
                          (Z.of_nat (length (u :: us))))
                 <= Z.abs (total (map (fun v => v.1.2) (u :: us)))).
    { rewrite <- Z.quot_abs by exact H0.
      rewrite (Z.abs_eq (Z.of_nat _)) by lia.
      apply Z.quot_le_upper_bound; [lia | nia]. }
    unfold long_arith, CInt.in_long, CInt.LONG_MIN, CInt.LONG_MAX.
    destruct (Z.leb_spec (- 2 ^ 63) (Z.quot (total (map (fun v => v.1.2) (u :: us)))
                                       (Z.of_nat (length (u :: us))))); [|lia].
    destruct (Z.leb_spec (Z.quot (total (map (fun v => v.1.2) (u :: us)))
                            (Z.of_nat (length (u :: us)))) (2 ^ 63 - 1)); [|lia].
    reflexivity. }
  rewrite Hq. cbn [mbind outcome_mbind outcome_bind]. rewrite Hu.
  cbn [map stored Bug2.name Bug2.email Bug2.age]. reflexivity.
Qed.

(** X7 (bug2.c): for a file of well-formed lines [name,age,email] (fields
    without comma, newline or NUL, ages in [int], lines that fit the
    buffer, at least one and at most 2^30 of them) and an allocator that
    grants every request, [main] prints the number of users, the sum of
    the ages divided by that number (rounded towards zero), and the first
    user: when its name and email fields are [pn ++ nm] and [pe ++ em]
    with [pn] and [pe] made of blanks and tabs and [nm] and [em] starting
    with another byte, it is printed as [nm] and [em], without that
    padding. *)
Theorem well_formed_users_are_reported (heap_ok : nat -> Z -> bool)
  (pn nm : string) (ag : Z) (pe em : string)
  (us : list (string * Z * string)) :
  (forall n b, heap_ok n b = true) ->
  all blank pn = true -> unpadded nm = true ->
  all blank pe = true -> unpadded em = true ->
  Forall well_formed ((pn ++ nm, ag, pe ++ em) :: us) ->
  Z.of_nat (length ((pn ++ nm, ag, pe ++ em) :: us)) <= 2 ^ 30 ->
  Bug2.main heap_ok (unlines (map csv ((pn ++ nm, ag, pe ++ em) :: us)))
  = Done (("Loaded " ++ fmt_d (Z.of_nat (length ((pn ++ nm, ag, pe ++ em) :: us)))
           ++ " users. Average age: "
           ++ fmt_d (Z.quot (total (ag :: map (fun v => v.1.2) us))
                       (Z.of_nat (length ((pn ++ nm, ag, pe ++ em) :: us))))
           ++ String "010" "")
          ++ "First user: " ++ nm ++ " (" ++ fmt_d ag ++ ") <"
          ++ em ++ ">" ++ String "010" "").
Proof.
  intros Hheap Hpn Hnm Hpe Hem Hwf Hn.
  rewrite (users_are_reported_as_stored heap_ok _ _ Hheap Hwf Hn).
  cbn [fst snd map].
  rewrite (trim_padded pn nm Hpn Hnm), (trim_padded pe em Hpe Hem).
  reflexivity.
Qed.

Lemma well_formed_users_are_reported_witness :
  Bug2.main (fun _ _ => true)
    (unlines ["  alice,30, " ++ String "009" "alice@example.com";
              "bob,25,bob@example.com"])
  = Done ("Loaded 2 users. Average age: 27" ++ String "010" ""
          ++ "First user: alice (30) <alice@example.com>" ++ String "010" "").
Proof.
  assert (Hheap : forall (n : nat) (b : Z), (fun _ _ => true) n b = true)
    by reflexivity.
  assert (Hpn : all blank "  " = true) by reflexivity.
  assert (Hnm : unpadded "alice" = true) by reflexivity.
  assert (Hpe : all blank (" " ++ String "009" "") = true) by reflexivity.
  assert (Hem : unpadded "alice@example.com" = true) by reflexivity.
  assert (Hwf : Forall well_formed
                  [("  " ++ "alice", 30,
                    (" " ++ String "009" "") ++ "alice@example.com");
                   ("bob", 25, "bob@example.com")]).
  { repeat constructor; try (vm_compute; congruence); try (cbn; lia). }
  assert (Hn : Z.of_nat (length [("  " ++ "alice", 30,
                                  (" " ++ String "009" "") ++ "alice@example.com");
                                 ("bob", 25, "bob@example.com")]) <= 2 ^ 30)
    by (cbn; lia).
  exact (well_formed_users_are_reported (fun _ _ => true) "  " "alice" 30
           (" " ++ String "009" "") "alice@example.com"
           [("bob", 25, "bob@example.com")] Hheap Hpn Hnm Hpe Hem Hwf Hn).
Defined.

End UserFiles.

(** * bug3.c: which lines add a book, and what is reported *)

Module Bug3Facts.

Import Libc Text TextFacts Bug3 Books.
Local Open Scope string_scope.
Local Open Scope Z_scope.

Lemma parse_line_short_book (heap_ok : nat -> Z -> bool) (ln : string) (st : state) :
  (length (strtok_all "|" (c_str ln)) < 3)%nat ->
  parse_line heap_ok ln st = Done st.
Proof.
  unfold parse_line. destruct (strtok_all "|" (c_str ln)) as [|f0 [|f1 [|f2 l]]];
    cbn [length]; intros H; (reflexivity || lia).
Qed.

Lemma read_lines_short_book (heap_ok : nat -> Z -> bool) (lines : list string)
  (st : state) :
  Forall (fun l => (length (strtok_all "|" (c_str (chomp l))) < 3)%nat) lines ->
  read_lines heap_ok lines st = Done st.
Proof.
  induction 1 as [|l lines Hl _ IH]; [reflexivity|].
  cbn [read_lines]. rewrite parse_line_short_book by exact Hl. exact IH.
Qed.

Lemma add_book_within (heap_ok : nat -> Z -> bool) (nm : string) (ag : Z)
  (em : string) (st st' : state) :
  add_book heap_ok nm em ag st = Done st' ->
  within_capacity st -> within_capacity st'.
Proof.
  unfold add_book, within_capacity, book_count. intros H [Hc Hp].
  destruct (Z.leb_spec (book_capacity st) (Z.of_nat (length (books st))))
    as [Hfull|Hroom].
  - destruct (Z.eqb_spec (book_capacity st) 0) as [H0|H0].
    + cbn in H.
      destruct (heap_ok (clock st) (CInt.to_size_t (CInt.to_size_t 2 * sizeof_book)));
        cbn in H; injection H as <-; cbn [books book_capacity].
      * rewrite length_app. cbn [length]. split; [lia|]. right. exists 0%nat.
        reflexivity.
      * split; [lia | now left].
    + unfold int_arith in H.
      destruct (CInt.in_int (book_capacity st * 2)); [|discriminate]. cbn in H.
      destruct (heap_ok (clock st) _); cbn in H; injection H as <-;
        cbn [books book_capacity].
      * rewrite length_app. cbn [length]. destruct Hp as [Hp|[k Hk]]; [lia|].
        assert (0 < 2 ^ (Z.of_nat k + 1)) by (apply Z.pow_pos_nonneg; lia).
        split; [lia|]. right. exists (S k).
        rewrite Hk. replace (Z.of_nat (S k) + 1) with (Z.succ (Z.of_nat k + 1)) by lia.
        rewrite Z.pow_succ_r by lia. lia.
      * split; [lia | exact Hp].
  - cbn in H. injection H as <-. cbn [books book_capacity].
    rewrite length_app. cbn [length]. split; [lia | exact Hp].
Qed.

Lemma parse_line_within_book (heap_ok : nat -> Z -> bool) (ln : string) (st st' : state) :
  parse_line heap_ok ln st = Done st' ->
  within_capacity st -> within_capacity st'.
Proof.
  unfold parse_line. destruct (strtok_all "|" (c_str ln)) as [|f0 [|f1 [|f2 l]]];
    try (intros [= <-]; exact id).
  apply add_book_within.
Qed.

Lemma read_lines_within_book (heap_ok : nat -> Z -> bool) (lines : list string) :
  forall st st', read_lines heap_ok lines st = Done st' ->
    within_capacity st -> within_capacity st'.
Proof.
  induction lines as [|l lines IH]; intros st st'; cbn [read_lines].
  - intros [= <-]. exact id.
  - destruct (parse_line heap_ok (chomp l) st) as [st1|f] eqn:E; [|discriminate].
    cbn. intros H Hw. eapply IH; [exact H|]. eapply parse_line_within_book; eassumption.
Qed.

Lemma trim_numeral_book (s : string) : all numeral_byte s = true -> trim s = s.
Proof.
  destruct s as [|c s]; [reflexivity|]. cbn [all trim].
  intros [Hc _]%andb_true_iff.
  assert (H : forall x, numeral_byte x = false -> Ascii.eqb c x = false).
  { intros x Hx. apply Ascii.eqb_neq. intros ->. congruence. }
  rewrite (H " "%char eq_refl), (H "009"%char eq_refl). reflexivity.
Qed.

Lemma entry_fields (u : string * string * Z) :
  well_formed u ->
  Forall (fun w => field "|" w = true) [u.1.1; u.1.2; fmt_d u.2].
Proof.
  intros (Hn & He & _ & _). repeat constructor; try assumption.
  now apply fmt_d_field.
Qed.

Lemma parse_line_entry (heap_ok : nat -> Z -> bool) (u : string * string * Z)
  (st : state) :
  well_formed u ->
  parse_line heap_ok (chomp (line (entry u))) st
  = add_book heap_ok (trim u.1.1) (trim u.1.2) u.2 st.
Proof.
  intros Hu. unfold parse_line, line, entry.
  rewrite cuts_join by (reflexivity || now apply entry_fields).
  rewrite strtok_all_join by now apply entry_fields.
  rewrite (trim_numeral_book (fmt_d u.2)) by apply fmt_d_numeral.
  rewrite atoi_fmt_d by apply Hu. reflexivity.
Qed.

Lemma add_book_granted (heap_ok : nat -> Z -> bool) (nm : string) (ag : Z)
  (em : string) (st : state) :
  (forall n b, heap_ok n b = true) ->
  modest st -> book_count st < 2 ^ 30 ->
  exists st',
    add_book heap_ok nm em ag st = Done st'
    /\ books st' = (books st ++ [mkBook (Some nm) (Some em) ag])%list
    /\ modest st'.
Proof.
  intros Hheap Hm Hn. unfold add_book, modest, book_count in *.
  destruct (Z.leb_spec (book_capacity st) (Z.of_nat (length (books st))))
    as [Hfull|Hroom].
  - assert (E : (if book_capacity st =? 0 then Done 2
                 else int_arith (book_capacity st * 2))
                = Done (if book_capacity st =? 0 then 2 else book_capacity st * 2)).
    { destruct (Z.eqb_spec (book_capacity st) 0); [reflexivity|].
      unfold int_arith, CInt.in_int, CInt.INT_MIN, CInt.INT_MAX.
      destruct (Z.leb_spec (- 2 ^ 31) (book_capacity st * 2)); [|lia].
      destruct (Z.leb_spec (book_capacity st * 2) (2 ^ 31 - 1)); [|lia].
      reflexivity. }
    rewrite E. cbn. rewrite Hheap. cbn. unfold strdup. rewrite !Hheap.
    eexists. split; [reflexivity|]. cbn [books book_capacity].
    split; [reflexivity|]. rewrite length_app. cbn [length].
    destruct (Z.eqb_spec (book_capacity st) 0); lia.
  - cbn. unfold strdup. rewrite !Hheap.
    eexists. split; [reflexivity|]. cbn [books book_capacity].
    split; [reflexivity|]. rewrite length_app. cbn [length]. lia.
Qed.

Lemma read_lines_entries (heap_ok : nat -> Z -> bool) (us : list (string * string * Z)) :
  (forall n b, heap_ok n b = true) ->
  Forall well_formed us ->
  forall st,
    modest st ->
    book_count st + Z.of_nat (length us) <= 2 ^ 30 ->
    exists st',
      read_lines heap_ok (map (fun u => line (entry u)) us) st = Done st'
      /\ books st' = (books st ++ map stored us)%list.
Proof.
  intros Hheap. induction 1 as [|u us Hu _ IH]; intros st Hm Hn.
  - exists st. split; [reflexivity|]. cbn. now rewrite app_nil_r.
  - cbn [map read_lines length] in *. rewrite parse_line_entry by exact Hu.
    destruct (add_book_granted heap_ok (trim u.1.1) u.2 (trim u.1.2) st Hheap Hm)
      as (st1 & E1 & Hu1 & Hm1); [lia|].
    rewrite E1. cbn.
    destruct (IH st1 Hm1) as (st' & E' & Hu').
    { unfold book_count in *. rewrite Hu1, length_app. cbn [length]. lia. }
    exists st'. split; [exact E'|]. rewrite Hu', Hu1, <- app_assoc. reflexivity.
Qed.

Lemma total_year_sum (l : list book) :
  forall acc,
    Forall (fun u => CInt.INT_MIN <= year u <= CInt.INT_MAX) l ->
    Z.abs acc + Z.of_nat (length l) * 2 ^ 31 <= 2 ^ 62 ->
    total_year l acc = Done (acc + total (map year l)).
Proof.
  induction l as [|u l IH]; intros acc Hl Hb.
  - cbn. now rewrite Z.add_0_r.
  - inversion Hl as [|? ? Hu Hl']; subst. cbn [total_year map length] in *.
    unfold CInt.INT_MIN, CInt.INT_MAX in Hu.
    assert (E : long_arith (acc + year u) = Done (acc + year u)).
    { unfold long_arith, CInt.in_long, CInt.LONG_MIN, CInt.LONG_MAX.
      destruct (Z.leb_spec (- 2 ^ 63) (acc + year u)); [|lia].
      destruct (Z.leb_spec (acc + year u) (2 ^ 63 - 1)); [|lia]. reflexivity. }
    rewrite E. cbn. rewrite IH by (assumption || lia).
    unfold total. cbn [fold_right]. f_equal. lia.
Qed.

(** The loop over the leading blanks and tabs of a field stops at the
    first other byte. *)
Lemma trim_padded_book (p s : string) :
  all blank p = true -> unpadded s = true -> trim (p ++ s) = s.
Proof.
  induction p as [|c p IH]; cbn [append all]; intros Hp Hs.
  - destruct s as [|c s]; [reflexivity|]. cbn [trim unpadded] in *.
    unfold blank in Hs. now destruct (Ascii.eqb c " " || Ascii.eqb c "009").
  - apply andb_true_iff in Hp as [Hc Hp]. cbn [trim]. unfold blank in Hc.
    rewrite Hc. now apply IH.
Qed.

End Bug3Facts.

Section BookFiles.

Import Libc Text TextFacts Books Bug3Facts.
Local Open Scope string_scope.
Local Open Scope Z_scope.

(** X8 (bug3.c): when no line of the file has three fields separated by
    [|], no book is added and the run ends in the division of the total of
    the years by a book count of 0, before anything is printed; whether
    allocations succeed plays no part. *)
Theorem no_book_line_divides_by_zero (heap_ok : nat -> Z -> bool) (stdin : string) :
  Forall (fun l => (length (strtok_all "|" (c_str (chomp l))) < 3)%nat)
    (fgets_all 1024 stdin) ->
  Bug3.main heap_ok stdin = Crash DivideByZero.
Proof.
  intros H. unfold Bug3.main. rewrite read_lines_short_book by exact H. reflexivity.
Qed.

Lemma no_book_line_divides_by_zero_witness :
  Bug3.main Samples.roomy (unlines ["title|author"; ""; "no bars at all"])
  = Crash DivideByZero.
Proof.
  apply no_book_line_divides_by_zero. vm_compute. repeat constructor.
Defined.

(** X9 (bug3.c, [add_book]): after any lines, whatever the allocator
    does, [book_count] is at most [book_capacity], and [book_capacity] is
    0 or a power of two from 2 on. *)
Theorem books_stay_within_capacity (heap_ok : nat -> Z -> bool)
  (lines : list string) (st : Bug3.state) :
  Bug3.read_lines heap_ok lines Bug3.initial = Done st ->
  Bug3.book_count st <= Bug3.book_capacity st
  /\ (Bug3.book_capacity st = 0
      \/ exists k : nat, Bug3.book_capacity st = 2 ^ (Z.of_nat k + 1)).
Proof.
  intros H. apply (read_lines_within_book heap_ok lines _ _ H).
  split; [reflexivity | now left].
Qed.

Lemma books_stay_within_capacity_witness :
  exists st,
    Bug3.read_lines Samples.roomy ["a|b|1"; "c|d|2"; "e|f|3"] Bug3.initial = Done st
    /\ Bug3.book_count st <= Bug3.book_capacity st.
Proof.
  eexists. split; [reflexivity|].
  exact (proj1 (books_stay_within_capacity Samples.roomy
                  ["a|b|1"; "c|d|2"; "e|f|3"] _ eq_refl)).
Defined.

(** The report for a file of well-formed lines, with the first entry
    as the reading loop stored it. *)
Lemma books_are_reported_as_stored (heap_ok : nat -> Z -> bool)
  (u : string * string * Z) (us : list (string * string * Z)) :
  (forall n b, heap_ok n b = true) ->
  Forall well_formed (u :: us) ->
  Z.of_nat (length (u :: us)) <= 2 ^ 30 ->
  Bug3.main heap_ok (unlines (map entry (u :: us)))
  = Done (("Loaded " ++ fmt_d (Z.of_nat (length (u :: us)))
           ++ " books. Average year: "
           ++ fmt_d (Z.quot (total (map (fun v => v.2) (u :: us)))
                       (Z.of_nat (length (u :: us))))
           ++ String "010" "")
          ++ "First book: " ++ String "034" "" ++ Bug3.trim u.1.1
          ++ String "034" "" ++ " by " ++ Bug3.trim u.1.2
          ++ " (" ++ fmt_d u.2 ++ ")" ++ String "010" "").
Proof.
  intros Hheap Hwf Hn. unfold Bug3.main.
  rewrite fgets_all_unlines.
  2:{ rewrite Forall_map. eapply Forall_impl; [exact Hwf|].
      intros v Hv. split; [|apply Hv].
      apply join_no_newline; [reflexivity | now apply entry_fields]. }
  rewrite map_map.
  destruct (read_lines_entries heap_ok (u :: us) Hheap Hwf Bug3.initial) as (st & E & Hu).
  { unfold modest, Bug3.book_count. cbn. lia. }
  { unfold Bug3.book_count. cbn [Bug3.initial Bug3.books length] in *. lia. }
  rewrite E. cbn [mbind outcome_mbind outcome_bind]. unfold Bug3.report.
  cbn [Bug3.initial Bug3.books app] in Hu.
  assert (Hlen : Bug3.book_count st = Z.of_nat (length (u :: us))).
  { unfold Bug3.book_count. rewrite Hu, length_map. reflexivity. }
  rewrite (total_year_sum (Bug3.books st) 0).
  2:{ rewrite Hu, Forall_map. eapply Forall_impl; [exact Hwf|].
      intros v Hv. apply Hv. }
  2:{ fold (Bug3.book_count st). rewrite Hlen. cbn [Z.abs]. lia. }
  cbn [mbind outcome_mbind outcome_bind]. rewrite Hlen, Z.add_0_l.
  assert (Hages : map Bug3.year (Bug3.books st) = map (fun v => v.2) (u :: us)).
  { rewrite Hu, map_map. reflexivity. }
  rewrite Hages.
  assert (Hq : long_div (total (map (fun v => v.2) (u :: us)))
                 (Z.of_nat (length (u :: us)))
               = Done (Z.quot (total (map (fun v => v.2) (u :: us)))
                         (Z.of_nat (length (u :: us))))).
  { assert (Hsum : Z.abs (total (map (fun v => v.2) (u :: us)))
                   <= Z.of_nat (length (u :: us)) * 2 ^ 31).
    { clear -Hwf. induction Hwf as [|v vs Hv _ IH]; [cbn; lia|].
      destruct Hv as (_ & _ & Hv & _). unfold CInt.INT_MIN, CInt.INT_MAX in Hv.
      cbn [map length total fold_right] in *. unfold total in IH. lia. }
    unfold long_div. destruct (Z.eqb_spec (Z.of_nat (length (u :: us))) 0) as [H0|H0];
      [cbn [length] in H0; lia|].
    assert (Hb : Z.abs (Z.quot (total (map (fun v => v.2) (u :: us)))
                          (Z.of_nat (length (u :: us))))
                 <= Z.abs (total (map (fun v => v.2) (u :: us)))).
    { rewrite <- Z.quot_abs by exact H0.
      rewrite (Z.abs_eq (Z.of_nat _)) by lia.
      apply Z.quot_le_upper_bound; [lia | nia]. }
    unfold long_arith, CInt.in_long, CInt.LONG_MIN, CInt.LONG_MAX.
    destruct (Z.leb_spec (- 2 ^ 63) (Z.quot (total (map (fun v => v.2) (u :: us)))
                                       (Z.of_nat (length (u :: us))))); [|lia].
    destruct (Z.leb_spec (Z.quot (total (map (fun v => v.2) (u :: us)))
                            (Z.of_nat (length (u :: us)))) (2 ^ 63 - 1)); [|lia].
    reflexivity. }
  rewrite Hq. cbn [mbind outcome_mbind outcome_bind]. rewrite Hu.
  cbn [map stored Bug3.title Bug3.author Bug3.year]. reflexivity.
Qed.

(** X10 (bug3.c): for a file of well-formed lines [TITLE|AUTHOR|YEAR]
    (fields without bar, newline or NUL, years in [int], lines that fit
    the buffer, at least one and at most 2^30 of them) and an allocator
    that grants every request, [main] prints the number of books, the sum
    of the years divided by that number (rounded towards zero), and the
    first book: when its title and author fields are [pt ++ ti] and
    [pa ++ au] with [pt] and [pa] made of blanks and tabs and [ti] and
    [au] starting with another byte, it is printed as [ti] and [au],
    without that padding. *)
Theorem well_formed_books_are_reported (heap_ok : nat -> Z -> bool)
  (pt ti pa au : string) (yr : Z) (us : list (string * string * Z)) :
  (forall n b, heap_ok n b = true) ->
  all blank pt = true -> unpadded ti = true ->
  all blank pa = true -> unpadded au = true ->
  Forall well_formed ((pt ++ ti, pa ++ au, yr) :: us) ->
  Z.of_nat (length ((pt ++ ti, pa ++ au, yr) :: us)) <= 2 ^ 30 ->
  Bug3.main heap_ok (unlines (map entry ((pt ++ ti, pa ++ au, yr) :: us)))
  = Done (("Loaded " ++ fmt_d (Z.of_nat (length ((pt ++ ti, pa ++ au, yr) :: us)))
           ++ " books. Average year: "
           ++ fmt_d (Z.quot (total (yr :: map (fun v => v.2) us))
                       (Z.of_nat (length ((pt ++ ti, pa ++ au, yr) :: us))))
           ++ String "010" "")
          ++ "First book: " ++ String "034" "" ++ ti
          ++ String "034" "" ++ " by " ++ au
          ++ " (" ++ fmt_d yr ++ ")" ++ String "010" "").
Proof.
  intros Hheap Hpt Hti Hpa Hau Hwf Hn.
  rewrite (books_are_reported_as_stored heap_ok _ _ Hheap Hwf Hn).
  cbn [fst snd map].
  rewrite (trim_padded_book pt ti Hpt Hti), (trim_padded_book pa au Hpa Hau).
  reflexivity.
Qed.

Lemma well_formed_books_are_reported_witness :
  Bug3.main (fun _ _ => true)
    (unlines [" The Great Gatsby|" ++ String "009" "F. Scott Fitzgerald|1925";
              "Nineteen Eighty-Four|George Orwell|1949"])
  = Done ("Loaded 2 books. Average year: 1937" ++ String "010" ""
          ++ "First book: " ++ String "034" "" ++ "The Great Gatsby"
          ++ String "034" "" ++ " by F. Scott Fitzgerald (1925)" ++ String "010" "").
Proof.
  assert (Hheap : forall (n : nat) (b : Z), (fun _ _ => true) n b = true)
    by reflexivity.
  assert (Hpt : all blank " " = true) by reflexivity.
  assert (Hti : unpadded "The Great Gatsby" = true) by reflexivity.
  assert (Hpa : all blank (String "009" "") = true) by reflexivity.
  assert (Hau : unpadded "F. Scott Fitzgerald" = true) by reflexivity.
  assert (Hwf : Forall well_formed
                  [(" " ++ "The Great Gatsby",
                    String "009" "" ++ "F. Scott Fitzgerald", 1925);
                   ("Nineteen Eighty-Four", "George Orwell", 1949)]).
  { repeat constructor; try (vm_compute; congruence); try (cbn; lia). }
  assert (Hn : Z.of_nat (length [(" " ++ "The Great Gatsby",
                                  String "009" "" ++ "F. Scott Fitzgerald", 1925);
                                 ("Nineteen Eighty-Four", "George Orwell", 1949)])
               <= 2 ^ 30)
    by (cbn; lia).
  exact (well_formed_books_are_reported (fun _ _ => true) " " "The Great Gatsby"
           (String "009" "") "F. Scott Fitzgerald" 1925
           [("Nineteen Eighty-Four", "George Orwell", 1949)]
           Hheap Hpt Hti Hpa Hau Hwf Hn).
Defined.

End BookFiles.

(** * bug4.cpp: which lines add an entry, and what is printed *)

Module Bug4Facts.

Import Libc Text TextFacts Bug4.
Local Open Scope string_scope.
Local Open Scope Z_scope.

Lemma prefix_split (a : string) :
  forall b, String.prefix a b = true -> b = a ++ substr (String.length a) b.
Proof.
  induction a as [|x a IH]; intros b.
  - reflexivity.
  - destruct b as [|y b]; cbn [String.prefix String.length substr append];
      [discriminate|].
    destruct (ascii_dec x y) as [->|]; [|discriminate].
    intros H. now rewrite <- (IH _ H).
Qed.

Lemma prefix_append (a r : string) : String.prefix a (a ++ r) = true.
Proof.
  induction a as [|x a IH]; [now destruct r|].
  cbn [append String.prefix]. destruct (ascii_dec x x); [exact IH | congruence].
Qed.

Lemma substr_append (a r : string) : substr (String.length a) (a ++ r) = r.
Proof. induction a as [|x a IH]; cbn; [reflexivity | exact IH]. Qed.

Lemma substr0_append (a r : string) : substr0 (String.length a) (a ++ r) = a.
Proof.
  induction a as [|x a IH]; cbn; [now destruct r | now rewrite IH].
Qed.

Lemma find_split (c : ascii) (s : string) :
  forall n, find c s = Some n ->
    s = substr0 n s ++ String c (substr (S n) s)
    /\ all (fun x => negb (Ascii.eqb x c)) (substr0 n s) = true
    /\ String.length (substr0 n s) = n.
Proof.
  induction s as [|x s IH]; intros n; cbn [find]; [discriminate|].
  destruct (Ascii.eqb_spec x c) as [->|Hx].
  - intros [= <-]. cbn. auto.
  - destruct (find c s) as [m|] eqn:E; [|discriminate]. intros [= <-].
    destruct (IH m eq_refl) as (Hs & Ha & Hl).
    change (substr (S (S m)) (String x s)) with (substr (S m) s).
    cbn [substr0 append all String.length].
    rewrite <- Hs, Ha, Hl. apply Ascii.eqb_neq in Hx. rewrite Hx. auto.
Qed.

Lemma find_append (c : ascii) (p v : string) :
  all (fun x => negb (Ascii.eqb x c)) p = true ->
  find c (p ++ String c v) = Some (String.length p).
Proof.
  induction p as [|x p IH]; cbn [all append find String.length].
  - intros _. now rewrite Ascii.eqb_refl.
  - intros [Hx Hp]%andb_true_iff. apply negb_true_iff in Hx.
    rewrite Hx, (IH Hp). reflexivity.
Qed.

Lemma length_nonempty (s : string) : s <> "" -> (0 < String.length s)%nat.
Proof. destruct s; [congruence | cbn; lia]. Qed.

(** The first pointer once the first entry is in: it keeps the
    characters of that entry's [param], and [gone] tells whether a
    relocation has left it behind. *)
Lemma push_first (relocates : nat -> bool) (in_place : string -> bool)
  (e : ConfigEntry) (st : state) (p : pointer) (ps : list pointer) :
  paramPointers st = p :: ps ->
  exists ps',
    paramPointers (push relocates in_place e st)
    = (if relocates (length (entries st)) then left_behind in_place p else p) :: ps'.
Proof.
  intros H. unfold push. rewrite H. destruct (relocates _); cbn; eauto.
Qed.

Lemma fold_push (relocates : nat -> bool) (in_place : string -> bool)
  (es : list ConfigEntry) :
  forall (st : state) (param0 : string) (gone : bool) (ps : list pointer),
    paramPointers st = mkPointer param0 gone :: ps ->
    exists ps',
      paramPointers (fold_left (fun s e => push relocates in_place e s) es st)
      = mkPointer param0
          (gone || in_place param0
                   && existsb relocates (seq (length (entries st)) (length es)))
        :: ps'
      /\ length (entries (fold_left (fun s e => push relocates in_place e s) es st))
         = (length (entries st) + length es)%nat.
Proof.
  induction es as [|e es IH]; intros st param0 gone ps H.
  - cbn. rewrite andb_false_r, orb_false_r, Nat.add_0_r. eauto.
  - cbn [fold_left length seq existsb].
    destruct (push_first relocates in_place e st _ _ H) as [ps1 H1].
    assert (Hlen : length (entries (push relocates in_place e st))
                   = S (length (entries st))).
    { unfold push. cbn. rewrite length_app. cbn. lia. }
    destruct (relocates (length (entries st))) eqn:Er.
    + unfold left_behind in H1. cbn [chars] in H1.
      destruct (in_place param0) eqn:Ei.
      * destruct (IH _ _ _ _ H1) as (ps' & E' & L'). exists ps'.
        rewrite E', L', Hlen. split; [|lia]. cbn. now rewrite orb_true_r.
      * destruct (IH _ _ _ _ H1) as (ps' & E' & L'). exists ps'.
        rewrite E', L', Hlen. split; [|lia]. cbn. rewrite Ei. reflexivity.
    + destruct (IH _ _ _ _ H1) as (ps' & E' & L'). exists ps'.
      rewrite E', L', Hlen. split; [|lia]. cbn. reflexivity.
Qed.

Lemma read_lines_omap (relocates : nat -> bool) (in_place : string -> bool)
  (lines : list string) :
  forall st,
    read_lines relocates in_place lines st
    = fold_left (fun s e => push relocates in_place e s) (omap parse lines) st.
Proof.
  unfold read_lines. induction lines as [|l lines IH]; intros st; [reflexivity|].
  cbn [fold_left omap list_omap]. unfold step at 2.
  destruct (parse l); cbn [fold_left]; apply IH.
Qed.

End Bug4Facts.

Section ConfigLines.

Import Libc Text TextFacts Bug4Facts.
Local Open Scope string_scope.
Local Open Scope Z_scope.

(** X11 (bug4.cpp, the test of a line in [main]): a line that fits in
    memory adds the entry [(p, v)] exactly when it is [CONFIG p=v] with
    [p] and [v] not empty and no [=] in [p]; the value keeps everything
    after the first [=], further [=] included. *)
Theorem config_line_adds_entry_iff (ln p v : string) :
  Z.of_nat (String.length ln) < 2 ^ 64 ->
  Bug4.parse ln = Some (Bug4.mkConfigEntry p v)
  <-> ln = "CONFIG " ++ p ++ String "=" v
      /\ p <> "" /\ v <> ""
      /\ all (fun c => negb (Ascii.eqb c "=")) p = true.
Proof.
  intros Hfit. unfold Bug4.parse. split.
  - cbv zeta. remember (Bug4.substr 7 ln) as rest eqn:Hrest.
    destruct (Nat.ltb 7 (String.length ln)); [|discriminate]. cbn [andb].
    destruct (String.prefix "CONFIG " ln) eqn:Hp; [|discriminate].
    apply prefix_split in Hp.
    change (Bug4.substr (String.length "CONFIG ") ln) with (Bug4.substr 7 ln) in Hp.
    rewrite <- Hrest in Hp. clear Hrest.
    destruct (Bug4.find "=" rest) as [n|] eqn:Hf; [|discriminate].
    destruct (find_split _ _ _ Hf) as (Hs & Ha & Hl).
    destruct (Nat.ltb 0 n && _); [|discriminate].
    destruct (String.eqb_spec (Bug4.substr0 n rest) "") as [E1|E1];
      [discriminate|].
    destruct (String.eqb_spec (Bug4.substr (S n) rest) "") as [E2|E2];
      [discriminate|].
    cbn [negb andb]. intros H. injection H as Hp1 Hv1. subst p v.
    split; [|auto].
    etransitivity; [exact Hp|]. exact (f_equal (append "CONFIG ") Hs).
  - intros (-> & Hp & Hv & Ha).
    assert (Hlen : String.length ("CONFIG " ++ p ++ String "=" v)
                   = (7 + (String.length p + S (String.length v)))%nat).
    { cbn [append String.length]. rewrite length_append. cbn [String.length]. lia. }
    pose proof (length_nonempty _ Hp) as Hp'.
    pose proof (length_nonempty _ Hv) as Hv'.
    rewrite Hlen in *.
    destruct (Nat.ltb_spec 7 (7 + (String.length p + S (String.length v)))); [|lia].
    rewrite (prefix_append "CONFIG " (p ++ String "=" v)). cbn [andb].
    change (Bug4.substr 7 ("CONFIG " ++ p ++ String "=" v)) with (p ++ String "=" v).
    rewrite (find_append _ _ _ Ha).
    destruct (Nat.ltb_spec 0 (String.length p)); [|lia]. cbn [andb].
    rewrite length_append. cbn [String.length]. unfold CInt.to_size_t.
    rewrite Z.mod_small by lia.
    destruct (Z.ltb_spec (Z.of_nat (String.length p))
                (Z.of_nat (String.length p + S (String.length v)) - 1)); [|lia].
    rewrite substr0_append.
    change (S (String.length p)) with (String.length (String "=" p)).
    assert (Hsub : Bug4.substr (String.length (String "=" p)) (p ++ String "=" v) = v).
    { cbn [String.length]. rewrite <- (substr_append (p ++ String "=" "") v) at 2.
      rewrite append_snoc, length_append. cbn [String.length].
      now rewrite Nat.add_1_r. }
    rewrite Hsub.
    apply String.eqb_neq in Hp, Hv. rewrite Hp, Hv. reflexivity.
Qed.

Lemma config_line_adds_entry_iff_witness :
  Bug4.parse "CONFIG mode=a=b" = Some (Bug4.mkConfigEntry "mode" "a=b").
Proof.
  assert (Hfit : Z.of_nat (String.length "CONFIG mode=a=b") < 2 ^ 64)
    by (vm_compute; reflexivity).
  apply (proj2 (config_line_adds_entry_iff "CONFIG mode=a=b" "mode" "a=b" Hfit)).
  repeat split; discriminate.
Defined.

(** X12 (bug4.cpp, [main]): what the run prints is decided by the entries
    the lines add. With none, [paramPointers[0]] is read from an empty
    vector. Otherwise the pointer taken from the first entry is printed
    up to its first NUL, unless a later [push_back] moved the entries
    while the first [param] was stored inside its string object: then the
    pointer refers to storage that was given back. *)
Theorem first_parameter_or_fault (relocates : nat -> bool)
  (in_place : string -> bool) (stdin : string) :
  Bug4.main relocates in_place stdin
  = match omap Bug4.parse (getline_all stdin) with
    | [] => Crash OutOfBounds
    | e :: es =>
        if in_place (Bug4.param e) && existsb relocates (seq 1 (length es))
        then Crash UseAfterFree
        else Done ("First parameter: " ++ c_str (Bug4.param e) ++ String "010" "")
    end.
Proof.
  unfold Bug4.main. rewrite read_lines_omap.
  destruct (omap Bug4.parse (getline_all stdin)) as [|e es]; [reflexivity|].
  cbn [fold_left].
  destruct (fold_push relocates in_place es
              (Bug4.push relocates in_place e Bug4.initial) (Bug4.param e) false [])
    as (ps' & E & _).
  { unfold Bug4.push. cbn. destruct (relocates 0%nat); reflexivity. }
  unfold Bug4.report. rewrite E. cbn [Bug4.dangling Bug4.chars orb].
  reflexivity.
Qed.

End ConfigLines.

(** * Loops over the elements of an array *)

Module SliceFacts.

Import Libc Mem Text Slots LoopFacts MemFacts.
Local Open Scope Z_scope.

(** A loop whose [k]-th turn applies [f] to the [k]-th element of [vs],
    as long as [P] holds of the turn and the state. *)
Lemma iter_list {St A : Type} (body : Z -> St -> outcome St) (f : St -> A -> St)
  (P : nat -> St -> Prop) (vs : list A) :
  forall (lo : Z) (k0 : nat) (s : St),
    (forall (k : nat) (v : A) (s : St),
        vs !! k = Some v -> P (k0 + k)%nat s ->
        body (lo + Z.of_nat k) s = Done (f s v) /\ P (S (k0 + k)) (f s v)) ->
    P k0 s ->
    iter (length vs) lo body s = Done (fold_left f vs s)
    /\ P (k0 + length vs)%nat (fold_left f vs s).
Proof.
  induction vs as [|v vs IH]; intros lo k0 s Hbody HP.
  - cbn. rewrite Nat.add_0_r. auto.
  - cbn [length iter fold_left].
    destruct (Hbody 0%nat v s eq_refl) as [E HP'].
    { now rewrite Nat.add_0_r. }
    rewrite Z.add_0_r in E. rewrite E. cbn [mbind outcome_mbind outcome_bind].
    rewrite Nat.add_0_r in HP'.
    destruct (IH (lo + 1) (S k0) (f s v)) as [E' HP''].
    + intros k x s' Hk HPk.
      replace (lo + 1 + Z.of_nat k) with (lo + Z.of_nat (S k)) by lia.
      replace (S k0 + k)%nat with (k0 + S k)%nat in * by lia.
      apply Hbody; assumption.
    + exact HP'.
    + split; [exact E'|]. now replace (k0 + S (length vs))%nat
        with (S k0 + length vs)%nat by lia.
Qed.

Lemma load_elements (vs : list Z) (k : nat) (v : Z) :
  vs !! k = Some v -> load (Live (map Some vs)) (Z.of_nat k) = Done (Some v).
Proof.
  intros H. unfold load. rewrite length_map.
  pose proof (lookup_lt_Some _ _ _ H) as Hk.
  destruct (Z.ltb_spec (Z.of_nat k) 0); [lia|].
  destruct (Z.leb_spec (Z.of_nat (length vs)) (Z.of_nat k)); [lia|]. cbn [orb].
  rewrite Nat2Z.id, list_lookup_fmap, H. reflexivity.
Qed.

Lemma fold_left_total (vs : list Z) :
  forall acc, fold_left (fun s v => s + v) vs acc = acc + total vs.
Proof.
  induction vs as [|v vs IH]; intros acc; cbn [fold_left].
  - unfold total. cbn. lia.
  - rewrite IH. unfold total. cbn [fold_right]. lia.
Qed.

Lemma total_bound (vs : list Z) :
  Forall (fun v => CInt.INT_MIN <= v <= CInt.INT_MAX) vs ->
  Z.abs (total vs) <= Z.of_nat (length vs) * 2 ^ 31.
Proof.
  induction 1 as [|v vs Hv _ IH]; [cbn; lia|].
  unfold CInt.INT_MIN, CInt.INT_MAX in Hv. unfold total in *.
  cbn [fold_right length]. lia.
Qed.

(** The summing loop of [compute_stat]. *)
Lemma sum_loop (vs : list Z) :
  Forall (fun v => CInt.INT_MIN <= v <= CInt.INT_MAX) vs ->
  Z.of_nat (length vs) <= 2 ^ 31 ->
  for_loop 0 (Z.of_nat (length vs))
    (fun i sum => c ← load (Live (map Some vs)) i; v ← value c; long_arith (sum + v)) 0
  = Done (total vs).
Proof.
  intros Hvs Hn. rewrite for_loop_iter, Z.sub_0_r, Nat2Z.id.
  destruct (iter_list
              (fun i sum => c ← load (Live (map Some vs)) i; v ← value c;
                            long_arith (sum + v))
              (fun s v => s + v)
              (fun k s => Z.abs s <= Z.of_nat k * 2 ^ 31) vs 0 0%nat 0) as [E _].
  - intros k v s Hk HP. cbn [Nat.add] in *. rewrite Z.add_0_l.
    rewrite (load_elements _ _ _ Hk). cbn [mbind outcome_mbind outcome_bind value].
    pose proof (lookup_lt_Some _ _ _ Hk) as Hlt.
    assert (Hv : CInt.INT_MIN <= v <= CInt.INT_MAX).
    { rewrite Forall_lookup in Hvs. exact (Hvs _ _ Hk). }
    unfold CInt.INT_MIN, CInt.INT_MAX in Hv.
    unfold long_arith, CInt.in_long, CInt.LONG_MIN, CInt.LONG_MAX.
    destruct (Z.leb_spec (- 2 ^ 63) (s + v)); [|lia].
    destruct (Z.leb_spec (s + v) (2 ^ 63 - 1)); [|lia]. cbn [andb].
    split; [reflexivity | lia].
  - cbn. lia.
  - rewrite E, fold_left_total. reflexivity.
Qed.

Lemma concat_cons (x : string) (xs : list string) :
  String.concat "" (x :: xs) = (x ++ String.concat "" xs)%string.
Proof.
  destruct xs as [|y xs]; cbn [String.concat].
  - now rewrite TextFacts.append_nil_r.
  - reflexivity.
Qed.

Lemma fold_left_row (vs : list Z) :
  forall out : string,
    fold_left (fun out v => (out ++ fmt_d v ++ " ")%string) vs out
    = (out ++ row vs)%string.
Proof.
  unfold row. induction vs as [|v vs IH]; intros out; cbn [fold_left map].
  - cbn. now rewrite TextFacts.append_nil_r.
  - rewrite IH, concat_cons, !TextFacts.append_assoc. reflexivity.
Qed.

Lemma length_slice (start count : Z) (vs : list Z) :
  0 <= start -> 0 <= count -> start + count <= Z.of_nat (length vs) ->
  length (slice start count vs) = Z.to_nat count.
Proof.
  intros. unfold slice. rewrite length_take, length_drop. lia.
Qed.

Lemma lookup_slice (start count : Z) (vs : list Z) (k : nat) (v : Z) :
  0 <= start ->
  slice start count vs !! k = Some v -> vs !! (Z.to_nat start + k)%nat = Some v.
Proof.
  intros Hs. unfold slice. intros H.
  apply lookup_take_Some in H as [H _]. now rewrite lookup_drop in H.
Qed.

(** The printing loop of [print_array]. *)
Lemma print_loop (tbl : list Array) (idx : Z) (vs : list Z) (start end_ : Z) :
  holds tbl idx vs ->
  0 <= start <= end_ -> end_ < Z.of_nat (length vs) ->
  for_loop start (end_ + 1)
    (fun i out => c ← read idx i tbl; v ← value c;
                  Done (out ++ fmt_d v ++ " ")%string) ""%string
  = Done (row (slice start (end_ + 1 - start) vs)).
Proof.
  intros Hh Hse He. rewrite for_loop_iter.
  rewrite <- (length_slice start (end_ + 1 - start) vs) by lia.
  destruct (iter_list
              (fun i out => c ← read idx i tbl; v ← value c;
                            Done (out ++ fmt_d v ++ " ")%string)
              (fun out v => (out ++ fmt_d v ++ " ")%string)
              (fun _ _ => True) (slice start (end_ + 1 - start) vs)
              start 0%nat ""%string) as [E _].
  - intros k v s Hk _. split; [|exact I].
    apply lookup_slice in Hk; [|lia].
    unfold read. unfold holds in Hh. rewrite Hh.
    cbn [mbind outcome_mbind outcome_bind array_of data].
    replace (start + Z.of_nat k) with (Z.of_nat (Z.to_nat start + k)) by lia.
    rewrite (load_elements _ _ _ Hk). reflexivity.
  - exact I.
  - rewrite E, fold_left_row. reflexivity.
Qed.

(** A loop that is known by what it keeps: [P k] holds of the state
    before turn [k]. *)
Lemma iter_inv {St A : Type} (body : Z -> St -> outcome St)
  (P : nat -> St -> Prop) (vs : list A) (lo : Z) :
  (forall (k : nat) (v : A) (s : St),
      vs !! k = Some v -> P k s ->
      exists s', body (lo + Z.of_nat k) s = Done s' /\ P (S k) s') ->
  forall s, P 0%nat s ->
    exists s', iter (length vs) lo body s = Done s' /\ P (length vs) s'.
Proof.
  intros Hbody.
  assert (H : forall (n k0 : nat) (s : St),
             (k0 + n = length vs)%nat -> P k0 s ->
             exists s', iter n (lo + Z.of_nat k0) body s = Done s'
                        /\ P (length vs) s').
  { induction n as [|n IH]; intros k0 s Hn HP.
    - exists s. cbn. rewrite Nat.add_0_r in Hn. subst k0. auto.
    - destruct (lookup_lt_is_Some_2 vs k0) as [v Hv]; [lia|].
      destruct (Hbody k0 v s Hv HP) as (s1 & E1 & HP1).
      cbn [iter]. rewrite E1. cbn [mbind outcome_mbind outcome_bind].
      destruct (IH (S k0) s1) as (s' & E' & HP'); [lia | exact HP1 |].
      exists s'. split; [|exact HP'].
      replace (lo + Z.of_nat k0 + 1) with (lo + Z.of_nat (S k0)) by lia.
      exact E'. }
  intros s HP. destruct (H (length vs) 0%nat s) as (s' & E & HP'); [lia | exact HP |].
  exists s'. rewrite Z.add_0_r in E. auto.
Qed.

(** Writing the next element behind the ones already copied. *)
Lemma insert_next (pre post : list cell) (src : list Z) (k : nat) (v : Z) :
  src !! k = Some v -> (k < length post)%nat ->
  <[(length pre + k)%nat := Some v]>
    (pre ++ map Some (take k src) ++ drop k post)
  = pre ++ map Some (take (S k) src) ++ drop (S k) post.
Proof.
  intros Hv Hk. pose proof (lookup_lt_Some _ _ _ Hv) as Hlt.
  rewrite insert_app_r.
  replace k with (length (map Some (take k src)) + 0)%nat at 1
    by (rewrite length_map, length_take; lia).
  rewrite insert_app_r.
  destruct (drop k post) as [|c rest] eqn:E.
  { apply (f_equal length) in E. rewrite length_drop in E. cbn in E. lia. }
  cbn [insert list_insert].
  rewrite (take_S_r _ _ _ Hv), map_app. cbn [map]. rewrite <- app_assoc. cbn [app].
  do 3 f_equal.
  replace (S k) with (k + 1)%nat by lia.
  rewrite <- (drop_drop post 1 k). rewrite E. reflexivity.
Qed.

Lemma length_copied (pre post : list cell) (src : list Z) (k : nat) :
  (k <= length src)%nat -> (k <= length post)%nat ->
  length (pre ++ map Some (take k src) ++ drop k post)
  = (length pre + length post)%nat.
Proof.
  intros. rewrite !length_app, length_map, length_take, length_drop.
  rewrite Nat.min_l by assumption. unfold cell in *. lia.
Qed.

(** [memcpy] of all the elements of an array into a block that has room
    for them behind the cells [pre]. *)
Lemma memcpy_elements (pre post : list cell) (src : list Z) (bytes : Z) :
  cells_in bytes = length src ->
  (length src <= length post)%nat ->
  memcpy (Live (pre ++ post)) (Z.of_nat (length pre)) (Live (map Some src)) bytes
  = Done (Live (pre ++ map Some src ++ drop (length src) post)).
Proof.
  intros Hb Hroom. unfold memcpy. rewrite for_loop_iter, Z.sub_0_r, Nat2Z.id, Hb.
  pose proof (iter_inv
                (fun i dst => c ← load (Live (map Some src)) i;
                              store dst (Z.of_nat (length pre) + i) c)
                (fun k p => p = Live (pre ++ map Some (take k src) ++ drop k post))
                src 0) as Hloop.
  destruct (Hloop) with (s := Live (pre ++ post)) as (p & E & HP).
  - intros k v p Hv ->. pose proof (lookup_lt_Some _ _ _ Hv) as Hlt.
    rewrite Z.add_0_l, (load_elements _ _ _ Hv).
    cbn [mbind outcome_mbind outcome_bind]. unfold store.
    rewrite length_copied by lia.
    destruct (Z.ltb_spec (Z.of_nat (length pre) + Z.of_nat k) 0); [lia|].
    destruct (Z.leb_spec (Z.of_nat (length pre + length post))
                (Z.of_nat (length pre) + Z.of_nat k)); [lia|].
    cbn [orb]. eexists; split; [reflexivity|].
    replace (Z.to_nat (Z.of_nat (length pre) + Z.of_nat k))
      with (length pre + k)%nat by lia.
    now rewrite insert_next by (assumption || lia).
  - cbn [take map app]. now rewrite drop_0.
  - rewrite E, HP, firstn_all. reflexivity.
Qed.

(** The copying loop of [splice_array]: the block of slot [dest] holds
    the elements [vd] and room for [count] more; every read of the source
    finds the element of [sl] that is due. *)
Lemma splice_loop (tbl : list Array) (dest src offset : Z) (vd sl : list Z)
  (post : list cell) :
  0 <= dest < Z.of_nat (length tbl) ->
  Z.of_nat (length vd) + Z.of_nat (length sl) < 2 ^ 64 ->
  length post = length sl ->
  (forall (k : nat) (v : Z) (cells : list cell),
      sl !! k = Some v ->
      read src (offset + Z.of_nat k)
        (put tbl dest (mkArray (Live (map Some vd ++ cells))
                         (Z.of_nat (length vd)) true))
      = Done (Some v)) ->
  for_loop 0 (Z.of_nat (length sl))
    (fun i t => c ← read src (offset + i) t;
                write dest (CInt.to_size_t (Z.of_nat (length vd) + i)) c t)
    (put tbl dest (mkArray (Live (map Some vd ++ post)) (Z.of_nat (length vd)) true))
  = Done (put tbl dest (mkArray (Live (map Some (vd ++ sl)))
                          (Z.of_nat (length vd)) true)).
Proof.
  intros Hd Hsmall Hpost Hread.
  rewrite for_loop_iter, Z.sub_0_r, Nat2Z.id.
  pose proof (iter_inv
                (fun i t => c ← read src (offset + i) t;
                            write dest (CInt.to_size_t (Z.of_nat (length vd) + i)) c t)
                (fun k t => t = put tbl dest
                                  (mkArray (Live (map Some vd ++ map Some (take k sl)
                                                  ++ drop k post))
                                     (Z.of_nat (length vd)) true))
                sl 0) as Hloop.
  destruct (Hloop)
    with (s := put tbl dest (mkArray (Live (map Some vd ++ post))
                               (Z.of_nat (length vd)) true))
    as (t & E & HP).
  - intros k v t Hv ->. pose proof (lookup_lt_Some _ _ _ Hv) as Hlt.
    rewrite Z.add_0_l, (Hread _ _ _ Hv).
    cbn [mbind outcome_mbind outcome_bind]. unfold write.
    rewrite get_put_eq by exact Hd.
    cbn [mbind outcome_mbind outcome_bind data]. unfold store.
    rewrite length_copied by lia. rewrite length_map.
    unfold CInt.to_size_t. rewrite Z.mod_small by lia.
    destruct (Z.ltb_spec (Z.of_nat (length vd) + Z.of_nat k) 0); [lia|].
    destruct (Z.leb_spec (Z.of_nat (length vd + length post))
                (Z.of_nat (length vd) + Z.of_nat k)); [lia|].
    cbn [orb mbind outcome_mbind outcome_bind]. eexists; split; [reflexivity|].
    rewrite put_put. unfold set_data. cbn [size allocated]. do 3 f_equal.
    replace (Z.to_nat (Z.of_nat (length vd) + Z.of_nat k))
      with (length (map Some vd) + k)%nat by (rewrite length_map; lia).
    now rewrite insert_next by (assumption || lia).
  - cbn [take map app]. now rewrite drop_0.
  - rewrite E, HP, firstn_all, <- Hpost, drop_all, app_nil_r, map_app. reflexivity.
Qed.

End SliceFacts.

(** * bug6.c: what the operations do to the arrays they accept *)

Module Bug6More.

Import Libc Mem Text Slots LoopFacts MemFacts PristineFacts SliceFacts Bug6 Bug6Facts.
Local Open Scope string_scope.
Local Open Scope Z_scope.

Lemma holds_range (tbl : list Array) (idx : Z) (vs : list Z) :
  holds tbl idx vs -> 0 <= idx < Z.of_nat (length tbl).
Proof.
  unfold holds. intros H. apply get_Done in H as [H0 H].
  apply lookup_lt_Some in H. lia.
Qed.

Lemma holds_inj (tbl : list Array) (idx : Z) (vs ws : list Z) :
  holds tbl idx vs -> holds tbl idx ws -> vs = ws.
Proof.
  unfold holds, array_of. intros H1 H2. rewrite H1 in H2.
  injection H2 as H _. clear H1. revert ws H.
  induction vs as [|v vs IH]; intros [|w ws] H; cbn in H; try discriminate.
  - reflexivity.
  - injection H as -> H. f_equal. now apply IH.
Qed.

Lemma long_arith_small (z : Z) :
  CInt.LONG_MIN <= z <= CInt.LONG_MAX -> long_arith z = Done z.
Proof.
  intros H. unfold long_arith, CInt.in_long.
  destruct (Z.leb_spec CInt.LONG_MIN z); [|lia].
  destruct (Z.leb_spec z CInt.LONG_MAX); [|lia]. reflexivity.
Qed.

Lemma to_long_id (z : Z) : - 2 ^ 63 <= z < 2 ^ 63 -> CInt.to_long z = z.
Proof. intros H. unfold CInt.to_long. rewrite Z.mod_small; lia. Qed.

Lemma to_size_t_id (z : Z) : 0 <= z < 2 ^ 64 -> CInt.to_size_t z = z.
Proof. intros H. unfold CInt.to_size_t. now rewrite Z.mod_small. Qed.

Lemma quot_mean_bound (t n : Z) :
  0 < n -> Z.abs t <= n * 2 ^ 31 -> n <= 2 ^ 31 ->
  CInt.LONG_MIN <= Z.quot t n <= CInt.LONG_MAX.
Proof.
  intros Hn Ht Hb.
  assert (H : Z.abs (Z.quot t n) <= Z.abs t).
  { rewrite <- Z.quot_abs by lia. rewrite (Z.abs_eq n) by lia.
    apply Z.quot_le_upper_bound; [lia | nia]. }
  unfold CInt.LONG_MIN, CInt.LONG_MAX. nia.
Qed.

(** The mean that [compute_stat] prints. *)
Lemma mean_of (vs : list Z) :
  vs <> [] ->
  Forall (fun v => CInt.INT_MIN <= v <= CInt.INT_MAX) vs ->
  Z.of_nat (length vs) <= 2 ^ 31 ->
  (sum ← for_loop 0 (Z.of_nat (length vs))
            (fun i sum => c ← load (Live (map Some vs)) i; v ← value c;
                          long_arith (sum + v)) 0;
   long_div sum (CInt.to_long (Z.of_nat (length vs))))
  = Done (Z.quot (total vs) (Z.of_nat (length vs))).
Proof.
  intros Hne Hvs Hn. rewrite sum_loop by assumption.
  cbn [mbind outcome_mbind outcome_bind].
  assert (Hlen : 0 < Z.of_nat (length vs)) by (destruct vs; [congruence | cbn; lia]).
  rewrite to_long_id by lia. unfold long_div.
  destruct (Z.eqb_spec (Z.of_nat (length vs)) 0); [lia|].
  apply long_arith_small, quot_mean_bound; [lia | now apply total_bound | lia].
Qed.

Lemma compute_stat_holds (idx : Z) (vs : list Z) (st : state) :
  holds (arrays st) idx vs ->
  Forall (fun v => CInt.INT_MIN <= v <= CInt.INT_MAX) vs ->
  Z.of_nat (length vs) <= 2 ^ 31 ->
  compute_stat idx st
  = match vs with
    | [] => Done st
    | _ => Done (print st ("Average: "
                           ++ fmt_d (Z.quot (total vs) (Z.of_nat (length vs)))
                           ++ String "010" ""))
    end.
Proof.
  intros Hh Hvs Hn. pose proof (holds_range _ _ _ Hh) as Hr.
  unfold compute_stat, array_count, slot.
  destruct (Z.leb_spec (Z.of_nat (length (arrays st))) idx); [lia|].
  rewrite Hh. cbn [mbind outcome_mbind outcome_bind array_of allocated size data negb].
  destruct vs as [|v vs']; [reflexivity|].
  destruct (Z.eqb_spec (Z.of_nat (length (v :: vs'))) 0) as [E|_];
    [cbn [length] in E; lia|].
  pose proof (mean_of (v :: vs') ltac:(discriminate) Hvs Hn) as Hm.
  destruct (for_loop 0 _ _ 0) as [sum|f]; cbn [mbind outcome_mbind outcome_bind] in *;
    [|discriminate].
  rewrite Hm. reflexivity.
Qed.

Lemma print_array_holds (idx start end_ : Z) (vs : list Z) (st : state) :
  holds (arrays st) idx vs ->
  0 <= start <= end_ -> end_ < Z.of_nat (length vs) ->
  Z.of_nat (length vs) <= CInt.LONG_MAX ->
  print_array idx start end_ st
  = Done (print st (row (slice start (end_ + 1 - start) vs) ++ String "010" "")).
Proof.
  intros Hh Hse He Hn. pose proof (holds_range _ _ _ Hh) as Hr.
  unfold CInt.LONG_MAX in Hn.
  unfold print_array, array_count, slot.
  destruct (Z.leb_spec (Z.of_nat (length (arrays st))) idx); [lia|].
  rewrite Hh. cbn [mbind outcome_mbind outcome_bind array_of allocated size data negb].
  destruct (Z.ltb_spec start 0); [lia|].
  destruct (Z.ltb_spec end_ start); [lia|].
  rewrite to_size_t_id by lia.
  destruct (Z.leb_spec (Z.of_nat (length vs)) end_); [lia|]. cbn [orb].
  rewrite (print_loop _ _ vs) by assumption.
  cbn [mbind outcome_mbind outcome_bind].
  rewrite long_arith_small by (unfold CInt.LONG_MIN, CInt.LONG_MAX; lia).
  reflexivity.
Qed.

Lemma load_prefix (vd : list Z) (cells : list (option Z)) (k : nat) (v : Z) :
  vd !! k = Some v ->
  load (Live (map Some vd ++ cells)) (Z.of_nat k) = Done (Some v).
Proof.
  intros H. pose proof (lookup_lt_Some _ _ _ H) as Hk. unfold load.
  rewrite length_app, length_map.
  destruct (Z.ltb_spec (Z.of_nat k) 0); [lia|].
  destruct (Z.leb_spec (Z.of_nat (length vd + length cells)) (Z.of_nat k)) as [Hge|_];
    [lia|].
  cbn [orb]. rewrite Nat2Z.id, lookup_app_l by (rewrite length_map; lia).
  rewrite list_lookup_fmap, H. reflexivity.
Qed.

(** What a read of the source finds during the copying loop, whether or
    not the source is the destination itself. *)
Lemma splice_read (tbl : list Array) (dest src offset count : Z) (vd vs : list Z)
  (k : nat) (v : Z) (cells : list cell) :
  holds tbl dest vd -> holds tbl src vs -> 0 <= offset ->
  slice offset count vs !! k = Some v ->
  read src (offset + Z.of_nat k)
    (put tbl dest (mkArray (Live (map Some vd ++ cells)) (Z.of_nat (length vd)) true))
  = Done (Some v).
Proof.
  intros Hd Hs Ho Hk. pose proof (holds_range _ _ _ Hd) as Hrd.
  pose proof (holds_range _ _ _ Hs) as Hrs.
  apply lookup_slice in Hk; [|exact Ho].
  replace (offset + Z.of_nat k) with (Z.of_nat (Z.to_nat offset + k)) by lia.
  unfold read. destruct (Z.eq_dec dest src) as [->|Hne].
  - rewrite (holds_inj _ _ _ _ Hd Hs). rewrite get_put_eq by exact Hrs.
    cbn [mbind outcome_mbind outcome_bind data]. now apply load_prefix.
  - rewrite get_put_ne by lia. rewrite Hs.
    cbn [mbind outcome_mbind outcome_bind array_of data]. now apply load_elements.
Qed.

Lemma splice_array_holds (heap_ok : nat -> Z -> bool) (dest src offset count : Z)
  (vd vs : list Z) (st : state) :
  holds (arrays st) dest vd -> holds (arrays st) src vs ->
  0 <= offset -> 0 <= count -> offset + count <= Z.of_nat (length vs) ->
  0 < Z.of_nat (length vd) + count ->
  Z.of_nat (length vd) + count <= 2 ^ 61 -> Z.of_nat (length vs) <= 2 ^ 61 ->
  heap_ok (clock st) ((Z.of_nat (length vd) + count) * CInt.sizeof_int) = true ->
  splice_array heap_ok dest src offset count st
  = Done (mkState (put (arrays st) dest (array_of (vd ++ slice offset count vs)))
            (S (clock st)) (stdout st)).
Proof.
  intros Hd Hs Ho Hc Hoc Hpos Hsmall Hsmall' Hheap.
  pose proof (holds_range _ _ _ Hd) as Hrd.
  pose proof (holds_range _ _ _ Hs) as Hrs.
  pose proof (length_slice offset count vs Ho Hc Hoc) as Hsl.
  unfold splice_array, array_count, slot.
  destruct (Z.leb_spec (Z.of_nat (length (arrays st))) dest); [lia|].
  destruct (Z.leb_spec (Z.of_nat (length (arrays st))) src); [lia|]. cbn [orb].
  rewrite Hd, Hs.
  cbn [mbind outcome_mbind outcome_bind array_of allocated size data negb orb].
  destruct (Z.ltb_spec offset 0); [lia|]. destruct (Z.ltb_spec count 0); [lia|].
  cbn [orb].
  rewrite long_arith_small by (unfold CInt.LONG_MIN, CInt.LONG_MAX; lia).
  cbn [mbind outcome_mbind outcome_bind].
  rewrite to_long_id by lia.
  destruct (Z.ltb_spec (Z.of_nat (length vs)) (offset + count)); [lia|].
  rewrite (to_size_t_id (Z.of_nat (length vd) + count)) by lia.
  destruct (Z.ltb_spec (Z.of_nat (length vd) + count) (Z.of_nat (length vd))); [lia|].
  rewrite (to_size_t_id ((Z.of_nat (length vd) + count) * CInt.sizeof_int))
    by (unfold CInt.sizeof_int; lia).
  unfold realloc_releases.
  destruct (Z.eqb_spec ((Z.of_nat (length vd) + count) * CInt.sizeof_int) 0)
    as [E0|_]; [unfold CInt.sizeof_int in E0; lia|]. cbn [andb].
  cbn [tick clock]. rewrite Hheap. cbn [negb].
  unfold regrow. cbn [mbind outcome_mbind outcome_bind].
  rewrite cells_in_mul by lia.
  rewrite resize_ge by (rewrite length_map; lia). rewrite length_map.
  unfold set_slot, set_arrays, set_data.
  cbn [tick arrays clock stdout array_of size allocated].
  replace (Z.to_nat (Z.of_nat (length vd) + count) - length vd)%nat
    with (Z.to_nat count) by lia.
  pose proof (splice_loop (arrays st) dest src offset vd (slice offset count vs)
                (replicate (Z.to_nat count) None) Hrd) as Hloop.
  rewrite Hsl, Z2Nat.id in Hloop by lia. rewrite Hloop.
  - cbn [mbind outcome_mbind outcome_bind]. rewrite get_put_eq by exact Hrd.
    cbn [mbind outcome_mbind outcome_bind]. rewrite put_put.
    unfold set_size, array_of. cbn [data allocated].
    rewrite length_app, Hsl. do 4 f_equal. lia.
  - lia.
  - now rewrite length_replicate.
  - intros k v cells Hk. eapply splice_read; eassumption.
Qed.




(** [memcpy] from a block that was given back. *)
Lemma memcpy_freed (dst : pointer) (at_ bytes : Z) :
  (0 < cells_in bytes)%nat -> memcpy dst at_ Freed bytes = Crash UseAfterFree.
Proof.
  intros H. unfold memcpy. rewrite for_loop_iter, Z.sub_0_r, Nat2Z.id.
  destruct (cells_in bytes); [lia | reflexivity].
Qed.

Lemma join_arrays_onto_source (heap_ok : nat -> Z -> bool) (new_idx idx1 idx2 : Z)
  (v1 v2 : list Z) (st : state) :
  holds (arrays st) idx1 v1 -> holds (arrays st) idx2 v2 ->
  new_idx = idx1 \/ new_idx = idx2 ->
  v1 <> [] -> v2 <> [] ->
  Z.of_nat (length v1) + Z.of_nat (length v2) <= 2 ^ 61 ->
  heap_ok (clock st)
    ((Z.of_nat (length v1) + Z.of_nat (length v2)) * CInt.sizeof_int) = true ->
  join_arrays heap_ok new_idx idx1 idx2 st = Crash UseAfterFree.
Proof.
  intros H1 H2 Hnew Hv1 Hv2 Hsmall Hheap.
  pose proof (holds_range _ _ _ H1) as Hr1.
  pose proof (holds_range _ _ _ H2) as Hr2.
  assert (Hl1 : (0 < length v1)%nat) by (destruct v1; [congruence | cbn; lia]).
  assert (Hl2 : (0 < length v2)%nat) by (destruct v2; [congruence | cbn; lia]).
  assert (Hr : 0 <= new_idx < Z.of_nat (length (arrays st))) by (destruct Hnew; lia).
  assert (Hn : exists vn, holds (arrays st) new_idx vn)
    by (destruct Hnew as [->| ->]; eauto).
  destruct Hn as [vn Hn].
  unfold join_arrays, ensure_capacity, array_count, slot.
  destruct (Z.leb_spec (Z.of_nat (length (arrays st))) idx1); [lia|].
  destruct (Z.leb_spec (Z.of_nat (length (arrays st))) idx2); [lia|]. cbn [orb].
  rewrite H1, H2.
  cbn [mbind outcome_mbind outcome_bind array_of allocated size data negb orb].
  rewrite (to_size_t_id (Z.of_nat (length v1) + Z.of_nat (length v2))) by lia.
  destruct (Z.ltb_spec (Z.of_nat (length v1) + Z.of_nat (length v2))
              (Z.of_nat (length v1))); [lia|].
  destruct (Z.ltb_spec (Z.of_nat (length v1) + Z.of_nat (length v2))
              (Z.of_nat (length v2))); [lia|]. cbn [orb].
  destruct (Z.leb_spec (Z.of_nat (length (arrays st))) new_idx); [lia|].
  cbn [mbind outcome_mbind outcome_bind].
  destruct (Z.leb_spec (Z.of_nat (length (arrays st))) new_idx); [lia|].
  rewrite Hn.
  cbn [mbind outcome_mbind outcome_bind array_of allocated data c_free].
  unfold set_slot, set_arrays, set_data.
  cbn [arrays clock stdout tick array_of size allocated].
  rewrite (to_size_t_id ((Z.of_nat (length v1) + Z.of_nat (length v2))
                         * CInt.sizeof_int)) by (unfold CInt.sizeof_int; lia).
  rewrite Hheap. cbn [negb].
  destruct (Z.eq_dec new_idx idx1) as [E1|E1].
  - subst new_idx. pose proof (holds_inj _ _ _ _ Hn H1). subst vn.
    rewrite get_put_eq by lia.
    cbn [mbind outcome_mbind outcome_bind data size].
    rewrite (to_size_t_id (Z.of_nat (length v1) * CInt.sizeof_int))
      by (unfold CInt.sizeof_int; lia).
    rewrite memcpy_freed by (rewrite cells_in_mul by lia; lia). reflexivity.
  - assert (E2 : new_idx = idx2) by (destruct Hnew; congruence). subst new_idx.
    pose proof (holds_inj _ _ _ _ Hn H2). subst vn.
    rewrite (get_put_ne _ idx2 idx1) by lia. rewrite H1.
    cbn [mbind outcome_mbind outcome_bind array_of data size].
    rewrite (to_size_t_id (Z.of_nat (length v1) * CInt.sizeof_int))
      by (unfold CInt.sizeof_int; lia).
    pose proof (memcpy_elements [] (replicate (length v1 + length v2) None) v1
                  (Z.of_nat (length v1) * CInt.sizeof_int)) as Hm.
    cbn [length app] in Hm. change (Z.of_nat 0) with 0 in Hm.
    unfold fresh. rewrite cells_in_mul by lia.
    replace (Z.to_nat (Z.of_nat (length v1) + Z.of_nat (length v2)))
      with (length v1 + length v2)%nat by lia.
    unfold cell in *.
    rewrite Hm; [|rewrite cells_in_mul by lia; lia | rewrite length_replicate; lia].
    cbn [mbind outcome_mbind outcome_bind]. rewrite get_put_eq by lia.
    cbn [mbind outcome_mbind outcome_bind data size].
    rewrite (to_size_t_id (Z.of_nat (length v2) * CInt.sizeof_int))
      by (unfold CInt.sizeof_int; lia).
    rewrite memcpy_freed by (rewrite cells_in_mul by lia; lia). reflexivity.
Qed.

(** ** Slots that a command does not name *)












Lemma free_array_holds (idx : Z) (vs : list Z) (st : state) :
  holds (arrays st) idx vs ->
  free_array idx st = Done (set_slot st idx unallocated)
  /\ free_array idx (set_slot st idx unallocated) = Done (set_slot st idx unallocated).
Proof.
  intros Hh. pose proof (holds_range _ _ _ Hh) as Hr.
  unfold free_array, array_count, slot, set_slot, set_arrays. cbn [arrays].
  rewrite length_put.
  destruct (Z.leb_spec (Z.of_nat (length (arrays st))) idx); [lia|].
  rewrite Hh, get_put_eq by lia. split; reflexivity.
Qed.

(** [realloc(p, 0)]: a splice that adds nothing to an array without
    elements gives the block back and keeps the pointer in the slot, where
    [free_array] finds it. *)
Lemma splice_array_nothing (heap_ok : nat -> Z -> bool) (dest src offset : Z)
  (vs : list Z) (st : state) :
  holds (arrays st) dest [] -> holds (arrays st) src vs ->
  0 <= offset <= Z.of_nat (length vs) -> Z.of_nat (length vs) <= 2 ^ 61 ->
  splice_array heap_ok dest src offset 0 st
  = Done (mkState (put (arrays st) dest (mkArray Freed 0 true))
            (S (clock st)) (stdout st))
  /\ free_array dest
       (mkState (put (arrays st) dest (mkArray Freed 0 true))
          (S (clock st)) (stdout st))
     = Crash UseAfterFree.
Proof.
  intros Hd Hs Ho Hsmall.
  pose proof (holds_range _ _ _ Hd) as Hrd.
  pose proof (holds_range _ _ _ Hs) as Hrs.
  split.
  - unfold splice_array, array_count, slot.
    destruct (Z.leb_spec (Z.of_nat (length (arrays st))) dest); [lia|].
    destruct (Z.leb_spec (Z.of_nat (length (arrays st))) src); [lia|]. cbn [orb].
    rewrite Hd, Hs.
    cbn [mbind outcome_mbind outcome_bind array_of allocated size data negb orb
         length map].
    destruct (Z.ltb_spec offset 0); [lia|]. cbn [orb Z.ltb Z.compare].
    rewrite long_arith_small by (unfold CInt.LONG_MIN, CInt.LONG_MAX; lia).
    cbn [mbind outcome_mbind outcome_bind].
    rewrite to_long_id by lia.
    destruct (Z.ltb_spec (Z.of_nat (length vs)) (offset + 0)); [lia|].
    reflexivity.
  - unfold free_array, array_count, slot. cbn [arrays].
    rewrite length_put.
    destruct (Z.leb_spec (Z.of_nat (length (arrays st))) dest); [lia|].
    rewrite get_put_eq by lia. reflexivity.
Qed.

End Bug6More.

(** * bug5.cpp: what the operations do to the arrays they accept *)

Module Bug5More.

Import Libc Mem Text Slots LoopFacts MemFacts PristineFacts SliceFacts Bug5.
Import Bug6More.
Local Open Scope string_scope.
Local Open Scope Z_scope.

Lemma compute_stat_holds5 (idx : Z) (vs : list Z) (st : state) :
  holds (arrays st) idx vs ->
  Forall (fun v => CInt.INT_MIN <= v <= CInt.INT_MAX) vs ->
  Z.of_nat (length vs) <= 2 ^ 31 ->
  compute_stat idx st
  = match vs with
    | [] => Done (cerr st ("compute_stat: array is empty" ++ nl))
    | _ => Done (cout st ("Average: "
                          ++ fmt_d (Z.quot (total vs) (Z.of_nat (length vs)))
                          ++ nl))
    end.
Proof.
  intros Hh Hvs Hn. pose proof (holds_range _ _ _ Hh) as Hr.
  unfold compute_stat, arrays_size, slot.
  destruct (Z.leb_spec (Z.of_nat (length (arrays st))) idx); [lia|].
  rewrite Hh. cbn [mbind outcome_mbind outcome_bind array_of allocated size data negb].
  destruct vs as [|v vs']; [reflexivity|].
  destruct (Z.eqb_spec (Z.of_nat (length (v :: vs'))) 0) as [E|_];
    [cbn [length] in E; lia|].
  pose proof (mean_of (v :: vs') ltac:(discriminate) Hvs Hn) as Hm.
  destruct (for_loop 0 _ _ 0) as [sum|f]; cbn [mbind outcome_mbind outcome_bind] in *;
    [|discriminate].
  rewrite Hm. reflexivity.
Qed.

Lemma print_array_holds5 (idx start end_ : Z) (vs : list Z) (st : state) :
  holds (arrays st) idx vs ->
  0 <= start <= end_ -> end_ < Z.of_nat (length vs) ->
  Z.of_nat (length vs) <= CInt.LONG_MAX ->
  print_array idx start end_ st
  = Done (cout st (row (slice start (end_ + 1 - start) vs) ++ nl)).
Proof.
  intros Hh Hse He Hn. pose proof (holds_range _ _ _ Hh) as Hr.
  unfold CInt.LONG_MAX in Hn.
  unfold print_array, arrays_size, slot.
  destruct (Z.leb_spec (Z.of_nat (length (arrays st))) idx); [lia|].
  rewrite Hh. cbn [mbind outcome_mbind outcome_bind array_of allocated size data negb].
  destruct (Z.ltb_spec start 0); [lia|].
  destruct (Z.ltb_spec end_ start); [lia|].
  rewrite to_size_t_id by lia.
  destruct (Z.leb_spec (Z.of_nat (length vs)) end_); [lia|]. cbn [orb].
  rewrite (print_loop _ _ vs) by assumption.
  cbn [mbind outcome_mbind outcome_bind].
  rewrite long_arith_small by (unfold CInt.LONG_MIN, CInt.LONG_MAX; lia).
  reflexivity.
Qed.

Lemma ensure_capacity_inside (heap_ok : nat -> Z -> bool) (idx : Z) (st : state) :
  idx < arrays_size st -> ensure_capacity heap_ok idx st = Done st.
Proof.
  intros H. unfold ensure_capacity.
  destruct (Z.leb_spec (arrays_size st) idx); [lia | reflexivity].
Qed.

Lemma splice_array_holds5 (heap_ok : nat -> Z -> bool) (dest src offset count : Z)
  (vd vs : list Z) (st : state) :
  holds (arrays st) dest vd -> holds (arrays st) src vs ->
  0 <= offset -> 0 <= count -> offset + count <= Z.of_nat (length vs) ->
  0 < Z.of_nat (length vd) + count ->
  Z.of_nat (length vd) + count <= 2 ^ 61 -> Z.of_nat (length vs) <= 2 ^ 61 ->
  heap_ok (clock st) ((Z.of_nat (length vd) + count) * CInt.sizeof_int) = true ->
  splice_array heap_ok dest src offset count st
  = Done (mkState (put (arrays st) dest (array_of (vd ++ slice offset count vs)))
            (S (clock st)) (stdout st) (stderr st)).
Proof.
  intros Hd Hs Ho Hc Hoc Hpos Hsmall Hsmall' Hheap.
  pose proof (holds_range _ _ _ Hd) as Hrd.
  pose proof (holds_range _ _ _ Hs) as Hrs.
  pose proof (length_slice offset count vs Ho Hc Hoc) as Hsl.
  unfold splice_array.
  rewrite !ensure_capacity_inside by (unfold arrays_size; lia).
  cbn [mbind outcome_mbind outcome_bind].
  rewrite !ensure_capacity_inside by (unfold arrays_size; lia).
  cbn [mbind outcome_mbind outcome_bind]. unfold slot.
  rewrite Hd. cbn [mbind outcome_mbind outcome_bind array_of allocated negb].
  rewrite Hs. cbn [mbind outcome_mbind outcome_bind array_of allocated size data negb].
  destruct (Z.ltb_spec offset 0); [lia|]. destruct (Z.ltb_spec count 0); [lia|].
  cbn [orb].
  rewrite (long_arith_small (offset + count))
    by (unfold CInt.LONG_MIN, CInt.LONG_MAX; lia).
  cbn [mbind outcome_mbind outcome_bind].
  rewrite !to_long_id by lia.
  destruct (Z.ltb_spec (Z.of_nat (length vs)) (offset + count)); [lia|].
  rewrite (long_arith_small (Z.of_nat (length vd) + count))
    by (unfold CInt.LONG_MIN, CInt.LONG_MAX; lia).
  cbn [mbind outcome_mbind outcome_bind].
  destruct (Z.ltb_spec (Z.of_nat (length vd) + count) 0); [lia|].
  rewrite (to_size_t_id (Z.of_nat (length vd) + count)) by lia.
  rewrite (to_size_t_id ((Z.of_nat (length vd) + count) * CInt.sizeof_int))
    by (unfold CInt.sizeof_int; lia).
  unfold realloc_releases.
  destruct (Z.eqb_spec ((Z.of_nat (length vd) + count) * CInt.sizeof_int) 0)
    as [E0|_]; [unfold CInt.sizeof_int in E0; lia|]. cbn [andb].
  rewrite Hheap. cbn [negb].
  unfold regrow. cbn [mbind outcome_mbind outcome_bind].
  rewrite cells_in_mul by lia.
  rewrite resize_ge by (rewrite length_map; lia). rewrite length_map.
  unfold set_slot, set_arrays, set_data.
  cbn [tick arrays clock stdout stderr array_of size allocated].
  replace (Z.to_nat (Z.of_nat (length vd) + count) - length vd)%nat
    with (Z.to_nat count) by lia.
  pose proof (splice_loop (arrays st) dest src offset vd (slice offset count vs)
                (replicate (Z.to_nat count) None) Hrd) as Hloop.
  rewrite Hsl, Z2Nat.id in Hloop by lia. rewrite Hloop.
  - cbn [mbind outcome_mbind outcome_bind]. rewrite get_put_eq by exact Hrd.
    cbn [mbind outcome_mbind outcome_bind]. rewrite put_put.
    unfold set_size, array_of. cbn [data allocated].
    rewrite length_app, Hsl. do 4 f_equal. lia.
  - lia.
  - now rewrite length_replicate.
  - intros k v cells Hk. eapply splice_read; eassumption.
Qed.


Lemma free_array_holds5 (idx : Z) (vs : list Z) (st : state) :
  holds (arrays st) idx vs ->
  free_array idx st = Done (set_slot st idx unallocated)
  /\ free_array idx (set_slot st idx unallocated)
     = Done (cerr (set_slot st idx unallocated)
               ("free_array: array not allocated or invalid index" ++ nl)).
Proof.
  intros Hh. pose proof (holds_range _ _ _ Hh) as Hr.
  unfold free_array, arrays_size, slot, set_slot, set_arrays. cbn [arrays].
  rewrite length_put.
  destruct (Z.leb_spec (Z.of_nat (length (arrays st))) idx); [lia|].
  rewrite Hh, get_put_eq by lia. split; reflexivity.
Qed.

Lemma get_replicate (n : nat) (j : Z) :
  0 <= j < Z.of_nat n -> get (replicate n unallocated) j = Done unallocated.
Proof.
  intros H. apply get_Done. split; [lia|]. apply lookup_replicate_2. lia.
Qed.

Lemma resize_replicate_unallocated (n m : nat) :
  (m <= n)%nat ->
  resize n unallocated (replicate m unallocated) = replicate n unallocated.
Proof.
  intros H. rewrite resize_ge by (rewrite length_replicate; lia).
  rewrite length_replicate, <- replicate_add. f_equal. lia.
Qed.

(** [ensure_capacity] on an index whose successor wraps to 0. *)
Lemma ensure_capacity_wraps (heap_ok : nat -> Z -> bool) (st : state) :
  arrays_size st <= CInt.SIZE_MAX ->
  ensure_capacity heap_ok CInt.SIZE_MAX st = Done (set_arrays st []).
Proof.
  intros H. unfold ensure_capacity.
  destruct (Z.leb_spec (arrays_size st) CInt.SIZE_MAX); [|lia].
  change (CInt.to_size_t (CInt.SIZE_MAX + 1)) with 0.
  unfold vector_resize. change (max_size <? 0) with false. cbv iota.
  destruct (Z.leb_spec 0 (arrays_size st)); [|unfold arrays_size in *; lia].
  reflexivity.
Qed.

Lemma ensure_capacity_grows (heap_ok : nat -> Z -> bool) (idx : Z) (m : nat)
  (st : state) :
  (forall n b, heap_ok n b = true) ->
  0 <= idx < max_size ->
  arrays st = replicate m unallocated ->
  exists st',
    ensure_capacity heap_ok idx st = Done st'
    /\ arrays st' = replicate (Nat.max m (Z.to_nat (idx + 1))) unallocated
    /\ stdout st' = stdout st /\ stderr st' = stderr st.
Proof.
  intros Hheap Hidx Hst. unfold ensure_capacity, arrays_size. rewrite Hst.
  rewrite length_replicate. unfold max_size in Hidx.
  assert (Hmax : CInt.LONG_MAX / sizeof_ArrayInfo = 384307168202282325) by reflexivity.
  rewrite Hmax in Hidx.
  destruct (Z.leb_spec (Z.of_nat m) idx) as [Hfull|Hroom].
  - rewrite to_size_t_id by lia. unfold vector_resize, max_size, arrays_size.
    rewrite Hmax, Hst, length_replicate.
    destruct (Z.ltb_spec 384307168202282325 (idx + 1)); [lia|].
    destruct (Z.leb_spec (idx + 1) (Z.of_nat m)); [lia|].
    rewrite Hheap. cbn [negb]. eexists. split; [reflexivity|].
    cbn [set_arrays tick arrays stdout stderr]. rewrite Hst.
    rewrite resize_replicate_unallocated by lia.
    repeat split. f_equal. lia.
  - exists st. repeat split. rewrite Hst. f_equal. lia.
Qed.

Lemma join_arrays_at_size_max (heap_ok : nat -> Z -> bool) (idx1 idx2 : Z)
  (st : state) :
  (forall n b, heap_ok n b = true) ->
  0 <= idx1 < max_size -> 0 <= idx2 < max_size ->
  arrays_size st <= CInt.SIZE_MAX ->
  exists st',
    join_arrays heap_ok CInt.SIZE_MAX idx1 idx2 st = Done st'
    /\ arrays st' = replicate (Z.to_nat (Z.max idx1 idx2 + 1)) unallocated
    /\ stdout st' = stdout st
    /\ stderr st' = stderr st ++ "join_arrays: one or both arrays not allocated" ++ nl.
Proof.
  intros Hheap H1 H2 Hsize. unfold join_arrays.
  rewrite ensure_capacity_wraps by exact Hsize.
  cbn [mbind outcome_mbind outcome_bind].
  destruct (ensure_capacity_grows heap_ok idx1 0 (set_arrays st []) Hheap H1 eq_refl)
    as (st1 & E1 & A1 & O1 & R1).
  rewrite E1. cbn [mbind outcome_mbind outcome_bind].
  destruct (ensure_capacity_grows heap_ok idx2 _ st1 Hheap H2 A1)
    as (st2 & E2 & A2 & O2 & R2).
  rewrite E2. cbn [mbind outcome_mbind outcome_bind].
  unfold slot. rewrite A2, !get_replicate by lia.
  cbn [mbind outcome_mbind outcome_bind allocated unallocated negb].
  eexists. split; [reflexivity|]. cbn [cerr arrays stdout stderr].
  rewrite A2, O2, O1, R2, R1. cbn [set_arrays stdout stderr].
  repeat split. f_equal. lia.
Qed.

(** The same in bug5.cpp, which takes the NULL that [realloc(p, 0)]
    returns for a failure and says so. *)
Lemma splice_array_nothing5 (heap_ok : nat -> Z -> bool) (dest src offset : Z)
  (vs : list Z) (st : state) :
  holds (arrays st) dest [] -> holds (arrays st) src vs ->
  0 <= offset <= Z.of_nat (length vs) -> Z.of_nat (length vs) <= 2 ^ 61 ->
  splice_array heap_ok dest src offset 0 st
  = Done (mkState (put (arrays st) dest (mkArray Freed 0 true))
            (S (clock st)) (stdout st)
            (stderr st ++ "splice_array: realloc failed" ++ nl))
  /\ free_array dest
       (mkState (put (arrays st) dest (mkArray Freed 0 true))
          (S (clock st)) (stdout st)
          (stderr st ++ "splice_array: realloc failed" ++ nl))
     = Crash UseAfterFree.
Proof.
  intros Hd Hs Ho Hsmall.
  pose proof (holds_range _ _ _ Hd) as Hrd.
  pose proof (holds_range _ _ _ Hs) as Hrs.
  split.
  - unfold splice_array.
    rewrite !ensure_capacity_inside by (unfold arrays_size; lia).
    cbn [mbind outcome_mbind outcome_bind].
    rewrite !ensure_capacity_inside by (unfold arrays_size; lia).
    cbn [mbind outcome_mbind outcome_bind]. unfold slot.
    rewrite Hd. cbn [mbind outcome_mbind outcome_bind array_of allocated negb].
    rewrite Hs.
    cbn [mbind outcome_mbind outcome_bind array_of allocated size data negb
         length map].
    destruct (Z.ltb_spec offset 0); [lia|]. cbn [orb Z.ltb Z.compare].
    rewrite (long_arith_small (offset + 0))
      by (unfold CInt.LONG_MIN, CInt.LONG_MAX; lia).
    cbn [mbind outcome_mbind outcome_bind].
    rewrite !to_long_id by lia.
    destruct (Z.ltb_spec (Z.of_nat (length vs)) (offset + 0)); [lia|].
    reflexivity.
  - unfold free_array, arrays_size, slot. cbn [arrays].
    rewrite length_put.
    destruct (Z.leb_spec (Z.of_nat (length (arrays st))) dest); [lia|].
    rewrite get_put_eq by lia. reflexivity.
Qed.

End Bug5More.

(** * The slot tables of bug6.c and bug5.cpp: what each operation does *)

Section SlotOperations.

Import Libc Mem Text Slots Targets Samples2.
Local Open Scope string_scope.
Local Open Scope Z_scope.

(** X13 (bug6.c and bug5.cpp, [compute_stat]): for a slot that holds the
    [int] elements [vs], at most 2^31 of them, STAT prints the sum of the
    elements divided by their number, rounded towards zero; for an array
    without elements it does not divide: bug6.c prints nothing, bug5.cpp
    writes a message to [std::cerr]. *)
Theorem stat_prints_the_mean (idx : Z) (vs : list Z) (st6 : Bug6.state)
  (st5 : Bug5.state) :
  Forall (fun v => CInt.INT_MIN <= v <= CInt.INT_MAX) vs ->
  Z.of_nat (length vs) <= 2 ^ 31 ->
  (holds (Bug6.arrays st6) idx vs ->
   Bug6.compute_stat idx st6
   = match vs with
     | [] => Done st6
     | _ => Done (Bug6.print st6
                    ("Average: " ++ fmt_d (Z.quot (total vs) (Z.of_nat (length vs)))
                     ++ String "010" ""))
     end)
  /\ (holds (Bug5.arrays st5) idx vs ->
      Bug5.compute_stat idx st5
      = match vs with
        | [] => Done (Bug5.cerr st5 ("compute_stat: array is empty" ++ Bug5.nl))
        | _ => Done (Bug5.cout st5
                       ("Average: "
                        ++ fmt_d (Z.quot (total vs) (Z.of_nat (length vs)))
                        ++ Bug5.nl))
        end).
Proof.
  intros Hvs Hn. split; intros Hh.
  - now apply Bug6More.compute_stat_holds.
  - now apply Bug5More.compute_stat_holds5.
Qed.

Lemma stat_prints_the_mean_witness :
  Bug6.compute_stat 1 two6
  = Done (Bug6.print two6 ("Average: 4" ++ String "010" "")).
Proof.
  assert (Hvs : Forall (fun v => CInt.INT_MIN <= v <= CInt.INT_MAX) [4; 5])
    by (repeat constructor; vm_compute; discriminate).
  assert (Hn : Z.of_nat (length [4; 5]) <= 2 ^ 31) by (vm_compute; discriminate).
  assert (Hh : holds (Bug6.arrays two6) 1 [4; 5]) by reflexivity.
  exact (proj1 (stat_prints_the_mean 1 [4; 5] two6 two5 Hvs Hn) Hh).
Defined.

(** X14 (bug6.c and bug5.cpp, [print_array]): for a slot that holds the
    elements [vs] and a range [0 <= start <= end < length vs], PRINT
    writes exactly the elements [start .. end] in order, each followed by
    a blank, and a newline; the table is not changed. *)
Theorem print_writes_the_range (idx start end_ : Z) (vs : list Z)
  (st6 : Bug6.state) (st5 : Bug5.state) :
  0 <= start <= end_ -> end_ < Z.of_nat (length vs) ->
  Z.of_nat (length vs) <= CInt.LONG_MAX ->
  (holds (Bug6.arrays st6) idx vs ->
   Bug6.print_array idx start end_ st6
   = Done (Bug6.print st6
             (row (slice start (end_ + 1 - start) vs) ++ String "010" "")))
  /\ (holds (Bug5.arrays st5) idx vs ->
      Bug5.print_array idx start end_ st5
      = Done (Bug5.cout st5 (row (slice start (end_ + 1 - start) vs) ++ Bug5.nl))).
Proof.
  intros Hse He Hn. split; intros Hh.
  - now apply Bug6More.print_array_holds.
  - now apply Bug5More.print_array_holds5.
Qed.

Lemma print_writes_the_range_witness :
  Bug6.print_array 0 1 2 two6 = Done (Bug6.print two6 ("2 3 " ++ String "010" "")).
Proof.
  assert (Hse : 0 <= 1 <= 2) by lia.
  assert (He : 2 < Z.of_nat (length [1; 2; 3])) by (cbn; lia).
  assert (Hn : Z.of_nat (length [1; 2; 3]) <= CInt.LONG_MAX)
    by (vm_compute; discriminate).
  assert (Hh : holds (Bug6.arrays two6) 0 [1; 2; 3]) by reflexivity.
  exact (proj1 (print_writes_the_range 0 1 2 [1; 2; 3] two6 two5 Hse He Hn) Hh).
Defined.

(** X15 (bug6.c and bug5.cpp, [splice_array]): when the destination
    holds [vd], the source holds [vs], the range [offset, offset + count)
    lies inside the source, the result has at least one element (so that
    [realloc] is asked for more than 0 bytes) and the allocator grants
    the larger block, the destination afterwards holds [vd] followed by
    that range of the source; every other slot and the output are as
    before. The source may be the destination itself. *)
Theorem splice_appends_the_range (heap_ok : nat -> Z -> bool)
  (dest src offset count : Z) (vd vs : list Z) (st6 : Bug6.state)
  (st5 : Bug5.state) :
  0 <= offset -> 0 <= count -> offset + count <= Z.of_nat (length vs) ->
  0 < Z.of_nat (length vd) + count ->
  Z.of_nat (length vd) + count <= 2 ^ 61 -> Z.of_nat (length vs) <= 2 ^ 61 ->
  (holds (Bug6.arrays st6) dest vd -> holds (Bug6.arrays st6) src vs ->
   heap_ok (Bug6.clock st6) ((Z.of_nat (length vd) + count) * CInt.sizeof_int) = true ->
   Bug6.splice_array heap_ok dest src offset count st6
   = Done (Bug6.mkState
             (put (Bug6.arrays st6) dest (array_of (vd ++ slice offset count vs)))
             (S (Bug6.clock st6)) (Bug6.stdout st6)))
  /\ (holds (Bug5.arrays st5) dest vd -> holds (Bug5.arrays st5) src vs ->
      heap_ok (Bug5.clock st5) ((Z.of_nat (length vd) + count) * CInt.sizeof_int)
      = true ->
      Bug5.splice_array heap_ok dest src offset count st5
      = Done (Bug5.mkState
                (put (Bug5.arrays st5) dest (array_of (vd ++ slice offset count vs)))
                (S (Bug5.clock st5)) (Bug5.stdout st5) (Bug5.stderr st5))).
Proof.
  intros Ho Hc Hoc Hpos Hs1 Hs2. split; intros Hd Hs Hheap.
  - now apply Bug6More.splice_array_holds.
  - now apply Bug5More.splice_array_holds5.
Qed.

Lemma splice_appends_the_range_witness :
  Bug6.splice_array generous 1 0 1 2 two6
  = Done (Bug6.mkState (put (Bug6.arrays two6) 1 (array_of [4; 5; 2; 3])) 3 "").
Proof.
  assert (Ho : 0 <= 1) by lia.
  assert (Hc : 0 <= 2) by lia.
  assert (Hoc : 1 + 2 <= Z.of_nat (length [1; 2; 3])) by (cbn; lia).
  assert (Hpos : 0 < Z.of_nat (length [4; 5]) + 2) by (cbn; lia).
  assert (Hs1 : Z.of_nat (length [4; 5]) + 2 <= 2 ^ 61) by (cbn; lia).
  assert (Hs2 : Z.of_nat (length [1; 2; 3]) <= 2 ^ 61) by (cbn; lia).
  assert (Hd : holds (Bug6.arrays two6) 1 [4; 5]) by reflexivity.
  assert (Hs : holds (Bug6.arrays two6) 0 [1; 2; 3]) by reflexivity.
  assert (Hh : generous (Bug6.clock two6)
                 ((Z.of_nat (length [4; 5]) + 2) * CInt.sizeof_int) = true)
    by reflexivity.
  exact (proj1 (splice_appends_the_range generous 1 0 1 2 [4; 5] [1; 2; 3]
                  two6 two5 Ho Hc Hoc Hpos Hs1 Hs2) Hd Hs Hh).
Defined.

(** X31 (bug6.c and bug5.cpp, [splice_array] asking [realloc] for 0
    bytes): when the destination holds an array without elements and the
    count is 0, the C library the corpus is built with (glibc) releases
    the block and returns NULL, and the code takes that for a failed
    request: the slot still counts as allocated, with size 0 and the
    pointer to the released block (bug5.cpp also writes "splice_array:
    realloc failed" to [std::cerr]), and a following [free_array] of that
    slot releases the block a second time. *)
Theorem splice_of_nothing_releases_the_block (heap_ok : nat -> Z -> bool)
  (dest src offset : Z) (vs : list Z) (st6 : Bug6.state) (st5 : Bug5.state) :
  0 <= offset <= Z.of_nat (length vs) -> Z.of_nat (length vs) <= 2 ^ 61 ->
  (holds (Bug6.arrays st6) dest [] -> holds (Bug6.arrays st6) src vs ->
   Bug6.splice_array heap_ok dest src offset 0 st6
   = Done (Bug6.mkState (put (Bug6.arrays st6) dest (mkArray Freed 0 true))
             (S (Bug6.clock st6)) (Bug6.stdout st6))
   /\ Bug6.free_array dest
        (Bug6.mkState (put (Bug6.arrays st6) dest (mkArray Freed 0 true))
           (S (Bug6.clock st6)) (Bug6.stdout st6))
      = Crash UseAfterFree)
  /\ (holds (Bug5.arrays st5) dest [] -> holds (Bug5.arrays st5) src vs ->
      Bug5.splice_array heap_ok dest src offset 0 st5
      = Done (Bug5.mkState (put (Bug5.arrays st5) dest (mkArray Freed 0 true))
                (S (Bug5.clock st5)) (Bug5.stdout st5)
                (Bug5.stderr st5 ++ "splice_array: realloc failed" ++ Bug5.nl))
      /\ Bug5.free_array dest
           (Bug5.mkState (put (Bug5.arrays st5) dest (mkArray Freed 0 true))
              (S (Bug5.clock st5)) (Bug5.stdout st5)
              (Bug5.stderr st5 ++ "splice_array: realloc failed" ++ Bug5.nl))
         = Crash UseAfterFree).
Proof.
  intros Ho Hsmall. split; intros Hd Hs.
  - exact (Bug6More.splice_array_nothing heap_ok dest src offset vs st6
             Hd Hs Ho Hsmall).
  - exact (Bug5More.splice_array_nothing5 heap_ok dest src offset vs st5
             Hd Hs Ho Hsmall).
Qed.

Lemma splice_of_nothing_releases_the_block_witness :
  Bug6.run generous ["CREATE 0 0"; "SPLICE 0 0 0 0"; "FREE 0"] Bug6.initial
  = Crash UseAfterFree.
Proof.
  assert (Ho : 0 <= 0 <= Z.of_nat (length (@nil Z))) by (cbn; lia).
  assert (Hsmall : Z.of_nat (length (@nil Z)) <= 2 ^ 61) by (cbn; lia).
  assert (Hh : holds (put (replicate 16 unallocated) 0 (array_of [])) 0 [])
    by reflexivity.
  destruct (proj1 (splice_of_nothing_releases_the_block generous 0 0 0 []
                     (Bug6.mkState (put (replicate 16 unallocated) 0 (array_of []))
                        2 "")
                     two5 Ho Hsmall) Hh Hh) as [E1 E2].
  change (Bug6.run generous ["CREATE 0 0"; "SPLICE 0 0 0 0"; "FREE 0"] Bug6.initial)
    with (st ← Bug6.splice_array generous 0 0 0 0
                 (Bug6.mkState (put (replicate 16 unallocated) 0 (array_of []))
                    2 "");
          st' ← Bug6.free_array 0 st; Done st').
  rewrite E1. cbn [mbind outcome_mbind outcome_bind]. rewrite E2. reflexivity.
Defined.



(** X17 (bug6.c, [join_arrays]): when the slot for the result is one of
    the two sources, bug6.c releases that block before it copies from it:
    with non-empty sources and a granted allocation, [memcpy] reads the
    block that [free] has just released. C leaves that read undefined;
    the embedding records it as the fault [UseAfterFree]. *)
Theorem join_onto_a_source_reads_freed (heap_ok : nat -> Z -> bool)
  (new_idx idx1 idx2 : Z) (v1 v2 : list Z) (st : Bug6.state) :
  holds (Bug6.arrays st) idx1 v1 -> holds (Bug6.arrays st) idx2 v2 ->
  new_idx = idx1 \/ new_idx = idx2 ->
  v1 <> [] -> v2 <> [] ->
  Z.of_nat (length v1) + Z.of_nat (length v2) <= 2 ^ 61 ->
  heap_ok (Bug6.clock st)
    ((Z.of_nat (length v1) + Z.of_nat (length v2)) * CInt.sizeof_int) = true ->
  Bug6.join_arrays heap_ok new_idx idx1 idx2 st = Crash UseAfterFree.
Proof. apply Bug6More.join_arrays_onto_source. Qed.

Lemma join_onto_a_source_reads_freed_witness :
  Bug6.join_arrays generous 1 0 1 two6 = Crash UseAfterFree.
Proof.
  assert (H1 : holds (Bug6.arrays two6) 0 [1; 2; 3]) by reflexivity.
  assert (H2 : holds (Bug6.arrays two6) 1 [4; 5]) by reflexivity.
  assert (Hn : 1 = 0 \/ 1 = 1) by (right; reflexivity).
  assert (Hv1 : [1; 2; 3] <> []) by discriminate.
  assert (Hv2 : [4; 5] <> []) by discriminate.
  assert (Hsmall : Z.of_nat (length [1; 2; 3]) + Z.of_nat (length [4; 5]) <= 2 ^ 61)
    by (cbn; lia).
  assert (Hh : generous (Bug6.clock two6)
                 ((Z.of_nat (length [1; 2; 3]) + Z.of_nat (length [4; 5]))
                  * CInt.sizeof_int) = true) by reflexivity.
  exact (join_onto_a_source_reads_freed generous 1 0 1 [1; 2; 3] [4; 5] two6
           H1 H2 Hn Hv1 Hv2 Hsmall Hh).
Defined.

(** X18 (bug6.c and bug5.cpp, [free_array]): FREE of a slot that holds an
    array leaves the slot [{NULL, 0, false}]; a second FREE of the same
    slot finds it so and releases nothing: bug6.c does nothing at all,
    bug5.cpp only writes its message to [std::cerr]. *)
Theorem free_twice_releases_once (idx : Z) (vs : list Z) (st6 : Bug6.state)
  (st5 : Bug5.state) :
  (holds (Bug6.arrays st6) idx vs ->
   Bug6.free_array idx st6 = Done (Bug6.set_slot st6 idx unallocated)
   /\ Bug6.free_array idx (Bug6.set_slot st6 idx unallocated)
      = Done (Bug6.set_slot st6 idx unallocated))
  /\ (holds (Bug5.arrays st5) idx vs ->
      Bug5.free_array idx st5 = Done (Bug5.set_slot st5 idx unallocated)
      /\ Bug5.free_array idx (Bug5.set_slot st5 idx unallocated)
         = Done (Bug5.cerr (Bug5.set_slot st5 idx unallocated)
                   ("free_array: array not allocated or invalid index" ++ Bug5.nl))).
Proof.
  split; intros Hh.
  - now apply (Bug6More.free_array_holds idx vs).
  - now apply (Bug5More.free_array_holds5 idx vs).
Qed.

Lemma free_twice_releases_once_witness :
  Bug6.free_array 0 two6 = Done (Bug6.set_slot two6 0 unallocated)
  /\ Bug6.free_array 0 (Bug6.set_slot two6 0 unallocated)
     = Done (Bug6.set_slot two6 0 unallocated).
Proof.
  assert (Hh : holds (Bug6.arrays two6) 0 [1; 2; 3]) by reflexivity.
  exact (proj1 (free_twice_releases_once 0 [1; 2; 3] two6 two5) Hh).
Defined.



(** X20 (bug5.cpp, [ensure_capacity] in [join_arrays]): with [SIZE_MAX]
    as the index of the result, [idx + 1] wraps to 0 and
    [arrays.resize(0)] empties the vector; it is then grown again for the
    two source indices, whose slots are new and hold nothing. So the call
    returns with the message that the sources are not allocated, and
    every array there was before is gone from the table. *)
Theorem join_at_size_max_empties_the_vector (heap_ok : nat -> Z -> bool)
  (idx1 idx2 : Z) (st : Bug5.state) :
  (forall n b, heap_ok n b = true) ->
  0 <= idx1 < Bug5.max_size -> 0 <= idx2 < Bug5.max_size ->
  Bug5.arrays_size st <= CInt.SIZE_MAX ->
  exists st',
    Bug5.join_arrays heap_ok CInt.SIZE_MAX idx1 idx2 st = Done st'
    /\ Bug5.arrays st' = replicate (Z.to_nat (Z.max idx1 idx2 + 1)) unallocated
    /\ Bug5.stdout st' = Bug5.stdout st
    /\ Bug5.stderr st'
       = Bug5.stderr st ++ "join_arrays: one or both arrays not allocated" ++ Bug5.nl.
Proof. apply Bug5More.join_arrays_at_size_max. Qed.

Lemma join_at_size_max_empties_the_vector_witness :
  exists st',
    Bug5.process_line generous "JOIN_ARRAYS -1 0 1" two5 = Done st'
    /\ Bug5.arrays st' = [unallocated; unallocated].
Proof.
  assert (Hheap : forall (n : nat) (b : Z), generous n b = true) by reflexivity.
  assert (H1 : 0 <= 0 < Bug5.max_size) by (vm_compute; split; [discriminate | reflexivity]).
  assert (H2 : 0 <= 1 < Bug5.max_size) by (vm_compute; split; [discriminate | reflexivity]).
  assert (Hs : Bug5.arrays_size two5 <= CInt.SIZE_MAX) by (vm_compute; discriminate).
  destruct (join_at_size_max_empties_the_vector generous 0 1 two5 Hheap H1 H2 Hs)
    as (st' & E & A & _).
  exists st'. split; [exact E | exact A].
Defined.

End SlotOperations.

(** * bug7.c: the store as a list of pairs *)

Module Bug7Facts.

Import Libc Text Store Bug7.
Local Open Scope string_scope.
Local Open Scope list_scope.
Local Open Scope Z_scope.

Lemma pair_at_lookup (st : state) (i : nat) (p : kv) :
  pairs st !! i = Some p -> pair_at st (Z.of_nat i) = Done p.
Proof.
  intros H. pose proof (lookup_lt_Some _ _ _ H) as Hi.
  unfold pair_at, pair_capacity.
  destruct (Z.ltb_spec (Z.of_nat i) 0); [lia|].
  destruct (Z.leb_spec (Z.of_nat (length (pairs st))) (Z.of_nat i)); [lia|].
  cbn [orb]. now rewrite Nat2Z.id, H.
Qed.


Lemma lookup_entry (al : list (string * string)) (spare : nat) (i : nat)
  (p : string * string) :
  al !! i = Some p ->
  (map entry al ++ replicate spare blank) !! i = Some (entry p).
Proof.
  intros H. rewrite lookup_app_l by (rewrite length_map; now apply lookup_lt_Some in H).
  now rewrite list_lookup_fmap, H.
Qed.

Lemma lookup_blank (al : list (string * string)) (spare : nat) (i : nat) :
  (length al <= i < length al + spare)%nat ->
  (map entry al ++ replicate spare blank) !! i = Some blank.
Proof.
  intros H. rewrite lookup_app_r by (rewrite length_map; lia).
  rewrite length_map. apply lookup_replicate_2. lia.
Qed.














Lemma total_length_from (st : state) (spare : nat) (al' : list (string * string)) :
  forall (pre : list (string * string)) (acc : Z),
    pairs st = map entry (pre ++ al') ++ replicate spare blank ->
    0 <= acc -> acc + total (value_lengths al') <= CInt.LONG_MAX ->
    total_length (length al') (Z.of_nat (length pre)) acc st
    = Done (acc + total (value_lengths al')).
Proof.
  induction al' as [|p al' IH]; intros pre acc Hst Hacc Hb.
  - cbn. unfold total. cbn. now rewrite Z.add_0_r.
  - cbn [length total_length].
    assert (Hp : pairs st !! length pre = Some (entry p)).
    { rewrite Hst. apply lookup_entry. rewrite lookup_app_r by lia.
      now rewrite Nat.sub_diag. }
    rewrite (pair_at_lookup _ _ _ Hp).
    cbn [mbind outcome_mbind outcome_bind entry value].
    unfold value_lengths, total in *. cbn [map fold_right] in *.
    assert (Ht : 0 <= fold_right Z.add 0
                        (map (fun q : string * string => Z.of_nat (String.length q.2)) al')).
    { clear. induction al'; cbn; lia. }
    rewrite Bug6More.long_arith_small by (unfold CInt.LONG_MIN, CInt.LONG_MAX in *; lia).
    cbn [mbind outcome_mbind outcome_bind].
    specialize (IH (pre ++ [p])). rewrite <- app_assoc in IH.
    replace (Z.of_nat (length pre) + 1) with (Z.of_nat (length (pre ++ [p])))
      by (rewrite length_app; cbn; lia).
    rewrite IH by (assumption || lia). f_equal. lia.
Qed.

Lemma compute_stats_represents (al : list (string * string)) (st : state) :
  represents st al -> al <> [] ->
  total (value_lengths al) <= CInt.LONG_MAX ->
  Z.of_nat (length al) <= CInt.LONG_MAX ->
  compute_stats st
  = Done (print st ("Average length: "
                    ++ fmt_d (total (value_lengths al) / Z.of_nat (length al))
                    ++ String "010" "")%string).
Proof.
  intros (spare & Hp & Hc) Hne Hb Hn. unfold compute_stats. rewrite Hc.
  assert (Hlen : 0 < Z.of_nat (length al)) by (destruct al; [congruence | cbn; lia]).
  destruct (Z.eqb_spec (Z.of_nat (length al)) 0); [lia|].
  rewrite Nat2Z.id.
  assert (Ht0 : 0 <= total (value_lengths al)).
  { unfold total, value_lengths. clear. induction al; cbn; lia. }
  pose proof (total_length_from st spare al [] 0 Hp ltac:(lia) ltac:(lia)) as Hsum.
  change (Z.of_nat (length [])) with 0 in Hsum. rewrite Hsum.
  cbn [mbind outcome_mbind outcome_bind]. rewrite Z.add_0_l.
  unfold CInt.LONG_MAX in *.
  rewrite Bug6More.to_long_id by lia.
  assert (Ht : 0 <= total (value_lengths al)).
  { unfold total, value_lengths. clear. induction al; cbn; lia. }
  unfold long_div. destruct (Z.eqb_spec (Z.of_nat (length al)) 0); [lia|].
  rewrite Z.quot_div_nonneg by lia.
  assert (Hq : 0 <= total (value_lengths al) / Z.of_nat (length al)
               <= total (value_lengths al)).
  { split; [apply Z.div_pos; lia|]. apply Z.div_le_upper_bound; [lia|]. nia. }
  rewrite Bug6More.long_arith_small by (unfold CInt.LONG_MIN, CInt.LONG_MAX; lia).
  reflexivity.
Qed.

Lemma dump_from_listing (spare : nat) (al' : list (string * string)) :
  forall (pre : list (string * string)) (st : state),
    pairs st = map entry (pre ++ al') ++ replicate spare blank ->
    dump_from (length al') (Z.of_nat (length pre)) st
    = Done (print st (listing al')).
Proof.
  induction al' as [|p al' IH]; intros pre st Hst.
  - cbn. unfold print. rewrite TextFacts.append_nil_r. now destruct st.
  - cbn [length dump_from].
    assert (Hp : pairs st !! length pre = Some (entry p)).
    { rewrite Hst. apply lookup_entry. rewrite lookup_app_r by lia.
      now rewrite Nat.sub_diag. }
    rewrite (pair_at_lookup _ _ _ Hp).
    cbn [mbind outcome_mbind outcome_bind entry key value].
    specialize (IH (pre ++ [p])
                  (print st (p.1 ++ "=" ++ p.2 ++ String "010" "")%string)).
    rewrite <- app_assoc in IH.
    replace (Z.of_nat (length pre) + 1) with (Z.of_nat (length (pre ++ [p])))
      by (rewrite length_app; cbn; lia).
    rewrite IH by exact Hst. unfold print, listing. cbn [pairs pair_count clock stdout map].
    rewrite SliceFacts.concat_cons, TextFacts.append_assoc. reflexivity.
Qed.

Lemma dump_represents (al : list (string * string)) (st : state) :
  represents st al -> dump st = Done (print st (listing al)).
Proof.
  intros (spare & Hp & Hc). unfold dump. rewrite Hc, Nat2Z.id.
  exact (dump_from_listing spare al [] st Hp).
Qed.

(** ** The lines of the input file *)






End Bug7Facts.

Section ConfigurationStore.

Import Libc Text Store Bug7Facts.
Local Open Scope string_scope.
Local Open Scope Z_scope.







(** X24 (bug7.c, [dump]): on a store that holds the pairs [al], DUMP
    prints one line [key=value] for each pair, in the order of the store,
    and changes nothing else. *)
Theorem dump_line_lists_the_pairs (heap_ok : nat -> Z -> bool)
  (al : list (string * string)) (st : Bug7.state) :
  represents st al ->
  Bug7.process_line heap_ok (line "DUMP") st = Done (Bug7.print st (listing al)).
Proof.
  intros Hrep. rewrite <- (dump_represents al st Hrep). reflexivity.
Qed.

Lemma dump_line_lists_the_pairs_witness :
  Bug7.process_line Samples2.generous (line "DUMP") Samples2.store2
  = Done (Bug7.print Samples2.store2
            ("a=1" ++ String "010" "" ++ "b=22" ++ String "010" "")).
Proof.
  assert (Hrep : represents Samples2.store2 [("a", "1"); ("b", "22")])
    by (exists 2%nat; split; reflexivity).
  exact (dump_line_lists_the_pairs Samples2.generous [("a", "1"); ("b", "22")]
           Samples2.store2 Hrep).
Defined.

(** X25 (bug7.c, [compute_stats]): on a store that holds at least one
    pair, COMPUTE prints the sum of the lengths of the values divided by
    the number of pairs, rounded down. *)
Theorem compute_line_prints_mean_length (heap_ok : nat -> Z -> bool)
  (al : list (string * string)) (st : Bug7.state) :
  represents st al -> al <> [] ->
  total (value_lengths al) <= CInt.LONG_MAX ->
  Z.of_nat (length al) <= CInt.LONG_MAX ->
  Bug7.process_line heap_ok (line "COMPUTE") st
  = Done (Bug7.print st
            ("Average length: "
             ++ fmt_d (total (value_lengths al) / Z.of_nat (length al))
             ++ String "010" "")).
Proof.
  intros Hrep Hne Hb Hn. rewrite <- (compute_stats_represents al st Hrep Hne Hb Hn).
  reflexivity.
Qed.

Lemma compute_line_prints_mean_length_witness :
  Bug7.process_line Samples2.generous (line "COMPUTE") Samples2.store2
  = Done (Bug7.print Samples2.store2 ("Average length: 1" ++ String "010" "")).
Proof.
  assert (Hrep : represents Samples2.store2 [("a", "1"); ("b", "22")])
    by (exists 2%nat; split; reflexivity).
  assert (Hne : [("a", "1"); ("b", "22")] <> []) by discriminate.
  assert (Hb : total (value_lengths [("a", "1"); ("b", "22")]) <= CInt.LONG_MAX)
    by (vm_compute; discriminate).
  assert (Hn : Z.of_nat (length [("a", "1"); ("b", "22")]) <= CInt.LONG_MAX)
    by (vm_compute; discriminate).
  exact (compute_line_prints_mean_length Samples2.generous [("a", "1"); ("b", "22")]
           Samples2.store2 Hrep Hne Hb Hn).
Defined.

End ConfigurationStore.

(** * The binary files: what is written is what is read *)

Module FormatFacts.

Import Libc Bin Format TextFacts Bug1Facts.
Local Open Scope string_scope.
Local Open Scope Z_scope.

Lemma byte_val_byte (n : Z) : byte_val (byte n) = n mod 256.
Proof.
  unfold byte_val, byte.
  assert (0 <= n mod 256 < 256) by (apply Z.mod_pos_bound; lia).
  rewrite nat_ascii_embedding by lia. lia.
Qed.

Lemma le_value_le32 (n : Z) : 0 <= n < 2 ^ 32 -> le_value (le32 n) = n.
Proof.
  intros H. unfold le32. cbn [le_value]. rewrite !byte_val_byte.
  assert (n / 16777216 < 256) by (apply Z.div_lt_upper_bound; lia).
  assert (0 <= n / 16777216) by (apply Z.div_pos; lia).
  rewrite (Z.mod_small (n / 16777216)) by lia.
  pose proof (Z.div_mod n 256 ltac:(lia)).
  pose proof (Z.div_mod (n / 256) 256 ltac:(lia)).
  pose proof (Z.div_mod (n / 65536) 256 ltac:(lia)).
  replace (n / 65536) with (n / 256 / 256) in *
    by (rewrite Z.div_div by lia; reflexivity).
  replace (n / 16777216) with (n / 256 / 256 / 256) in *
    by (rewrite !Z.div_div by lia; reflexivity).
  lia.
Qed.

Lemma read_u32_le32 (n : Z) (rest : string) :
  0 <= n < 2 ^ 32 -> read_u32 (le32 n ++ rest) = (Some n, rest).
Proof.
  intros H. unfold read_u32.
  change 4 with (Z.of_nat (String.length (le32 n))) at 1.
  rewrite fread_exact.
  change (String.length (le32 n)) with 4%nat. cbn [Nat.eqb].
  now rewrite le_value_le32.
Qed.

Lemma fread_length (s : string) :
  forall n b r, fread n s = (b, r) -> (String.length b <= String.length s)%nat.
Proof.
  induction s as [|c s IH]; intros n b r; cbn.
  - intros [= <- <-]. cbn. lia.
  - destruct (n <=? 0).
    + intros [= <- <-]. cbn. lia.
    + destruct (fread (n - 1) s) as [b' r'] eqn:E. intros [= <- <-].
      cbn. apply IH in E. lia.
Qed.

Lemma read_u32_short (f : string) :
  (String.length f < 4)%nat -> (read_u32 f).1 = None.
Proof.
  intros H. unfold read_u32. destruct (fread 4 f) as [b r] eqn:E.
  apply fread_length in E. cbn.
  destruct (Nat.eqb_spec (String.length b) 4); [lia | reflexivity].
Qed.

Lemma insert_middle {A : Type} (stored : list A) (t x : A) (pending : list A) :
  <[length stored := x]> (stored ++ t :: pending)%list = (stored ++ x :: pending)%list.
Proof.
  induction stored as [|y stored IH]; [reflexivity|].
  exact (f_equal (cons y) IH).
Qed.

Lemma filled_exact (d : string) :
  filled (Z.of_nat (String.length d)) d = map Some (list_ascii_of_string d).
Proof.
  unfold filled. rewrite Nat2Z.id, Nat.sub_diag. cbn. apply app_nil_r.
Qed.

Lemma length_list_ascii (d : string) :
  length (list_ascii_of_string d) = String.length d.
Proof. induction d as [|c d IH]; cbn; [reflexivity | now rewrite IH]. Qed.

Lemma length_text (d : string) : length (text d) = String.length d.
Proof. unfold text. now rewrite length_map, length_list_ascii. Qed.

Lemma length_documents (ds : list string) :
  (length ds <= String.length (documents ds))%nat.
Proof.
  induction ds as [|d ds IH]; cbn [documents length]; [lia|].
  unfold document. rewrite !length_append.
  change (String.length (le32 _)) with 4%nat. lia.
Qed.

Lemma length_fields (fs : list string) :
  (length fs <= String.length (fields fs))%nat.
Proof.
  induction fs as [|d ds IH]; cbn [fields length]; [lia|].
  unfold document. rewrite !length_append.
  change (String.length (le32 _)) with 4%nat. lia.
Qed.

Lemma length_records (rs : list (list string)) :
  (length rs <= String.length (records rs))%nat.
Proof.
  induction rs as [|r rs IH]; cbn [records length]; [lia|].
  unfold record. rewrite !length_append.
  change (String.length (le32 _)) with 4%nat. lia.
Qed.

(** [fwrite] of the first bytes of a block that was read in full. *)
Lemma fwrite_prefix (d : string) (cap : Z) :
  0 <= cap ->
  fwrite (text d)
    (Z.to_nat (if Z.of_nat (String.length d) <? cap
               then Z.of_nat (String.length d) else cap))
  = Done (take (Z.to_nat cap) (text d)).
Proof.
  intros Hc. unfold fwrite. rewrite length_text.
  destruct (Z.ltb_spec (Z.of_nat (String.length d)) cap).
  - rewrite Nat2Z.id.
    destruct (Nat.ltb_spec (String.length d) (String.length d)); [lia|].
    rewrite !take_ge; [reflexivity | |]; rewrite length_text; lia.
  - destruct (Nat.ltb_spec (String.length d) (Z.to_nat cap)); [lia|].
    reflexivity.
Qed.

(** The sum of the lengths of fewer than [2^32] texts of fewer than
    [2^32] bytes each stays below [2^64]. *)
Lemma total_lengths_bound {A : Type} (size : A -> nat) (xs : list A) :
  Forall (fun x => Z.of_nat (size x) < 2 ^ 32) xs ->
  0 <= Text.total (map (fun x => Z.of_nat (size x)) xs)
    <= Z.of_nat (length xs) * (2 ^ 32 - 1).
Proof.
  induction 1 as [|x xs Hx _ IH]; cbn [map Text.total fold_right length].
  - lia.
  - unfold Text.total in IH. lia.
Qed.

End FormatFacts.

(** * bug8.c on the files its header describes *)

Module Bug8Facts.

Import Libc Bin Format TextFacts Bug1Facts FormatFacts Bug8.
Local Open Scope string_scope.
Local Open Scope Z_scope.

Lemma read_docs_documents (heap_ok : nat -> Z -> bool) (rest : string) :
  (forall c n, heap_ok c n = true) ->
  forall ds fuel stored pending clock,
    Forall (fun d => Z.of_nat (String.length d) < 2 ^ 32) ds ->
    (List.length ds <= fuel)%nat ->
    List.length pending = List.length ds ->
    read_docs heap_ok fuel (Z.of_nat (List.length stored))
      (Z.of_nat (List.length stored + List.length ds))
      (documents ds ++ rest) clock (stored ++ pending)
    = (stored ++ map stored_document ds)%list.
Proof.
  intros Hgrant ds.
  induction ds as [|d ds IH]; intros fuel stored pending clock Hlen Hfuel Htodo.
  - destruct pending; [|discriminate]. cbn [List.length] in *.
    rewrite Nat.add_0_r. destruct fuel; cbn [read_docs map].
    + reflexivity.
    + destruct (Z.leb_spec (Z.of_nat (List.length stored))
                  (Z.of_nat (List.length stored))); [reflexivity | lia].
  - destruct pending as [|t pending]; [discriminate|].
    destruct fuel as [|fuel]; [cbn in Hfuel; lia|].
    inversion Hlen as [|? ? Hd Hds]; subst.
    cbn [List.length] in *. cbn [read_docs documents].
    destruct (Z.leb_spec (Z.of_nat (List.length stored + S (List.length ds)))
                (Z.of_nat (List.length stored))); [lia|].
    unfold document. rewrite !append_assoc.
    rewrite read_u32_le32 by lia.
    rewrite Hgrant. cbn [negb andb].
    rewrite fread_exact, filled_exact, Nat2Z.id.
    rewrite insert_middle.
    replace (Z.of_nat (List.length stored) + 1)
      with (Z.of_nat (List.length (stored ++ [stored_document d])))
      by (rewrite length_app; cbn; lia).
    replace (Z.of_nat (List.length stored + S (List.length ds)))
      with (Z.of_nat (List.length (stored ++ [stored_document d])
                      + List.length ds))
      by (rewrite length_app; cbn; lia).
    replace (stored ++ mkDocument (Some (map Some (list_ascii_of_string d)))
                       (Z.of_nat (String.length d)) true :: pending)%list
      with ((stored ++ [stored_document d]) ++ pending)%list
      by (rewrite <- app_assoc; reflexivity).
    rewrite IH; [| assumption | lia | lia].
    rewrite <- app_assoc. reflexivity.
Qed.

Lemma read_file_documents (heap_ok : nat -> Z -> bool) (ds : list string)
  (rest : string) :
  (forall c n, heap_ok c n = true) ->
  Z.of_nat (List.length ds) < 2 ^ 32 ->
  Forall (fun d => Z.of_nat (String.length d) < 2 ^ 32) ds ->
  read_file heap_ok (document_file ds ++ rest) = Some (map stored_document ds).
Proof.
  intros Hgrant Hn Hlen. unfold read_file, document_file.
  rewrite append_assoc, read_u32_le32 by lia.
  rewrite Hgrant. cbn [negb andb]. f_equal.
  pose proof (read_docs_documents heap_ok rest Hgrant ds
                (S (String.length (documents ds ++ rest))) []
                (replicate (List.length ds) (mkDocument None 0 false)) 1 Hlen)
    as H.
  cbn [List.length Nat.add app] in H. rewrite Nat2Z.id.
  apply H.
  - pose proof (length_documents ds). rewrite length_append. lia.
  - apply length_replicate.
Qed.

Lemma totals_stored (ds : list string) :
  forall t c,
    0 <= t ->
    t + Text.total (map (fun d => Z.of_nat (String.length d)) ds) < 2 ^ 64 ->
    totals (map stored_document ds) t c
    = (t + Text.total (map (fun d => Z.of_nat (String.length d)) ds),
       c + Z.of_nat (List.length ds)).
Proof.
  induction ds as [|d ds IH]; intros t c Ht Hb;
    cbn [map totals Text.total fold_right List.length allocated length
         stored_document] in *.
  - f_equal; lia.
  - assert (0 <= Text.total (map (fun d => Z.of_nat (String.length d)) ds)).
    { clear. induction ds; cbn; [lia|]. unfold Text.total in *. lia. }
    unfold Text.total in *. unfold to_u64.
    rewrite Z.mod_small by lia. rewrite IH by lia. f_equal; lia.
Qed.

End Bug8Facts.

(** * bug10.c on the files its header describes *)

Module Bug10Facts.

Import Libc Bin Format TextFacts Bug1Facts FormatFacts Bug10.
Local Open Scope string_scope.
Local Open Scope Z_scope.

Lemma read_fields_fields (heap_ok : nat -> Z -> bool) (rest : string) :
  (forall c n, heap_ok c n = true) ->
  forall fs fuel stored pending clock,
    Forall (fun d => Z.of_nat (String.length d) < 2 ^ 32) fs ->
    (List.length fs <= fuel)%nat ->
    List.length pending = List.length fs ->
    read_fields heap_ok fuel (Z.of_nat (List.length stored))
      (Z.of_nat (List.length stored + List.length fs))
      (Format.fields fs ++ rest) clock (stored ++ pending)
    = ((stored ++ map stored_field fs)%list, true, rest,
       (clock + List.length fs)%nat).
Proof.
  intros Hgrant fs.
  induction fs as [|d ds IH]; intros fuel stored pending clock Hlen Hfuel Htodo.
  - destruct pending; [|discriminate]. cbn [List.length] in *.
    rewrite !Nat.add_0_r. destruct fuel; cbn [read_fields map Format.fields append].
    + reflexivity.
    + destruct (Z.leb_spec (Z.of_nat (List.length stored))
                  (Z.of_nat (List.length stored))); [reflexivity | lia].
  - destruct pending as [|t pending]; [discriminate|].
    destruct fuel as [|fuel]; [cbn in Hfuel; lia|].
    inversion Hlen as [|? ? Hd Hds]; subst.
    cbn [List.length] in *. cbn [read_fields Format.fields].
    destruct (Z.leb_spec (Z.of_nat (List.length stored + S (List.length ds)))
                (Z.of_nat (List.length stored))); [lia|].
    unfold document. rewrite !append_assoc.
    rewrite read_u32_le32 by lia.
    rewrite Hgrant. cbn [negb andb].
    rewrite fread_exact, filled_exact, Nat2Z.id.
    rewrite insert_middle.
    replace (Z.of_nat (List.length stored) + 1)
      with (Z.of_nat (List.length (stored ++ [stored_field d])))
      by (rewrite length_app; cbn; lia).
    replace (Z.of_nat (List.length stored + S (List.length ds)))
      with (Z.of_nat (List.length (stored ++ [stored_field d])
                      + List.length ds))
      by (rewrite length_app; cbn; lia).
    replace (stored ++ mkField (Some (map Some (list_ascii_of_string d)))
                       (Z.of_nat (String.length d)) true :: pending)%list
      with ((stored ++ [stored_field d]) ++ pending)%list
      by (rewrite <- app_assoc; reflexivity).
    rewrite IH; [| assumption | lia | lia].
    rewrite <- app_assoc, Nat.add_succ_r. reflexivity.
Qed.

Lemma read_records_records (heap_ok : nat -> Z -> bool) (rest : string) :
  (forall c n, heap_ok c n = true) ->
  forall rs fuel stored pending clock,
    Forall (fun r => Z.of_nat (List.length r) < 2 ^ 32
                     /\ Forall (fun d => Z.of_nat (String.length d) < 2 ^ 32) r)
      rs ->
    (List.length rs <= fuel)%nat ->
    List.length pending = List.length rs ->
    read_records heap_ok fuel (Z.of_nat (List.length stored))
      (Z.of_nat (List.length stored + List.length rs))
      (Format.records rs ++ rest) clock (stored ++ pending)
    = (stored ++ map stored_record rs)%list.
Proof.
  intros Hgrant rs.
  induction rs as [|r rs IH]; intros fuel stored pending clock Hlen Hfuel Htodo.
  - destruct pending; [|discriminate]. cbn [List.length] in *.
    rewrite Nat.add_0_r. destruct fuel; cbn [read_records map].
    + reflexivity.
    + destruct (Z.leb_spec (Z.of_nat (List.length stored))
                  (Z.of_nat (List.length stored))); [reflexivity | lia].
  - destruct pending as [|t pending]; [discriminate|].
    destruct fuel as [|fuel]; [cbn in Hfuel; lia|].
    inversion Hlen as [|? ? [Hr Hfs] Hrs]; subst.
    cbn [List.length] in *. cbn [read_records Format.records].
    destruct (Z.leb_spec (Z.of_nat (List.length stored + S (List.length rs)))
                (Z.of_nat (List.length stored))); [lia|].
    unfold record. rewrite !append_assoc.
    rewrite read_u32_le32 by lia.
    rewrite Hgrant. cbn [negb andb].
    pose proof (read_fields_fields heap_ok (Format.records rs ++ rest) Hgrant r
                  (S (String.length (Format.fields r ++ Format.records rs ++ rest))) []
                  (replicate (List.length r) (mkField None 0 false))
                  (S clock) Hfs) as Hf.
    cbn [List.length Nat.add app] in Hf. change (Z.of_nat 0) with 0 in Hf.
    rewrite Nat2Z.id. rewrite Hf.
    2:{ pose proof (length_fields r). rewrite length_append. lia. }
    2:{ apply length_replicate. }
    cbn [negb]. rewrite (Nat2Z.id (List.length stored)).
    rewrite insert_middle.
    replace (Z.of_nat (List.length stored) + 1)
      with (Z.of_nat (List.length (stored ++ [stored_record r])))
      by (rewrite length_app; cbn; lia).
    replace (Z.of_nat (List.length stored + S (List.length rs)))
      with (Z.of_nat (List.length (stored ++ [stored_record r])
                      + List.length rs))
      by (rewrite length_app; cbn; lia).
    replace (stored ++ mkRecord (Some (map stored_field r))
                       (Z.of_nat (List.length r)) true :: pending)%list
      with ((stored ++ [stored_record r]) ++ pending)%list
      by (rewrite <- app_assoc; reflexivity).
    rewrite IH; [| assumption | lia | lia].
    rewrite <- app_assoc. reflexivity.
Qed.

Lemma read_file_records (heap_ok : nat -> Z -> bool) (rs : list (list string))
  (rest : string) :
  (forall c n, heap_ok c n = true) ->
  Z.of_nat (List.length rs) < 2 ^ 32 ->
  Forall (fun r => Z.of_nat (List.length r) < 2 ^ 32
                   /\ Forall (fun d => Z.of_nat (String.length d) < 2 ^ 32) r)
    rs ->
  read_file heap_ok (record_file rs ++ rest) = Some (map stored_record rs).
Proof.
  intros Hgrant Hn Hlen. unfold read_file, record_file.
  rewrite append_assoc, read_u32_le32 by lia.
  rewrite Hgrant. cbn [negb andb]. f_equal.
  pose proof (read_records_records heap_ok rest Hgrant rs
                (S (String.length (Format.records rs ++ rest))) []
                (replicate (List.length rs) (mkRecord None 0 false)) 1 Hlen)
    as H.
  cbn [List.length Nat.add app] in H. rewrite Nat2Z.id.
  apply H.
  - pose proof (length_records rs). rewrite length_append. lia.
  - apply length_replicate.
Qed.

Lemma totals_stored_records (rs : list (list string)) :
  forall t c,
    0 <= t ->
    t + Text.total (map (fun r => Z.of_nat (List.length r)) rs) < 2 ^ 64 ->
    totals (map stored_record rs) t c
    = (t + Text.total (map (fun r => Z.of_nat (List.length r)) rs),
       c + Z.of_nat (List.length rs)).
Proof.
  induction rs as [|d ds IH]; intros t c Ht Hb;
    cbn [map totals Text.total fold_right List.length rec_allocated
         field_count stored_record] in *.
  - f_equal; lia.
  - assert (0 <= Text.total (map (fun r => Z.of_nat (List.length r)) ds)).
    { clear. induction ds; cbn; [lia|]. unfold Text.total in *. lia. }
    unfold Text.total in *. unfold to_u64.
    rewrite Z.mod_small by lia. rewrite IH by lia. f_equal; lia.
Qed.

Lemma first_with_field_stored (rs : list (list string)) :
  first_with_field (map stored_record rs)
  = match first_record rs with
    | Some r => Some (stored_record r)
    | None => None
    end.
Proof.
  induction rs as [|r rs IH]; cbn [map first_with_field first_record];
    [reflexivity|].
  cbn [stored_record rec_allocated field_count andb].
  destruct r as [|f r].
  - cbn. exact IH.
  - destruct (Z.ltb_spec 0 (Z.of_nat (List.length (f :: r))));
      [reflexivity | cbn in *; lia].
Qed.

End Bug10Facts.

Section BinaryFiles.

Import Libc Bin Format TextFacts FormatFacts.
Local Open Scope string_scope.
Local Open Scope Z_scope.

(** X26 (bug8.c, [main]): when every allocation is granted, a file that
    holds one or more documents in the layout of the header (their
    number, then each length and its bytes; fewer than 2^32 documents of
    fewer than 2^32 bytes each), followed by anything, is read back as
    exactly these documents, and the program prints the mean of their
    lengths (rounded down) and the first 100 bytes of the first one. *)
Theorem document_file_is_read_back (heap_ok : nat -> Z -> bool)
  (d : string) (ds : list string) (rest : string) :
  (forall c n, heap_ok c n = true) ->
  Z.of_nat (length (d :: ds)) < 2 ^ 32 ->
  Forall (fun x => Z.of_nat (String.length x) < 2 ^ 32) (d :: ds) ->
  Bug8.read_file heap_ok (document_file (d :: ds) ++ rest)
  = Some (map stored_document (d :: ds))
  /\ Bug8.main heap_ok (document_file (d :: ds) ++ rest)
     = Done (text ("Average length: "
                   ++ fmt_d (Text.total
                               (map (fun x => Z.of_nat (String.length x))
                                  (d :: ds))
                             / Z.of_nat (length (d :: ds)))
                   ++ String "010" "")
             ++ take 100 (text d) ++ text (String "010" ""))%list.
Proof.
  intros Hgrant Hn Hlen.
  pose proof (Bug8Facts.read_file_documents heap_ok (d :: ds) rest Hgrant Hn
                Hlen) as Hread.
  split; [exact Hread|].
  unfold Bug8.main. rewrite Hread. unfold Bug8.report.
  pose proof (total_lengths_bound String.length (d :: ds) Hlen) as Hb.
  rewrite Bug8Facts.totals_stored by (cbn [length] in *; lia).
  rewrite !Z.add_0_l.
  assert (Hpos : 0 < Z.of_nat (length (d :: ds))) by (cbn [length]; lia).
  destruct (Z.eqb_spec (Z.of_nat (length (d :: ds))) 0) as [E|_]; [lia|].
  unfold u64_div.
  destruct (Z.eqb_spec (Z.of_nat (length (d :: ds))) 0) as [E|_]; [lia|].
  cbn [mbind outcome_mbind outcome_bind].
  destruct (Z.ltb_spec 0 (Z.of_nat (length (d :: ds)))); [|lia].
  cbn [map Bug8.first_allocated stored_document Bug8.allocated Bug8.data
       Bug8.length].
  pose proof (fwrite_prefix d 100 ltac:(lia)) as Hw. unfold text in Hw at 1.
  rewrite Hw. reflexivity.
Qed.

Lemma document_file_is_read_back_witness :
  Bug8.main (fun _ _ => true) (document_file ["Hello"; "Hi!"])
  = Done (text ("Average length: 4" ++ String "010" "Hello"
                ++ String "010" "")).
Proof.
  pose proof (document_file_is_read_back (fun _ _ => true) "Hello" ["Hi!"] ""
                (fun _ _ => eq_refl)) as H.
  assert (Hn : Z.of_nat (length ["Hello"; "Hi!"]) < 2 ^ 32) by (cbn; lia).
  assert (Hl : Forall (fun x => Z.of_nat (String.length x) < 2 ^ 32)
                 ["Hello"; "Hi!"])
    by (repeat constructor; cbn; lia).
  destruct (H Hn Hl) as [_ Hmain].
  rewrite append_nil_r in Hmain. exact Hmain.
Defined.

(** X27 (bug10.c, [main]): when every allocation is granted, a file that
    holds one or more records in the layout of the header (their number,
    then for each record the number of its fields and each field as
    length and bytes; all counts and lengths below 2^32), followed by
    anything, is read back as exactly these records; the program prints
    the mean number of fields per record (rounded down) and, if some
    record has a field, the first 50 bytes of the first field of the
    first such record. *)
Theorem record_file_is_read_back (heap_ok : nat -> Z -> bool)
  (r : list string) (rs : list (list string)) (rest : string) :
  (forall c n, heap_ok c n = true) ->
  Z.of_nat (length (r :: rs)) < 2 ^ 32 ->
  Forall (fun r => Z.of_nat (length r) < 2 ^ 32
                   /\ Forall (fun x => Z.of_nat (String.length x) < 2 ^ 32) r)
    (r :: rs) ->
  Bug10.read_file heap_ok (record_file (r :: rs) ++ rest)
  = Some (map stored_record (r :: rs))
  /\ Bug10.main heap_ok (record_file (r :: rs) ++ rest)
     = Done (text ("Average fields per record: "
                   ++ fmt_d (Text.total
                               (map (fun r => Z.of_nat (length r)) (r :: rs))
                             / Z.of_nat (length (r :: rs)))
                   ++ String "010" "")
             ++ match first_record (r :: rs) with
                | Some (f :: _) => take 50 (text f) ++ text (String "010" "")
                | _ => []
                end)%list.
Proof.
  intros Hgrant Hn Hlen.
  pose proof (Bug10Facts.read_file_records heap_ok (r :: rs) rest Hgrant Hn
                Hlen) as Hread.
  split; [exact Hread|].
  unfold Bug10.main. rewrite Hread. unfold Bug10.report.
  assert (Hlen' : Forall (fun r : list string => Z.of_nat (length r) < 2 ^ 32)
                    (r :: rs)).
  { eapply Forall_impl; [exact Hlen|]. cbn. tauto. }
  pose proof (total_lengths_bound (@length string) (r :: rs) Hlen') as Hb.
  rewrite Bug10Facts.totals_stored_records by (cbn [length] in *; lia).
  rewrite !Z.add_0_l.
  assert (Hpos : 0 < Z.of_nat (length (r :: rs))) by (cbn [length]; lia).
  destruct (Z.eqb_spec (Z.of_nat (length (r :: rs))) 0) as [E|_]; [lia|].
  unfold u64_div.
  destruct (Z.eqb_spec (Z.of_nat (length (r :: rs))) 0) as [E|_]; [lia|].
  cbn [mbind outcome_mbind outcome_bind].
  destruct (Z.ltb_spec 0 (Z.of_nat (length (r :: rs)))); [|lia].
  rewrite Bug10Facts.first_with_field_stored.
  destruct (first_record (r :: rs)) as [[|f fs]|] eqn:Ef.
  - exfalso. clear -Ef. induction (r :: rs) as [|[|] l IH]; cbn in Ef;
      [discriminate | auto | discriminate].
  - cbn [stored_record Bug10.fields map stored_field Bug10.length Bug10.data].
    pose proof (fwrite_prefix f 50 ltac:(lia)) as Hw. unfold text in Hw at 1.
    rewrite Hw. reflexivity.
  - now rewrite app_nil_r.
Qed.

Lemma record_file_is_read_back_witness :
  Bug10.main (fun _ _ => true) (record_file [[]; ["ab"; "c"]; ["d"]])
  = Done (text ("Average fields per record: 1" ++ String "010" "ab"
                ++ String "010" "")).
Proof.
  pose proof (record_file_is_read_back (fun _ _ => true) []
                [["ab"; "c"]; ["d"]] "" (fun _ _ => eq_refl)) as H.
  assert (Hn : Z.of_nat (length ([[]; ["ab"; "c"]; ["d"]] : list (list string)))
               < 2 ^ 32) by (cbn; lia).
  assert (Hl : Forall
                 (fun r => Z.of_nat (length r) < 2 ^ 32
                           /\ Forall (fun x => Z.of_nat (String.length x)
                                               < 2 ^ 32) r)
                 ([[]; ["ab"; "c"]; ["d"]] : list (list string)))
    by (repeat constructor; cbn; lia).
  destruct (H Hn Hl) as [_ Hmain].
  rewrite append_nil_r in Hmain. exact Hmain.
Defined.

End BinaryFiles.

(** * bug9.c: the graph that the edge loop builds *)

Module Bug9Facts.

Import Libc Bin Mem Format Graphs TextFacts FormatFacts LoopFacts SliceFacts.
Import Bug9.
Local Open Scope string_scope.
Local Open Scope list_scope.
Local Open Scope Z_scope.

Lemma size_id (z : Z) : 0 <= z < 2 ^ 64 -> CInt.to_size_t z = z.
Proof. intros H. unfold CInt.to_size_t. now rewrite Z.mod_small. Qed.

Lemma alter_insert {A : Type} (f : A -> A) (l : list A) :
  forall i x, l !! i = Some x -> alter f i l = <[i := f x]> l.
Proof.
  induction l as [|y l IH]; intros [|i] x H; try discriminate.
  - injection H as ->. reflexivity.
  - cbn in H. cbn. f_equal. exact (IH i x H).
Qed.

Lemma node_lookup (nodes : list AdjList) (src : Z) (a : AdjList) :
  0 <= src -> nodes !! Z.to_nat src = Some a -> node (Some nodes) src = Done a.
Proof.
  intros Hs H. pose proof (lookup_lt_Some _ _ _ H) as Hlt. unfold node.
  destruct (Z.ltb_spec src 0); [lia|].
  destruct (Z.leb_spec (Z.of_nat (length nodes)) src); [lia|].
  cbn [orb]. now rewrite H.
Qed.

Lemma node_beyond (g : graph) (src : Z) :
  Z.of_nat (length (nodes_of g)) <= src -> exists t, node g src = Crash t.
Proof.
  intros H. destruct g as [nodes|]; [|now exists NullPointer].
  cbn [nodes_of] in H. unfold node.
  destruct (Z.leb_spec (Z.of_nat (length nodes)) src); [|lia].
  rewrite orb_true_r. now exists OutOfBounds.
Qed.

(** An edge whose source is not a node: [graphs[idx]] lies outside the
    block. *)
Lemma add_edge_invalid (heap_ok : nat -> Z -> bool) (g : graph)
  (src dst : Z) (clock : nat) :
  Z.of_nat (length (nodes_of g)) <= src ->
  exists t, add_edge heap_ok (Z.of_nat (length (nodes_of g))) src dst clock g
            = Crash t.
Proof.
  intros H. unfold add_edge.
  destruct (Z.leb_spec (Z.of_nat (length (nodes_of g))) src); [|lia].
  destruct (node_beyond g src H) as [t ->]. now exists t.
Qed.

Lemma represents_mono (k k' : nat) (nodes : list AdjList) (adj : list (list Z)) :
  (k <= k')%nat -> represents k nodes adj -> represents k' nodes adj.
Proof.
  intros Hk [H2 Hb]. split; [exact H2|].
  eapply Forall_impl; [exact Hb|]. cbn. intros; lia.
Qed.

Lemma represents_insert (k : nat) (nodes : list AdjList) (adj : list (list Z))
  (i : nat) (a : AdjList) (l : list Z) :
  represents k nodes adj -> holds a l -> (length l <= S k)%nat ->
  represents (S k) (<[i := a]> nodes) (<[i := l]> adj).
Proof.
  intros [H2 Hb] Ha Hl. split.
  - now apply Forall2_insert.
  - apply Forall_insert; [|exact Hl].
    eapply Forall_impl; [exact Hb|]. cbn. intros; lia.
Qed.

Lemma take_snoc_insert {A : Type} (cells : list A) (n : nat) (x : A) :
  (n < length cells)%nat ->
  take (S n) (<[n := x]> cells) = take n cells ++ [x].
Proof.
  intros H. rewrite (take_S_r _ _ x) by now apply list_lookup_insert_eq.
  now rewrite take_insert_ge by lia.
Qed.

(** An edge whose source is a node is stored at the end of the node's
    list, unless the list was full and could not be enlarged. *)
Lemma add_edge_valid (heap_ok : nat -> Z -> bool) (k : nat)
  (nodes : list AdjList) (adj : list (list Z)) (src dst : Z) (clock : nat) :
  represents k nodes adj ->
  0 <= src < Z.of_nat (length nodes) ->
  Z.of_nat k < 2 ^ 32 ->
  exists (b : bool) nodes' clock',
    add_edge heap_ok (Z.of_nat (length nodes)) src dst clock (Some nodes)
    = Done (Some nodes', clock')
    /\ represents (S k) nodes' (if b then add adj (src, dst) else adj)
    /\ length nodes' = length nodes
    /\ ((forall c n, heap_ok c n = true) -> b = true).
Proof.
  intros Hrep Hsrc Hk.
  destruct (lookup_lt_is_Some_2 nodes (Z.to_nat src)) as [a Ha]; [lia|].
  destruct Hrep as [H2 Hb].
  destruct (Forall2_lookup_l _ _ _ _ _ H2 Ha) as (l & Hl & Hh).
  pose proof (Forall_lookup_1 _ _ _ _ Hb Hl) as Hlk. cbn in Hlk.
  assert (Hadd : add adj (src, dst) = <[Z.to_nat src := l ++ [dst]]> adj).
  { unfold add. cbn [fst snd].
    exact (alter_insert (fun l => l ++ [dst]) adj (Z.to_nat src) l Hl). }
  unfold add_edge.
  destruct (Z.leb_spec (Z.of_nat (length nodes)) src); [lia|].
  rewrite (node_lookup nodes src a) by (lia || assumption).
  cbn [mbind outcome_mbind outcome_bind].
  destruct Hh as [Hcount Hblock].
  destruct (Z.leb_spec (capacity a) (count a)) as [Hfull|Hroom].
  - (* the list is full *)
    destruct (heap_ok clock _) eqn:Hok; cbn [negb].
    2:{ exists false, nodes, (S clock). split; [reflexivity|].
        split; [apply (represents_mono k); [lia | now split]|].
        split; [reflexivity|]. intros Hg. now rewrite Hg in Hok. }
    destruct (neighbors a) as [|cells|] eqn:Hp; [| |contradiction].
    + destruct Hblock as [Hcap ->]. cbn [length] in Hcount.
      rewrite Hcap, Hcount. cbn [Z.eqb regrow].
      unfold sizeof_u32. rewrite (size_id (4 * 4)) by lia.
      unfold fresh, cells_in, CInt.sizeof_int.
      cbn [mbind outcome_mbind outcome_bind].
      change (Z.to_nat (4 * 4 / 4)) with 4%nat. cbn [replicate store].
      cbn [mbind outcome_mbind outcome_bind].
      exists true. eexists. eexists. split; [reflexivity|].
      split; [|split; [now rewrite length_insert | reflexivity]].
      rewrite Hadd. apply represents_insert; [now split | | cbn; lia].
      split; cbn; [reflexivity|]. repeat split; try lia; try discriminate.
      rewrite length_insert. cbn. lia.
    + destruct Hblock as (Hcap & Hne & Hle & Htake & Hquad).
      assert (Hc : length l = length cells) by lia.
      assert (Hpos : 0 < Z.of_nat (length cells)).
      { destruct l; [contradiction | cbn in Hc; lia]. }
      destruct (Z.eqb_spec (capacity a) 0) as [E|_]; [lia|].
      rewrite Hcap, Hcount.
      rewrite (size_id (Z.of_nat (length cells) * 2)) by lia.
      unfold sizeof_u32.
      rewrite (size_id (Z.of_nat (length cells) * 2 * 4)) by lia.
      cbn [regrow mbind outcome_mbind outcome_bind].
      unfold cells_in, CInt.sizeof_int.
      replace (Z.of_nat (length cells) * 2 * 4 / 4)
        with (Z.of_nat (length cells) * 2) by (rewrite Z.div_mul; lia).
      unfold store. rewrite length_resize.
      destruct (Z.ltb_spec (Z.of_nat (length l)) 0); [lia|].
      destruct (Z.leb_spec
                  (Z.of_nat (Z.to_nat (Z.of_nat (length cells) * 2)))
                  (Z.of_nat (length l))); [lia|].
      cbn [orb mbind outcome_mbind outcome_bind].
      rewrite (size_id (Z.of_nat (length l) + 1)) by lia.
      exists true. eexists. eexists. split; [reflexivity|].
      split; [|split; [now rewrite length_insert | reflexivity]].
      rewrite Hadd. apply represents_insert; [now split | | ].
      2:{ rewrite length_app. cbn. lia. }
      split; cbn [count neighbors capacity].
      { rewrite length_app. cbn. lia. }
      rewrite length_insert, length_resize, length_app. cbn [length].
      rewrite Nat2Z.id.
      repeat split; try lia.
      * now destruct l.
      * replace (length l + 1)%nat with (S (length l)) by lia.
        rewrite take_snoc_insert by (rewrite length_resize; lia).
        rewrite take_resize, Nat.min_l by lia.
        rewrite map_app, <- Htake, Hc, resize_all, take_ge by lia.
        reflexivity.
  - (* there is room *)
    destruct (neighbors a) as [|cells|] eqn:Hp; [| |contradiction].
    { destruct Hblock as [Hcap ->]. cbn in Hcount. lia. }
    destruct Hblock as (Hcap & Hne & Hle & Htake & Hquad).
    unfold store.
    destruct (Z.ltb_spec (count a) 0); [lia|].
    destruct (Z.leb_spec (Z.of_nat (length cells)) (count a)); [lia|].
    cbn [orb mbind outcome_mbind outcome_bind].
    rewrite Hcount, Nat2Z.id.
    rewrite (size_id (Z.of_nat (length l) + 1)) by lia.
    exists true. eexists. eexists. split; [reflexivity|].
    split; [|split; [now rewrite length_insert | reflexivity]].
    rewrite Hadd. apply represents_insert; [now split | | ].
    2:{ rewrite length_app. cbn. lia. }
    split; cbn [count neighbors capacity].
    { rewrite length_app. cbn. lia. }
    rewrite length_insert, length_app. cbn [length].
    repeat split; try lia.
    * now destruct l.
    * replace (length l + 1)%nat with (S (length l)) by lia.
      rewrite take_snoc_insert by lia.
      rewrite Htake, map_app. reflexivity.
Qed.

Lemma length_edges (es : list (Z * Z)) :
  (length es <= String.length (edges es))%nat.
Proof.
  induction es as [|e es IH]; cbn [edges length]; [lia|].
  rewrite !length_append. change (String.length (le32 _)) with 4%nat. lia.
Qed.

(** The edge loop on the edges [es] of a file: it is stopped by the first
    edge whose source is not a node, and otherwise leaves a graph that
    holds what was stored. *)
Lemma read_edges_graph (heap_ok : nat -> Z -> bool) (rest : string) :
  forall (es : list (Z * Z)) (fuel : nat) (i : Z) (k : nat)
         (nodes : list AdjList) (adj : list (list Z)) (clock : nat),
    represents k nodes adj ->
    Forall (fun e => 0 <= e.1 < 2 ^ 32 /\ 0 <= e.2 < 2 ^ 32) es ->
    Z.of_nat (k + length es) < 2 ^ 32 ->
    (length es <= fuel)%nat ->
    (Exists (fun e => Z.of_nat (length nodes) <= e.1) es ->
     exists t,
       read_edges heap_ok fuel i (Z.of_nat (length nodes))
         (i + Z.of_nat (length es)) (edges es ++ rest)%string clock
         (Some nodes)
       = Crash t)
    /\ (Forall (fun e => e.1 < Z.of_nat (length nodes)) es ->
        exists nodes' adj',
          read_edges heap_ok fuel i (Z.of_nat (length nodes))
            (i + Z.of_nat (length es)) (edges es ++ rest)%string clock
            (Some nodes)
          = Done (Some nodes')
          /\ represents (k + length es) nodes' adj'
          /\ length nodes' = length nodes
          /\ ((forall c n, heap_ok c n = true) ->
              adj' = fold_left add es adj)).
Proof.
  induction es as [|e es IH];
    intros fuel i k nodes adj clock Hrep Hfit Hk Hfuel.
  - split; [intros H; inversion H|]. intros _. exists nodes, adj.
    rewrite Nat.add_0_r. cbn [length fold_left].
    split; [|auto].
    destruct fuel; cbn [read_edges]; [reflexivity|].
    destruct (Z.leb_spec (i + Z.of_nat 0) i); [reflexivity | lia].
  - destruct fuel as [|fuel]; [cbn in Hfuel; lia|].
    inversion Hfit as [|? ? [He1 He2] Hfit']; subst.
    cbn [length] in *. cbn [read_edges edges].
    destruct (Z.leb_spec (i + Z.of_nat (S (length es))) i); [lia|].
    rewrite !append_assoc.
    rewrite read_u32_le32 by lia. rewrite read_u32_le32 by lia.
    replace (i + Z.of_nat (S (length es)))
      with (i + 1 + Z.of_nat (length es)) by lia.
    destruct (Z.lt_ge_cases e.1 (Z.of_nat (length nodes))) as [Hv|Hv].
    + destruct (add_edge_valid heap_ok k nodes adj e.1 e.2 clock Hrep
                  ltac:(lia) ltac:(lia))
        as (b & nodes1 & clock1 & E & Hrep1 & Hlen1 & Hb).
      rewrite E. cbn [mbind outcome_mbind outcome_bind fst snd].
      rewrite <- Hlen1.
      destruct (IH fuel (i + 1) (S k) nodes1 _ clock1 Hrep1 Hfit'
                  ltac:(lia) ltac:(lia)) as [IHc IHd].
      split.
      * intros Hex. inversion Hex as [? ? Hhd|? ? Htl]; subst; [lia|].
        apply IHc. exact Htl.
      * intros Hall. inversion Hall as [|? ? _ Hall']; subst.
        destruct IHd as (nodes' & adj' & E' & Hrep' & Hlen' & Hfold).
        { exact Hall'. }
        exists nodes', adj'. split; [exact E'|].
        split; [now replace (k + S (length es))%nat
                  with (S k + length es)%nat by lia|].
        split; [lia|].
        intros Hg. rewrite (Hfold Hg), (Hb Hg). cbn [fold_left].
        now destruct e.
    + split.
      * intros _.
        destruct (add_edge_invalid heap_ok (Some nodes) e.1 e.2 clock Hv)
          as [t E].
        cbn [nodes_of] in E. rewrite E. now exists t.
      * intros Hall. inversion Hall; subst. lia.
Qed.

Lemma total_edges_represents (k : nat) (nodes : list AdjList) :
  forall (adj : list (list Z)) (acc : Z),
    represents k nodes adj ->
    0 <= acc ->
    acc + Z.of_nat (length nodes) * Z.of_nat k < 2 ^ 64 ->
    total_edges nodes acc
    = acc + Text.total (map (fun l => Z.of_nat (length l)) adj).
Proof.
  induction nodes as [|a nodes IH]; intros adj acc [H2 Hb] Hacc Hlt.
  - inversion H2; subst. cbn. unfold Text.total. cbn. lia.
  - inversion H2 as [|? l ? adj' Hh H2']; subst.
    inversion Hb as [|? ? Hl Hb']; subst.
    cbn [total_edges map]. destruct Hh as [Hc _]. rewrite Hc.
    cbn [length] in Hlt.
    unfold to_u64. rewrite Z.mod_small by nia.
    rewrite (IH adj') by (try split; try assumption; nia).
    unfold Text.total. cbn [fold_right]. lia.
Qed.

Lemma fold_targets (l : list Z) :
  forall out : string,
    fold_left (fun out v => (out ++ " " ++ fmt_d v)%string) l out
    = (out ++ targets l)%string.
Proof.
  induction l as [|v l IH]; intros out; cbn [fold_left targets].
  - now rewrite append_nil_r.
  - rewrite IH. now rewrite !append_assoc.
Qed.

Lemma load_targets (cells : list cell) (l : list Z) (j : nat) (v : Z) :
  take (length l) cells = map Some l -> (length l <= length cells)%nat ->
  l !! j = Some v -> load (Live cells) (Z.of_nat j) = Done (Some v).
Proof.
  intros Ht Hle Hj. pose proof (lookup_lt_Some _ _ _ Hj) as Hlt.
  unfold load.
  destruct (Z.ltb_spec (Z.of_nat j) 0); [lia|].
  destruct (Z.leb_spec (Z.of_nat (length cells)) (Z.of_nat j)); [lia|].
  cbn [orb]. rewrite Nat2Z.id.
  rewrite <- (lookup_take_lt cells (length l) j) by lia.
  rewrite Ht, list_lookup_fmap, Hj. reflexivity.
Qed.

(** What [main] prints after the file is closed, for a graph with at
    least one node that holds the lists [l :: adj]. *)
Lemma report_represents (k : nat) (a : AdjList) (nodes : list AdjList)
  (l : list Z) (adj : list (list Z)) :
  represents k (a :: nodes) (l :: adj) ->
  Z.of_nat (length (a :: nodes)) < 2 ^ 32 -> Z.of_nat k < 2 ^ 32 ->
  report (Z.of_nat (length (a :: nodes))) (Some (a :: nodes))
  = Done (("Average out-degree: "
           ++ fmt_d (Text.total (map (fun l => Z.of_nat (length l)) (l :: adj))
                     / Z.of_nat (length (a :: nodes)))
           ++ String "010" "")
          ++ match l with
             | [] => ""
             | _ => "Edges from node 0:" ++ targets l ++ String "010" ""
             end)%string.
Proof.
  intros Hrep Hn Hk. unfold report. cbn [nodes_of].
  rewrite (total_edges_represents k (a :: nodes) (l :: adj) 0 Hrep) by nia.
  rewrite Z.add_0_l.
  assert (Hpos : 0 < Z.of_nat (length (a :: nodes))) by (cbn [length]; lia).
  unfold to_u64. rewrite (Z.mod_small (Z.of_nat (length (a :: nodes)))) by lia.
  destruct (Z.eqb_spec (Z.of_nat (length (a :: nodes))) 0) as [E|_]; [lia|].
  unfold u64_div.
  destruct (Z.eqb_spec (Z.of_nat (length (a :: nodes))) 0) as [E|_]; [lia|].
  cbn [mbind outcome_mbind outcome_bind].
  destruct (Z.ltb_spec 0 (Z.of_nat (length (a :: nodes)))); [|lia].
  rewrite (node_lookup (a :: nodes) 0 a) by (lia || reflexivity).
  cbn [mbind outcome_mbind outcome_bind].
  destruct Hrep as [H2 _]. inversion H2 as [|? ? ? ? [Hc Hblock] _]; subst.
  destruct (neighbors a) as [|cells|] eqn:Hp; [| |contradiction].
  - destruct Hblock as [_ ->]. now rewrite append_nil_r.
  - destruct Hblock as (Hcap & Hne & Hle & Htake & _).
    rewrite for_loop_iter, Hc, Z.sub_0_r, Nat2Z.id.
    destruct (iter_list
                (fun i out => c ← load (Live cells) i; v ← value c;
                              Done (out ++ " " ++ fmt_d v)%string)
                (fun out v => (out ++ " " ++ fmt_d v)%string)
                (fun _ _ => True) l 0 0%nat ""%string) as [E _].
    + intros j v s Hj _. split; [|exact I].
      rewrite Z.add_0_l, (load_targets cells l j v Htake Hle Hj).
      reflexivity.
    + exact I.
    + rewrite E. cbn [mbind outcome_mbind outcome_bind].
      rewrite fold_targets. cbn [append].
      destruct l; [contradiction | reflexivity].
Qed.

(** The lists of a graph without edges. *)
Lemma represents_blank (n : nat) :
  represents 0 (replicate n (mkAdjList Null 0 0)) (replicate n []).
Proof.
  split.
  - induction n; cbn; constructor; [|assumption].
    split; cbn; [reflexivity | split; reflexivity].
  - apply Forall_replicate. cbn. lia.
Qed.

(** The lists that the edges [es] build are the targets of each node's
    edges in the order of the file. *)
Lemma fold_add_lookup (es : list (Z * Z)) (i : nat) :
  forall (adj : list (list Z)) (l : list Z),
    Forall (fun e => 0 <= e.1) es ->
    adj !! i = Some l ->
    fold_left add es adj !! i = Some (l ++ out_of (Z.of_nat i) es).
Proof.
  induction es as [|e es IH]; intros adj l Hes Hl; cbn [fold_left].
  - unfold out_of. cbn. now rewrite app_nil_r.
  - inversion Hes as [|? ? He Hes']; subst.
    unfold out_of. rewrite filter_cons.
    destruct (decide (e.1 = Z.of_nat i)) as [E|E].
    + rewrite (IH (add adj e) (l ++ [e.2])); [|assumption|].
      * cbn [map]. rewrite <- app_assoc. reflexivity.
      * unfold add. rewrite E, Nat2Z.id.
        rewrite list_lookup_alter_eq, Hl. reflexivity.
    + rewrite (IH (add adj e) l); [reflexivity | assumption |].
      unfold add. rewrite list_lookup_alter_ne by lia. exact Hl.
Qed.

Lemma total_add (adj : list (list Z)) (e : Z * Z) :
  0 <= e.1 < Z.of_nat (length adj) ->
  Text.total (map (fun l => Z.of_nat (length l)) (add adj e))
  = Text.total (map (fun l => Z.of_nat (length l)) adj) + 1.
Proof.
  intros H. unfold add.
  assert (Hi : (Z.to_nat e.1 < length adj)%nat) by lia.
  revert Hi. generalize (Z.to_nat e.1). clear H.
  induction adj as [|l adj IH]; intros [|i] Hi; cbn in Hi; try lia.
  - cbn. unfold Text.total. cbn. rewrite length_app. cbn. lia.
  - cbn [alter list_alter map]. unfold Text.total in *. cbn [fold_right].
    specialize (IH i ltac:(lia)). cbn [alter] in IH. lia.
Qed.

Lemma total_fold_add (es : list (Z * Z)) :
  forall adj : list (list Z),
    Forall (fun e => 0 <= e.1 < Z.of_nat (length adj)) es ->
    Text.total (map (fun l => Z.of_nat (length l)) (fold_left add es adj))
    = Text.total (map (fun l => Z.of_nat (length l)) adj)
      + Z.of_nat (length es).
Proof.
  induction es as [|e es IH]; intros adj Hes; cbn [fold_left length].
  - lia.
  - inversion Hes as [|? ? He Hes']; subst.
    rewrite IH.
    + rewrite total_add by assumption. lia.
    + unfold add. now rewrite length_alter.
Qed.

Lemma total_blank (n : nat) :
  Text.total (map (fun l : list Z => Z.of_nat (length l)) (replicate n [])) = 0.
Proof. induction n; cbn; [reflexivity|]. unfold Text.total in *. cbn. lia. Qed.

(** The reading part of [main] on a file of [n] nodes and the edges
    [es], once the block [graphs] was granted. *)
Lemma read_file_graph (heap_ok : nat -> Z -> bool) (n : Z)
  (es : list (Z * Z)) (rest : string) :
  fits n es ->
  heap_ok 0%nat (CInt.to_size_t (n * sizeof_AdjList)) = true ->
  (Exists (fun e => n <= e.1) es ->
   exists t,
     read_file heap_ok (graph_file n es ++ rest)%string = Some (Crash t))
  /\ (Forall (fun e => e.1 < n) es ->
      exists nodes' adj',
        read_file heap_ok (graph_file n es ++ rest)%string
        = Some (Done (n, Some nodes'))
        /\ represents (length es) nodes' adj'
        /\ length nodes' = Z.to_nat n
        /\ ((forall c k, heap_ok c k = true) ->
            adj' = fold_left add es (replicate (Z.to_nat n) []))).
Proof.
  intros (Hn & Hm & Hes) Hok. unfold read_file, graph_file.
  rewrite !append_assoc.
  rewrite read_u32_le32 by lia. rewrite read_u32_le32 by lia.
  rewrite Hok. cbn [negb andb].
  pose proof (read_edges_graph heap_ok rest es
                (S (String.length (edges es ++ rest)%string)) 0 0
                (replicate (Z.to_nat n) (mkAdjList Null 0 0))
                (replicate (Z.to_nat n) []) 1
                (represents_blank (Z.to_nat n)) Hes) as H.
  rewrite length_replicate, Z2Nat.id, Z.add_0_l, Nat.add_0_l in H by lia.
  destruct H as [Hc Hd]; [lia | |].
  { pose proof (length_edges es). rewrite length_append. lia. }
  split.
  - intros Hex. destruct (Hc Hex) as [t E]. rewrite E. now exists t.
  - intros Hall. destruct (Hd Hall) as (nodes' & adj' & E & Hrep & Hlen & Hf).
    rewrite E. exists nodes', adj'.
    split; [reflexivity | split; [exact Hrep | split; [exact Hlen | exact Hf]]].
Qed.

(** Without a node the run always meets a fault: at the first edge, or at
    the division by the number of nodes. *)
Lemma main_no_node (heap_ok : nat -> Z -> bool) (es : list (Z * Z))
  (rest : string) :
  fits 0 es ->
  exists t, main heap_ok (graph_file 0 es ++ rest)%string = Crash t.
Proof.
  intros (Hn & Hm & Hes). unfold main, read_file, graph_file.
  rewrite !append_assoc.
  rewrite read_u32_le32 by lia. rewrite read_u32_le32 by lia.
  change (0 <? 0) with false. rewrite andb_false_r.
  set (g := if heap_ok 0%nat (CInt.to_size_t (0 * sizeof_AdjList))
            then Some (replicate (Z.to_nat 0) (mkAdjList Null 0 0))
            else None).
  assert (Hg : nodes_of g = []) by (subst g; now destruct (heap_ok _ _)).
  destruct es as [|e es].
  - cbn [edges length read_edges append]. change (Z.of_nat 0 <=? 0) with true.
    cbn [mbind outcome_mbind outcome_bind fst snd].
    unfold report. rewrite Hg. cbn. now exists DivideByZero.
  - inversion Hes as [|? ? [He1 He2] _]; subst.
    cbn [edges length read_edges].
    destruct (Z.leb_spec (Z.of_nat (S (length es))) 0); [lia|].
    rewrite !append_assoc.
    rewrite read_u32_le32 by lia. rewrite read_u32_le32 by lia.
    destruct (add_edge_invalid heap_ok g e.1 e.2 1) as [t E].
    { rewrite Hg. cbn. lia. }
    rewrite Hg in E. cbn [length] in E. change (Z.of_nat 0) with 0 in E.
    rewrite E. now exists t.
Qed.

End Bug9Facts.

Section GraphFiles.

Import Libc Bin Format Graphs TextFacts FormatFacts Bug9Facts.
Local Open Scope string_scope.
Local Open Scope Z_scope.

(** X28 (bug9.c, [main]): on a file that holds the two counts and all the
    edges they announce (every number fits its four bytes), followed by
    anything, the run leaves defined behaviour exactly when there is no
    node (the average divides by a node count of 0; with edges, the first
    one is stored outside the empty or missing block), or when the block
    [graphs] was granted and some edge names a source that is not a node
    (its list is then written outside [graphs]). The embedding records
    these as faults. Whether later requests for memory are granted makes
    no difference: with at least one node and every source a node, the
    run is free of such accesses under every allocator. *)
Theorem graph_run_faults_iff (heap_ok : nat -> Z -> bool) (n : Z)
  (es : list (Z * Z)) (rest : string) :
  fits n es ->
  (exists t, Bug9.main heap_ok (graph_file n es ++ rest) = Crash t)
  <-> n = 0
      \/ (heap_ok 0%nat (CInt.to_size_t (n * Bug9.sizeof_AdjList)) = true
          /\ Exists (fun e => n <= e.1) es).
Proof.
  intros Hfit.
  destruct (Z.eq_dec n 0) as [->|Hn0].
  { split; [now left | intros _; now apply main_no_node]. }
  pose proof Hfit as (Hn & Hm & Hes).
  destruct (heap_ok 0%nat (CInt.to_size_t (n * Bug9.sizeof_AdjList))) eqn:Hok.
  - destruct (read_file_graph heap_ok n es rest Hfit Hok) as [Hc Hd].
    destruct (decide (Exists (fun e : Z * Z => n <= e.1) es)) as [Hex|Hnex].
    + split; [intros _; right; now split|]. intros _.
      destruct (Hc Hex) as [t E]. unfold Bug9.main. rewrite E. now exists t.
    + split; [|intros [?|[_ ?]]; [lia | contradiction]].
      intros [t E]. exfalso.
      assert (Hall : Forall (fun e : Z * Z => e.1 < n) es).
      { apply Forall_forall. intros e He.
        destruct (Z.lt_ge_cases e.1 n); [assumption|].
        exfalso. apply Hnex. apply Exists_exists. now exists e. }
      destruct (Hd Hall) as (nodes' & adj' & E' & Hrep & Hlen & _).
      unfold Bug9.main in E. rewrite E' in E.
      cbn [mbind outcome_mbind outcome_bind fst snd] in E.
      destruct nodes' as [|a nodes']; [cbn in Hlen; lia|].
      destruct Hrep as [H2 Hb].
      inversion H2 as [|? l ? adj Hh H2']; subst.
      replace n with (Z.of_nat (length (a :: nodes'))) in E by lia.
      rewrite (report_represents (length es) a nodes' l adj) in E;
        [discriminate | now split | lia | lia].
  - split; [|intros [?|[? _]]; [lia | discriminate]].
    intros [t E]. exfalso. revert E.
    unfold Bug9.main, Bug9.read_file, graph_file.
    rewrite !append_assoc.
    rewrite read_u32_le32 by lia. rewrite read_u32_le32 by lia.
    rewrite Hok. destruct (Z.ltb_spec 0 n); [|lia]. discriminate.
Qed.

Lemma graph_run_faults_iff_witness :
  exists t,
    Bug9.main (fun _ _ => true) (graph_file 2 [(0, 1); (2, 0)]) = Crash t.
Proof.
  assert (Hfit : fits 2 [(0, 1); (2, 0)]).
  { unfold fits. cbn [length]. repeat split; try lia.
    repeat constructor; cbn; lia. }
  pose proof (graph_run_faults_iff (fun _ _ => true) 2 [(0, 1); (2, 0)] ""
                Hfit) as [_ H].
  rewrite append_nil_r in H. apply H. right. split; [reflexivity|].
  right. left. cbn. lia.
Defined.

(** X29 (bug9.c, [main]): when every allocation is granted, a file of at
    least one node whose edges all start at a node is reported in full:
    the program prints the number of edges divided by the number of
    nodes (rounded down) and, if edges leave node 0, their targets in
    the order of the file. *)
Theorem graph_file_is_reported (heap_ok : nat -> Z -> bool) (n : Z)
  (es : list (Z * Z)) (rest : string) :
  (forall c k, heap_ok c k = true) ->
  fits n es -> 0 < n ->
  Forall (fun e => e.1 < n) es ->
  Bug9.main heap_ok (graph_file n es ++ rest)
  = Done (("Average out-degree: " ++ fmt_d (Z.of_nat (length es) / n)
           ++ String "010" "")
          ++ match out_of 0 es with
             | [] => ""
             | l => "Edges from node 0:" ++ targets l ++ String "010" ""
             end).
Proof.
  intros Hgrant Hfit Hpos Hall.
  pose proof Hfit as (Hn & Hm & Hes).
  destruct (read_file_graph heap_ok n es rest Hfit (Hgrant _ _)) as [_ Hd].
  destruct (Hd Hall) as (nodes' & adj' & E & Hrep & Hlen & Hf).
  specialize (Hf Hgrant).
  unfold Bug9.main. rewrite E.
  cbn [mbind outcome_mbind outcome_bind fst snd].
  destruct nodes' as [|a nodes']; [cbn in Hlen; lia|].
  destruct adj' as [|l adj]; [destruct Hrep as [H2 _]; inversion H2|].
  assert (Hl : l = out_of 0 es).
  { assert (Hlook : fold_left add es (replicate (Z.to_nat n) []) !! 0%nat
                    = Some ([] ++ out_of (Z.of_nat 0) es)%list).
    { apply fold_add_lookup.
      - eapply Forall_impl; [exact Hes|]. cbn. tauto.
      - apply lookup_replicate_2. lia. }
    rewrite <- Hf in Hlook. cbn in Hlook. now injection Hlook. }
  assert (Htot : Text.total (map (fun l => Z.of_nat (length l)) (l :: adj))
                 = Z.of_nat (length es)).
  { rewrite Hf, total_fold_add, total_blank; [lia|].
    rewrite length_replicate.
    apply Forall_forall. intros e He.
    pose proof (proj1 (Forall_forall _ _) Hes e He).
    pose proof (proj1 (Forall_forall _ _) Hall e He). cbn in *. lia. }
  replace n with (Z.of_nat (length (a :: nodes'))) by lia.
  rewrite (report_represents (length es) a nodes' l adj Hrep) by lia.
  rewrite Htot, Hl. now destruct (out_of 0 es).
Qed.

Lemma graph_file_is_reported_witness :
  Bug9.main (fun _ _ => true) (graph_file 2 [(0, 1); (1, 0); (0, 0)])
  = Done ("Average out-degree: 1" ++ String "010" "Edges from node 0: 1 0"
          ++ String "010" "").
Proof.
  assert (Hfit : fits 2 [(0, 1); (1, 0); (0, 0)]).
  { unfold fits. cbn [length]. repeat split; try lia.
    repeat constructor; cbn; lia. }
  assert (Hall : Forall (fun e : Z * Z => e.1 < 2) [(0, 1); (1, 0); (0, 0)])
    by (repeat constructor; cbn; lia).
  pose proof (graph_file_is_reported (fun _ _ => true) 2
                [(0, 1); (1, 0); (0, 0)] "" (fun _ _ => eq_refl) Hfit
                ltac:(lia) Hall) as H.
  rewrite append_nil_r in H. exact H.
Defined.

End GraphFiles.

Section ShortFiles.

Import Libc Bin Bug1Facts TextFacts FormatFacts.
Local Open Scope string_scope.
Local Open Scope Z_scope.

(** X30 (bug8.c, bug9.c, bug10.c, [main]): a file that ends before its
    header is complete (fewer than four bytes, for bug9.c fewer than
    eight) makes each program return without printing anything, whatever
    the allocator would do. *)
Theorem short_file_prints_nothing (heap_ok : nat -> Z -> bool) (file : string) :
  (String.length file < 8)%nat ->
  Bug9.main heap_ok file = Done ""
  /\ ((String.length file < 4)%nat ->
      Bug8.main heap_ok file = Done [] /\ Bug10.main heap_ok file = Done []).
Proof.
  intros H8. split.
  - unfold Bug9.main, Bug9.read_file.
    destruct (read_u32 file) as [[v|] f] eqn:E1; [|reflexivity].
    assert (Hf : (String.length f < 4)%nat).
    { unfold read_u32 in E1. destruct (fread 4 file) as [b r] eqn:E.
      pose proof (fread_split _ _ _ _ E) as Hs.
      destruct (Nat.eqb_spec (String.length b) 4) as [Hb|]; [|discriminate].
      injection E1 as _ <-. subst file. rewrite length_append in H8. lia. }
    pose proof (read_u32_short f Hf) as E2.
    destruct (read_u32 f) as [[w|] f']; [discriminate | reflexivity].
  - intros H4. pose proof (read_u32_short file H4) as E.
    unfold Bug8.main, Bug8.read_file, Bug10.main, Bug10.read_file.
    destruct (read_u32 file) as [[v|] f]; [discriminate|]. now split.
Qed.

Lemma short_file_prints_nothing_witness :
  Bug9.main (fun _ _ => false) (Format.le32 3 ++ "abc") = Done "".
Proof.
  assert (H : (String.length (Format.le32 3 ++ "abc") < 8)%nat)
    by (cbn; lia).
  exact (proj1 (short_file_prints_nothing (fun _ _ => false)
                  (Format.le32 3 ++ "abc") H)).
Defined.

End ShortFiles.
